(** * Joint Decorrelation (mne_addon/joint_decorreltaion.py)

    A shallow embedding of the module [joint_decorreltaion.py]: the class
    [JointDecorrelation] (constructor, [fit], [get_components],
    [reproject_components], [sort_epochs], [_transform]) and the function
    [bootstrap_components].

    numpy arrays are modelled with their shape kept next to their cells,
    as numpy keeps it, so that empty axes and shape errors behave as in
    the source.  Python exceptions are values of [exn]; a method that
    mutates [self] is a function from the object before the call to the
    outcome and the object after it, so that what a raising call leaves
    behind stays visible.

    float64 arithmetic, LAPACK's eigensolver, numpy's argsort and
    percentile and scipy's detrend are not part of the module: they are
    taken as an interface ([Float], [Library]); every theorem holds for
    each implementation of it, and the worked examples run on an exact
    rational implementation ([Exact]) and, where infinities and NaN
    matter, on one with a non-finite value ([Extended]).  The trial
    container is mne's: indexing by a condition label follows mne's tag
    matching and [mne.EpochsArray] refuses what mne refuses. *)

From Stdlib Require Import Ascii String DecimalString.
From Stdlib Require Import List ZArith QArith Qabs Qround Lia Bool Arith
  Permutation.
Import ListNotations.

Open Scope string_scope.
Open Scope nat_scope.

(** ** Exceptions and results *)

(** The exceptions a call into the module can end with.  [ValueError]
    carries the message of a [raise] statement of the module itself; the
    other constructors are raised by Python or by numpy on its behalf. *)
Inductive exn : Type :=
| ValueError (msg : string)        (* raise ValueError(msg) in the module *)
| KeyError (label : option string) (* epochs[label], event_id[label]: no
                                      such condition *)
| ShapeError                       (* numpy: shapes not aligned, not
                                      broadcastable, not reshapable, or
                                      a negative dimension *)
| MatmulNone                       (* numpy: None as an operand of @ *)
| IndexError                       (* numpy: index out of bounds, or an
                                      index that is no integer (None) *)
| LinAlgError                      (* numpy.linalg.eig gave up *)
| DetrendError                     (* scipy.signal.detrend: an array it
                                      fits no line to (ValueError) *)
| ContainerError                   (* mne.EpochsArray refuses its
                                      arguments *)
| PercentileError                  (* numpy: percentile outside [0, 100] *)
| TypeError                        (* arithmetic between a number and a tuple *)
| UnboundLocalError (name : string).

Inductive result (A : Type) : Type :=
| Ok (a : A)
| Err (e : exn).
Arguments Ok {A} a.
Arguments Err {A} e.

Definition bind {A B} (r : result A) (k : A -> result B) : result B :=
  match r with
  | Ok a => k a
  | Err e => Err e
  end.

Declare Scope result_scope.
Delimit Scope result_scope with result.
Notation "x <- r ;; k" := (bind r (fun x => k))
  (at level 100, r at next level, right associativity) : result_scope.
Notation "' p <- r ;; k" := (bind r (fun p => k))
  (at level 100, p pattern, r at next level, right associativity) : result_scope.

Definition is_ok {A} (r : result A) : bool :=
  match r with Ok _ => true | Err _ => false end.

(** ** float64 as an interface *)

Class Float (F : Type) : Type := {
  of_Z : Z -> F;
  fadd : F -> F -> F;
  fsub : F -> F -> F;
  fmul : F -> F -> F;
  fdiv : F -> F -> F;
  fsqrt : F -> F;
  fabs : F -> F
}.

(** ** numpy arrays *)

Record matrix (F : Type) : Type := Matrix {
  nrows : nat;
  ncols : nat;
  rows : list (list F)
}.
Arguments Matrix {F} _ _ _.
Arguments nrows {F} _.
Arguments ncols {F} _.
Arguments rows {F} _.

Record tensor (F : Type) : Type := Tensor {
  dim0 : nat;
  dim1 : nat;
  dim2 : nat;
  cells : list (list (list F))
}.
Arguments Tensor {F} _ _ _ _.
Arguments dim0 {F} _.
Arguments dim1 {F} _.
Arguments dim2 {F} _.
Arguments cells {F} _.

Section Arrays.
Context {F : Type} `{Float F}.

Definition fzero : F := of_Z 0%Z.
Definition fone : F := of_Z 1%Z.

(** [x.sum()] of a 1-D array. *)
Definition fsum (l : list F) : F := fold_left fadd l fzero.

(** An array given cell by cell. *)
Definition tabulate (r c : nat) (f : nat -> nat -> F) : matrix F :=
  Matrix r c (map (fun i => map (f i) (seq 0 c)) (seq 0 r)).

Definition get (M : matrix F) (i j : nat) : F :=
  nth j (nth i (rows M) []) fzero.

Definition tabulate3 (a b c : nat) (f : nat -> nat -> nat -> F) : tensor F :=
  Tensor a b c
    (map (fun i => map (fun j => map (f i j) (seq 0 c)) (seq 0 b)) (seq 0 a)).

Definition get3 (T : tensor F) (i j k : nat) : F :=
  nth k (nth j (nth i (cells T) []) []) fzero.

(** The cells agree with the shape. *)
Definition wf (M : matrix F) : Prop :=
  length (rows M) = nrows M /\
  Forall (fun r => length r = ncols M) (rows M).

Definition wf3 (T : tensor F) : Prop :=
  length (cells T) = dim0 T /\
  Forall (fun m => length m = dim1 T /\
                   Forall (fun r => length r = dim2 T) m) (cells T).

(** [A @ B] for two 2-D arrays. *)
Definition matmul (A B : matrix F) : result (matrix F) :=
  if ncols A =? nrows B then
    Ok (tabulate (nrows A) (ncols B)
          (fun i j => fsum (map (fun k => fmul (get A i k) (get B k j))
                                (seq 0 (ncols A)))))
  else Err ShapeError.

(** [M.T] *)
Definition transpose (M : matrix F) : matrix F :=
  tabulate (ncols M) (nrows M) (fun i j => get M j i).

(** [np.diag(v)] for a 1-D [v]. *)
Definition diag (v : list F) : matrix F :=
  tabulate (length v) (length v)
    (fun i j => if i =? j then nth i v fzero else fzero).

(** [np.diag(M)] for a 2-D [M]. *)
Definition diagonal (M : matrix F) : list F :=
  map (fun i => get M i i) (seq 0 (Nat.min (nrows M) (ncols M))).

(** [np.identity(n)] *)
Definition identity (n : nat) : matrix F :=
  tabulate n n (fun i j => if i =? j then fone else fzero).

(** [np.tile(M, k)]: [k] copies of [M] side by side. *)
Definition tile (M : matrix F) (k : nat) : matrix F :=
  tabulate (nrows M) (ncols M * k) (fun i j => get M i (j mod ncols M)).

(** [M * x] *)
Definition scale (M : matrix F) (x : F) : matrix F :=
  tabulate (nrows M) (ncols M) (fun i j => fmul (get M i j) x).

(** [np.concatenate([A, B], axis=1)] *)
Definition hconcat (A B : matrix F) : result (matrix F) :=
  if nrows A =? nrows B then
    Ok (tabulate (nrows A) (ncols A + ncols B)
          (fun i j => if j <? ncols A then get A i j
                      else get B i (j - ncols A)))
  else Err ShapeError.

(** [v[idx]] and [M[:, idx]] with an index array. *)
Definition vec_select (v : list F) (idx : list nat) : result (list F) :=
  if forallb (fun i => i <? length v) idx
  then Ok (map (fun i => nth i v fzero) idx)
  else Err IndexError.

Definition col_select (M : matrix F) (idx : list nat) : result (matrix F) :=
  if forallb (fun j => j <? ncols M) idx
  then Ok (tabulate (nrows M) (length idx)
             (fun i j => get M i (nth j idx 0)))
  else Err IndexError.

(** [l[0:k]] for a Python integer [k]. *)
Definition slice_to {A : Type} (k : Z) (l : list A) : list A :=
  if (k <? 0)%Z then firstn (length l - Z.to_nat (- k)) l
  else firstn (Z.to_nat k) l.

(** [np.transpose(T, (1, 0, 2))] *)
Definition transpose102 (T : tensor F) : tensor F :=
  tabulate3 (dim1 T) (dim0 T) (dim2 T) (fun c t s => get3 T t c s).

(** [T.reshape(r, c)]: the cells keep their row-major rank. *)
Definition reshape2 (T : tensor F) (r c : nat) : result (matrix F) :=
  if r * c =? dim0 T * dim1 T * dim2 T then
    Ok (tabulate r c
          (fun i j =>
             let p := i * c + j in
             get3 T (p / (dim1 T * dim2 T)) ((p / dim2 T) mod dim1 T)
                    (p mod dim2 T)))
  else Err ShapeError.

(** [np.reshape(M, [-1, b, c])]: numpy infers the first axis. *)
Definition reshape3_infer (M : matrix F) (b c : nat) : result (tensor F) :=
  let size := nrows M * ncols M in
  if (b * c =? 0) || negb (size mod (b * c) =? 0) then Err ShapeError
  else
    Ok (tabulate3 (size / (b * c)) b c
          (fun i j k =>
             let p := (i * b + j) * c + k in
             get M (p / ncols M) (p mod ncols M))).

(** [np.concatenate([A, B])] along the first axis. *)
Definition concatenate (A B : tensor F) : result (tensor F) :=
  if (dim1 A =? dim1 B) && (dim2 A =? dim2 B) then
    Ok (tabulate3 (dim0 A + dim0 B) (dim1 A) (dim2 A)
          (fun t c s => if t <? dim0 A then get3 A t c s
                        else get3 B (t - dim0 A) c s))
  else Err ShapeError.

(** [T[indices, :, :]] *)
Definition take_trials (T : tensor F) (indices : list nat)
  : result (tensor F) :=
  if forallb (fun i => i <? dim0 T) indices
  then Ok (tabulate3 (length indices) (dim1 T) (dim2 T)
             (fun t c s => get3 T (nth t indices 0) c s))
  else Err IndexError.

(** [np.zeros([a, b, c])] *)
Definition zeros (a b c : nat) : tensor F :=
  tabulate3 a b c (fun _ _ _ => fzero).

(** [T.shape] *)
Definition shape (T : tensor F) : nat * nat * nat :=
  (dim0 T, dim1 T, dim2 T).

(** One time series of a trial tensor. *)
Definition series (T : tensor F) (t c : nat) : list F :=
  map (get3 T t c) (seq 0 (dim2 T)).

End Arrays.

(** ** The numerical libraries as an interface *)

(** [linalg_eig] is [np.linalg.eig] (eigenvalues, then eigenvectors as
    columns), [argsort] is [np.argsort], [detrend] is
    [scipy.signal.detrend(., axis=-1, type="linear")] on a 3-D array,
    which raises on arrays it fits no line to (one without cells, for
    one), [percentile_of] is [np.percentile] on one 1-D sample and
    [percentile_ok] its test that the requested percentile is in range. *)
Class Library (F : Type) `{Float F} : Type := {
  linalg_eig : matrix F -> result (list F * matrix F);
  argsort : list F -> list nat;
  detrend : tensor F -> result (tensor F);
  percentile_ok : F -> bool;
  percentile_of : list F -> F -> F
}.

(** What numpy documents about these functions and the proofs rely on:
    the eigensolver of an n x n array returns n eigenvalues and an n x n
    array of eigenvectors and fails with [LinAlgError] only; [argsort]
    returns a permutation of the positions. *)
Class LibraryLaws (F : Type) `{Library F} : Prop := {
  eig_shape : forall M D V,
    linalg_eig M = Ok (D, V) ->
    length D = nrows M /\ nrows V = nrows M /\ ncols V = nrows M;
  eig_raises : forall M e, linalg_eig M = Err e -> e = LinAlgError;
  argsort_perm : forall D, Permutation (argsort D) (seq 0 (length D))
}.

(** What float64 has beyond the arithmetic: [isfinite] is [np.isfinite]
    (neither an infinity nor a NaN) and [fle] is [<=]. *)
Class Finiteness (F : Type) : Type := {
  isfinite : F -> bool;
  fle : F -> F -> bool
}.

(** IEEE 754 and numpy on values that are not finite: a sum or a product
    with an operand that is not finite is not finite; for a finite
    d <= 0 the value sqrt(1 / d) is an infinity or a NaN; and the
    eigensolver refuses an array with a cell that is not finite. *)
Class FiniteLaws (F : Type) {fl : Float F} {lib : Library F}
    {fin : Finiteness F} : Prop := {
  add_finite : forall a b,
    isfinite (fadd a b) = true -> isfinite a = true /\ isfinite b = true;
  mul_finite : forall a b,
    isfinite (fmul a b) = true -> isfinite a = true /\ isfinite b = true;
  whitening_nonpositive : forall d,
    isfinite d = true -> fle d (of_Z 0) = true ->
    isfinite (fsqrt (fdiv (of_Z 1) d)) = false;
  eig_finite : forall M D V,
    linalg_eig M = Ok (D, V) ->
    forall i j, i < nrows M -> j < ncols M -> isfinite (get M i j) = true
}.

(** ** The trial container (mne.Epochs, outside the module) *)

Record Info (F : Type) : Type := MkInfo {
  nchan : nat;
  sfreq : F
}.
Arguments MkInfo {F} _ _.
Arguments nchan {F} _.
Arguments sfreq {F} _.

(** [events] holds one row (sample, previous code, code) per trial;
    [event_id] is the dict from condition label to code, in insertion
    order. *)
Record Epochs (F : Type) : Type := MkEpochs {
  _data : tensor F;
  info : Info F;
  events : list (Z * Z * Z);
  event_id : list (string * Z);
  tmin : F
}.
Arguments MkEpochs {F} _ _ _ _ _.
Arguments _data {F} _.
Arguments info {F} _.
Arguments events {F} _.
Arguments event_id {F} _.
Arguments tmin {F} _.

Definition event_code (ev : Z * Z * Z) : Z := snd ev.
Definition event_sample (ev : Z * Z * Z) : Z := fst (fst ev).

(** [label.split("/")] *)
Fixpoint split_tags (s : string) : list string :=
  match s with
  | EmptyString => [EmptyString]
  | String c s' =>
      if Ascii.eqb c "/"%char then EmptyString :: split_tags s'
      else match split_tags s' with
           | t :: ts => String c t :: ts
           | [] => [String c EmptyString]
           end
  end.

(** [set(label.split("/")).issubset(key.split("/"))]: mne's test that
    the key of [event_id] carries every tag of the label. *)
Definition tags_match (label key : string) : bool :=
  forallb (fun t => existsb (String.eqb t) (split_tags key))
          (split_tags label).

(** The samples of the events are pairwise distinct. *)
Fixpoint distinct (l : list Z) : bool :=
  match l with
  | [] => true
  | x :: l' => negb (existsb (Z.eqb x) l') && distinct l'
  end.

(** [str(code)] *)
Definition str (code : Z) : string := NilZero.string_of_int (Z.to_int code).

Fixpoint insert_code (c : Z) (l : list Z) : list Z :=
  match l with
  | [] => [c]
  | d :: l' => if (c <? d)%Z then c :: l
               else if (c =? d)%Z then l
               else d :: insert_code c l'
  end.

(** [np.unique(events[:, 2])] *)
Definition unique_codes (evs : list (Z * Z * Z)) : list Z :=
  fold_right insert_code [] (map event_code evs).

Section Container.
Context {F : Type} `{Float F}.

(** The entries of [event_id] a label selects: every key that carries
    all the tags of the label. *)
Definition matching_ids (e : Epochs F) (l : string) : list (string * Z) :=
  filter (fun kv => tags_match l (fst kv)) (event_id e).

(** The positions of the trials whose event code is one of [codes]. *)
Definition trials_with_codes (e : Epochs F) (codes : list Z) : list nat :=
  filter (fun i => existsb (Z.eqb (event_code (nth i (events e) (0, 0, 0)%Z)))
                           codes)
         (seq 0 (dim0 (_data e))).

(** [epochs[label]] for a container without metadata: the trials of
    every condition whose key carries the tags of the label, in the
    order of the input.  [None] is no label: numpy refuses it as an
    index; a label no key matches is a [KeyError].  The selection keeps
    the entries of [event_id] that still have an event. *)
Definition getitem (e : Epochs F) (label : option string)
  : result (Epochs F) :=
  match label with
  | None => Err IndexError
  | Some l =>
      match matching_ids e l with
      | [] => Err (KeyError (Some l))
      | ids =>
          let idx := trials_with_codes e (map snd ids) in
          let evs := map (fun i => nth i (events e) (0, 0, 0)%Z) idx in
          Ok (MkEpochs
                (tabulate3 (length idx) (dim1 (_data e)) (dim2 (_data e))
                   (fun t c s => get3 (_data e) (nth t idx 0) c s))
                (info e)
                evs
                (filter (fun kv => existsb (Z.eqb (snd kv))
                                           (map event_code evs))
                        (event_id e))
                (tmin e))
      end
  end.

(** [mne.EpochsArray(data, info, events, tmin)].  mne refuses an [info]
    whose channel count is not that of the data, a container without
    channels, events that are not one per trial and events that share a
    sample.  The condition labels of an array built without [event_id]
    are the codes' decimal names. *)
Definition EpochsArray (data : tensor F) (i : Info F)
    (evs : list (Z * Z * Z)) (t0 : F) : result (Epochs F) :=
  if (nchan i =? dim1 data) && (0 <? dim1 data) &&
     (length evs =? dim0 data) && distinct (map event_sample evs)
  then Ok (MkEpochs data i evs
             (map (fun c => (str c, c)) (unique_codes evs)) t0)
  else Err ContainerError.

(** A container as mne builds it: as many channels as [info] counts and
    one event per trial, at pairwise distinct samples. *)
Definition consistent (e : Epochs F) : Prop :=
  nchan (info e) = dim1 (_data e) /\
  length (events e) = dim0 (_data e) /\
  distinct (map event_sample (events e)) = true.

(** [mne.create_info(n, sfreq, ch_types="eeg")] *)
Definition create_info (n : nat) (sf : F) : Info F := MkInfo n sf.

(** [epochs.average().data]: the mean over the trial axis. *)
Definition average (e : Epochs F) : matrix F :=
  let T := _data e in
  tabulate (dim1 T) (dim2 T)
    (fun c s => fdiv (fsum (map (fun t => get3 T t c s) (seq 0 (dim0 T))))
                     (of_Z (Z.of_nat (dim0 T)))).

End Container.

(** ** class JointDecorrelation *)

Record JointDecorrelation (F : Type) : Type := MkJD {
  kind : string;
  mixing : option (matrix F);
  unmixing : option (matrix F)
}.
Arguments MkJD {F} _ _ _.
Arguments kind {F} _.
Arguments mixing {F} _.
Arguments unmixing {F} _.

(** A method body: it reads and assigns attributes of [self] and may
    raise; the object it leaves behind is returned in either case. *)
Definition method (F A : Type) : Type :=
  JointDecorrelation F -> result A * JointDecorrelation F.

Definition mret {F A} (a : A) : method F A := fun self => (Ok a, self).

Definition mbind {F A B} (m : method F A) (k : A -> method F B)
  : method F B :=
  fun self =>
    match m self with
    | (Ok a, self') => k a self'
    | (Err e, self') => (Err e, self')
    end.

(** A computation that does not touch [self]. *)
Definition lift {F A} (r : result A) : method F A := fun self => (r, self).

Definition attr {F A} (f : JointDecorrelation F -> A) : method F A :=
  fun self => (Ok (f self), self).

Definition set_unmixing {F} (U : matrix F) : method F unit :=
  fun self => (Ok tt, MkJD (kind self) (mixing self) (Some U)).

Definition set_mixing {F} (M : matrix F) : method F unit :=
  fun self => (Ok tt, MkJD (kind self) (Some M) (unmixing self)).

Declare Scope method_scope.
Delimit Scope method_scope with method.
Notation "x <- m ;; k" := (mbind m (fun x => k))
  (at level 100, m at next level, right associativity) : method_scope.
Notation "' p <- m ;; k" := (mbind m (fun p => k))
  (at level 100, p pattern, m at next level, right associativity)
  : method_scope.
Notation "m ;;; k" := (mbind m (fun _ => k))
  (at level 100, right associativity) : method_scope.

Section Model.
Context {F : Type} `{Library F}.

(** An attribute used as an operand of [@]. *)
Definition operand (a : option (matrix F)) : result (matrix F) :=
  match a with
  | Some M => Ok M
  | None => Err MatmulNone
  end.

(** [JointDecorrelation(kind)] *)
Definition __init__ (k : string) : result (JointDecorrelation F) :=
  if String.eqb k "evoked" || String.eqb k "difference"
  then Ok (MkJD k None None)
  else Err (ValueError "kind must be either 'evoked' or 'difference'!").

(** [_transform(X, L, keep1, keep2)], lines 86-104. *)
Definition _transform (X L : matrix F) (keep1 keep2 : Z)
  : result (matrix F * matrix F * matrix F) :=
  (C0 <- matmul (transpose X) X ;;
   '(D, P) <- linalg_eig C0 ;;
   let idx := slice_to keep1 (rev (argsort D)) in
   D <- vec_select D idx ;;
   P <- col_select P idx ;;
   let N := diag (map (fun d => fsqrt (fdiv fone d)) D) in
   XP <- matmul X P ;;
   Zs <- matmul XP N ;;
   Zbar <- matmul L Zs ;;
   C1 <- matmul (transpose Zbar) Zbar ;;
   '(Dz, Q) <- linalg_eig C1 ;;
   let idx := slice_to keep2 (rev (argsort Dz)) in
   Dz <- vec_select Dz idx ;;
   Q <- col_select Q idx ;;
   Ok (P, N, Q))%result.

(** Lines 88-99 of [_transform] on their own: the retained eigenvalues,
    [P], [N] and the covariance [C1] of the bias-filtered data. *)
Definition bias_covariance (X L : matrix F) (keep1 : Z)
  : result (list F * matrix F * matrix F * matrix F) :=
  (C0 <- matmul (transpose X) X ;;
   '(D, P) <- linalg_eig C0 ;;
   let idx := slice_to keep1 (rev (argsort D)) in
   D <- vec_select D idx ;;
   P <- col_select P idx ;;
   let N := diag (map (fun d => fsqrt (fdiv fone d)) D) in
   XP <- matmul X P ;;
   Zs <- matmul XP N ;;
   Zbar <- matmul L Zs ;;
   C1 <- matmul (transpose Zbar) Zbar ;;
   Ok (D, P, N, C1))%result.

(** [P @ N @ Q] *)
Definition compose_unmixing (P N Q : matrix F) : result (matrix F) :=
  (PN <- matmul P N ;; matmul PN Q)%result.

(** [Q.T @ np.diag(1/np.diag(N)) @ P.T] *)
Definition compose_mixing (P N Q : matrix F) : result (matrix F) :=
  (QN <- matmul (transpose Q) (diag (map (fdiv fone) (diagonal N))) ;;
   matmul QN (transpose P))%result.

(** Lines 45-46 (and 62-63, 71-72): the trial tensor as a 2-D array. *)
Definition flatten (T : tensor F) : result (matrix F) :=
  (X <- reshape2 (transpose102 T) (dim1 T) (dim0 T * dim2 T) ;;
   Ok (transpose X))%result.

(** Lines 65 and 75: a 2-D array back as a trial tensor. *)
Definition unflatten (Y : matrix F) (n_epochs n_times : nat)
  : result (tensor F) :=
  (T <- reshape3_infer (transpose Y) n_epochs n_times ;;
   Ok (transpose102 T))%result.

(** Lines 25-36: the defaults of the keeps and of the conditions.
    [keep3] stays [None] outside "difference". *)
Definition fit_defaults (k : string) (epochs : Epochs F)
    (keep1 keep2 keep3 : option Z) (condition1 condition2 : option string)
  : result (Z * Z * option Z * option string * option string) :=
  let keep1 := match keep1 with
               | Some v => v
               | None => Z.of_nat (nchan (info epochs))
               end in
  let keep2 := match keep2 with Some v => v | None => keep1 end in
  let keep3 := match keep3 with
               | Some v => Some v
               | None => if String.eqb k "difference" then Some keep2
                         else None
               end in
  match condition1, condition2, String.eqb k "difference" with
  | None, None, true =>
      match map fst (event_id epochs) with
      | [a; b] => Ok (keep1, keep2, keep3, Some a, Some b)
      | _ => Err (ValueError
               ("If conditions are not specified, " ++
                "epochs must contain exactly two types of events!"))
      end
  | _, _, _ => Ok (keep1, keep2, keep3, condition1, condition2)
  end.

(** Lines 38-41: what [X] is bound to before detrending; [None] when
    neither branch binds it. *)
Definition selected_trials (k : string) (epochs : Epochs F)
    (condition1 : option string) : result (option (tensor F)) :=
  if String.eqb k "evoked" then Ok (Some (_data epochs))
  else if String.eqb k "difference" then
    (A <- getitem epochs condition1 ;;
     A' <- getitem epochs condition1 ;;
     X <- concatenate (_data A) (_data A') ;;
     Ok (Some X))%result
  else Ok None.

(** Lines 42-44: [X] after the optional detrending (the [print] is not
    modelled). *)
Definition detrended (X : option (tensor F)) (detrending : bool)
  : result (option (tensor F)) :=
  if detrending then
    match X with
    | Some T => (T' <- detrend T ;; Ok (Some T'))%result
    | None => Err (UnboundLocalError "X")
    end
  else Ok X.

(** Lines 37-47: the arguments [X] and [L] of the first call of
    [_transform].  Line 45 binds [X] anew from [epochs._data]. *)
Definition stage1_input (k : string) (epochs : Epochs F)
    (condition1 : option string) (detrending : bool)
  : result (matrix F * matrix F) :=
  let n_epochs := dim0 (_data epochs) in
  let n_times := dim2 (_data epochs) in
  (X <- selected_trials k epochs condition1 ;;
   X <- detrended X detrending ;;
   X <- flatten (_data epochs) ;;
   let L := tile (identity n_times) n_epochs in
   Ok (X, L))%result.

(** Lines 52-54: the signed bias filter of the second stage. *)
Definition stage2_filter (epochs : Epochs F)
    (condition1 condition2 : option string) : result (matrix F) :=
  let n_times := dim2 (_data epochs) in
  (A <- getitem epochs condition1 ;;
   B <- getitem epochs condition2 ;;
   hconcat (tile (identity n_times) (dim0 (_data A)))
           (scale (tile (identity n_times) (dim0 (_data B)))
                  (of_Z (-1))))%result.

(** Lines 48-50: the first stage and the two assignments that store it. *)
Definition first_stage (X L : matrix F) (keep1 keep2 : Z) : method F unit :=
  ('(P, N, Q) <- lift (_transform X L keep1 keep2) ;;
   U <- lift (compose_unmixing P N Q) ;;
   set_unmixing U ;;;
   M <- lift (compose_mixing P N Q) ;;
   set_mixing M)%method.

(** Lines 52-58: the second stage of "difference" and the two assignments
    that compose it with the first. *)
Definition second_stage (epochs : Epochs F) (X : matrix F) (keep2 keep3 : Z)
    (condition1 condition2 : option string) : method F unit :=
  (L <- lift (stage2_filter epochs condition1 condition2) ;;
   U <- attr unmixing ;;
   Y <- lift (U <- operand U ;; matmul X U)%result ;;
   '(P, N, Q) <- lift (_transform Y L keep2 keep3) ;;
   U <- attr unmixing ;;
   U <- lift (U <- operand U ;; UP <- matmul U P ;;
              UPN <- matmul UP N ;; matmul UPN Q)%result ;;
   set_unmixing U ;;;
   M <- attr mixing ;;
   M <- lift (QNP <- compose_mixing P N Q ;;
              M <- operand M ;;
              matmul QNP M)%result ;;
   set_mixing M)%method.

(** Lines 25-50 without the two assignments: the unmixing and mixing
    the first stage is about to store, or the exception that ends the
    call before anything is stored. *)
Definition first_stage_pair (k : string) (epochs : Epochs F)
    (keep1 keep2 keep3 : option Z) (condition1 condition2 : option string)
    (detrending : bool) : result (matrix F * matrix F) :=
  ('(keep1, keep2, keep3, condition1, condition2) <-
      fit_defaults k epochs keep1 keep2 keep3 condition1 condition2 ;;
   '(X, L) <- stage1_input k epochs condition1 detrending ;;
   '(P, N, Q) <- _transform X L keep1 keep2 ;;
   U <- compose_unmixing P N Q ;;
   M <- compose_mixing P N Q ;;
   Ok (U, M))%result.

(** [fit], lines 22-58. *)
Definition fit (epochs : Epochs F) (keep1 keep2 keep3 : option Z)
    (condition1 condition2 : option string) (detrending : bool)
  : method F unit :=
  (k <- attr kind ;;
   '(keep1, keep2, keep3, condition1, condition2) <-
      lift (fit_defaults k epochs keep1 keep2 keep3 condition1 condition2) ;;
   '(X, L) <- lift (stage1_input k epochs condition1 detrending) ;;
   first_stage X L keep1 keep2 ;;;
   if String.eqb k "difference" then
     (* in this branch line 30 has bound keep3 whenever it was None *)
     let keep3 := match keep3 with Some v => v | None => keep2 end in
     second_stage epochs X keep2 keep3 condition1 condition2
   else mret tt)%method.

(** [get_components], lines 60-67. *)
Definition get_components (self : JointDecorrelation F) (epochs : Epochs F)
  : result (Epochs F) :=
  let n_epochs := dim0 (_data epochs) in
  let n_times := dim2 (_data epochs) in
  (X <- flatten (_data epochs) ;;
   U <- operand (unmixing self) ;;
   Y <- matmul X U ;;
   Y <- unflatten Y n_epochs n_times ;;
   let i := create_info (dim1 Y) (sfreq (info epochs)) in
   EpochsArray Y i (events epochs) (tmin epochs))%result.

(** [reproject_components], lines 69-76. *)
Definition reproject_components (self : JointDecorrelation F)
    (epochs : Epochs F) : result (Epochs F) :=
  let n_epochs := dim0 (_data epochs) in
  let n_times := dim2 (_data epochs) in
  (X <- flatten (_data epochs) ;;
   U <- operand (unmixing self) ;;
   Y <- matmul X U ;;
   M <- operand (mixing self) ;;
   X <- matmul Y M ;;
   X <- unflatten X n_epochs n_times ;;
   EpochsArray X (info epochs) (events epochs) (tmin epochs))%result.

(** [epochs.event_id[label]] *)
Definition lookup_code (epochs : Epochs F) (label : option string)
  : result Z :=
  match label with
  | None => Err (KeyError None)
  | Some l =>
      match find (fun kv => String.eqb (fst kv) l) (event_id epochs) with
      | Some (_, code) => Ok code
      | None => Err (KeyError (Some l))
      end
  end.

(** [events[events[:, 2] == code]] *)
Definition events_with_code (evs : list (Z * Z * Z)) (code : Z)
  : list (Z * Z * Z) :=
  filter (fun ev => Z.eqb (event_code ev) code) evs.

(** [sort_epochs], lines 78-84. *)
Definition sort_epochs (epochs : Epochs F) (condition1 condition2 : option string)
  : result (tensor F * list (Z * Z * Z)) :=
  (A <- getitem epochs condition1 ;;
   A' <- getitem epochs condition1 ;;
   X <- concatenate (_data A) (_data A') ;;
   code1 <- lookup_code epochs condition1 ;;
   code2 <- lookup_code epochs condition2 ;;
   Ok (X, (events_with_code (events epochs) code1
           ++ events_with_code (events epochs) code2)%list))%result.

(** ** bootstrap_components *)

(** What the name [ci] is bound to: the number passed in, or the pair of
    percentiles line 121 binds it to. *)
Inductive level : Type :=
| Number (x : F)
| Pair (lo hi : F).

(** Line 121: [(((1 - ci) / 2) * 100, ((1 - ((1 - ci) / 2))) * 100)] *)
Definition rebind_ci (ci : level) : result (F * F) :=
  match ci with
  | Number x =>
      let half := fdiv (fsub (of_Z 1) x) (of_Z 2) in
      Ok (fmul half (of_Z 100), fmul (fsub (of_Z 1) half) (of_Z 100))
  | Pair _ _ => Err TypeError
  end.

(** [np.zeros([a, b, c])] with a Python integer [b]. *)
Definition np_zeros (a : nat) (b : Z) (c : nat) : result (tensor F) :=
  if (b <? 0)%Z then Err ShapeError else Ok (zeros a (Z.to_nat b) c).

(** [data[i, :, :] = A]: [A] is broadcast to the shape of the slice. *)
Definition assign_slice (data : tensor F) (i : nat) (A : matrix F)
  : result (tensor F) :=
  if negb (i <? dim0 data) then Err IndexError
  else if ((nrows A =? dim1 data) || (nrows A =? 1)) &&
          ((ncols A =? dim2 data) || (ncols A =? 1))
  then Ok (tabulate3 (dim0 data) (dim1 data) (dim2 data)
             (fun t c s =>
                if t =? i
                then get A (if nrows A =? 1 then 0 else c)
                           (if ncols A =? 1 then 0 else s)
                else get3 data t c s))
  else Err ShapeError.

(** [np.percentile(np.abs(data), (lo, hi), axis=0)], unpacked into two. *)
Definition percentile_axis0 (data : tensor F) (lo hi : F)
  : result (matrix F * matrix F) :=
  if percentile_ok lo && percentile_ok hi then
    let cell q c s :=
      percentile_of
        (map (fun t => fabs (get3 data t c s)) (seq 0 (dim0 data))) q in
    Ok (tabulate (dim1 data) (dim2 data) (cell lo),
        tabulate (dim1 data) (dim2 data) (cell hi))
  else Err PercentileError.

(** The outcome of a method call on a local object. *)
Definition call {A} (m : method F A) (self : JointDecorrelation F)
  : result (JointDecorrelation F) :=
  match m self with
  | (Ok _, self') => Ok self'
  | (Err e, _) => Err e
  end.

(** The names the loop body assigns: [data], [ci] and, once bound,
    [(ci_low, ci_up)]. *)
Definition locals : Type :=
  (tensor F * level * option (matrix F * matrix F))%type.

(** Lines 114-122, one pass; [draws i] is the index array
    [np.random.choice] returns in pass [i]. *)
Definition bootstrap_pass (epochs : Epochs F) (draws : nat -> list nat)
    (i : nat) (st : locals) : result locals :=
  let '(data, ci, _) := st in
  (picked <- take_trials (_data epochs) (draws i) ;;
   let permutated_epochs :=
     MkEpochs picked (info epochs) (events epochs) (event_id epochs)
              (tmin epochs) in
   jd <- __init__ "evoked" ;;
   jd <- call (fit permutated_epochs (Some 40%Z) (Some 15%Z) None
                   None None true) jd ;;
   Y <- get_components jd permutated_epochs ;;
   data <- assign_slice data i (average Y) ;;
   '(lo, hi) <- rebind_ci ci ;;
   bands <- percentile_axis0 data lo hi ;;
   Ok (data, Pair lo hi, Some bands))%result.

(** [for i in range(n)] *)
Fixpoint for_range {S : Type} (body : nat -> S -> result S)
    (range : list nat) (st : S) : result S :=
  match range with
  | [] => Ok st
  | i :: rest => (st' <- body i st ;; for_range body rest st')%result
  end.

(** [bootstrap_components], lines 107-123. *)
Definition bootstrap_components (epochs : Epochs F) (n_bootstrap : nat)
    (keep1 keep2 : Z) (ci : F) (draws : nat -> list nat)
  : result (matrix F * matrix F) :=
  let n_times := dim2 (_data epochs) in
  (data <- np_zeros n_bootstrap keep2 n_times ;;
   st <- for_range (bootstrap_pass epochs draws) (seq 0 n_bootstrap)
           (data, Number ci, None) ;;
   match snd st with
   | Some bands => Ok bands
   | None => Err (UnboundLocalError "ci_low")
   end)%result.

End Model.

(** ** The specification's words, to compare the code with *)

Section Specification.
Context {F : Type} `{Library F}.

(** Spec 4.2, reshape policy: a 2-D array of shape (trial * sample,
    channel), the sample varying fastest within each trial block. *)
Definition flatten_convention (T : tensor F) : matrix F :=
  tabulate (dim0 T * dim2 T) (dim1 T)
    (fun r c => get3 T (r / dim2 T) c (r mod dim2 T)).

(** Spec 4.3: the inverse of the flatten convention. *)
Definition unflatten_convention (M : matrix F) (n_trials n_samples : nat)
  : tensor F :=
  tabulate3 n_trials (ncols M) n_samples
    (fun t c s => get M (t * n_samples + s) c).

(** Spec 4.2: "Selected trials are the concatenation of condition-A and
    condition-B subsets". *)
Definition two_condition_trials (epochs : Epochs F) (a b : option string)
  : result (tensor F) :=
  (A <- getitem epochs a ;;
   B <- getitem epochs b ;;
   concatenate (_data A) (_data B))%result.

(** Spec 4.4: one resampling pass that fits "a fresh Evoked-mode model
    with the given keep1/keep2". *)
Definition bootstrap_pass_given_keeps (epochs : Epochs F)
    (keep1 keep2 : Z) (draws : nat -> list nat) (i : nat) (st : locals)
  : result locals :=
  let '(data, ci, _) := st in
  (picked <- take_trials (_data epochs) (draws i) ;;
   let resampled :=
     MkEpochs picked (info epochs) (events epochs) (event_id epochs)
              (tmin epochs) in
   jd <- __init__ "evoked" ;;
   jd <- call (fit resampled (Some keep1) (Some keep2) None None None true)
              jd ;;
   Y <- get_components jd resampled ;;
   data <- assign_slice data i (average Y) ;;
   '(lo, hi) <- rebind_ci ci ;;
   bands <- percentile_axis0 data lo hi ;;
   Ok (data, Pair lo hi, Some bands))%result.

(** Spec 3, "built from the same triples in the same fit call": [U] and
    [M] are composed from the triple of the first stage of this call and,
    in "difference", from the triple of its second stage as well. *)
Definition built_in_one_call (epochs : Epochs F)
    (keep1 keep2 keep3 : option Z) (c1 c2 : option string) (det : bool)
    (k : string) (U M : matrix F) : Prop :=
  exists k1 k2 k3 a b X L P1 N1 Q1 U1 M1,
    fit_defaults k epochs keep1 keep2 keep3 c1 c2 = Ok (k1, k2, k3, a, b) /\
    stage1_input k epochs a det = Ok (X, L) /\
    _transform X L k1 k2 = Ok (P1, N1, Q1) /\
    compose_unmixing P1 N1 Q1 = Ok U1 /\
    compose_mixing P1 N1 Q1 = Ok M1 /\
    ((String.eqb k "difference" = false /\ U = U1 /\ M = M1) \/
     (String.eqb k "difference" = true /\
      exists L2 Y P2 N2 Q2 QNP,
        stage2_filter epochs a b = Ok L2 /\
        matmul X U1 = Ok Y /\
        _transform Y L2 k2 (match k3 with Some v => v | None => k2 end)
        = Ok (P2, N2, Q2) /\
        (UP <- matmul U1 P2 ;; UPN <- matmul UP N2 ;; matmul UPN Q2)%result
        = Ok U /\
        compose_mixing P2 N2 Q2 = Ok QNP /\
        matmul QNP M1 = Ok M)).

(** The number of entries [l[0:k]] keeps of a list of [n]. *)
Definition retained (k : Z) (n : nat) : nat :=
  if (k <? 0)%Z then n - Z.to_nat (- k) else Nat.min (Z.to_nat k) n.

End Specification.

(** ** An exact implementation of the numerical interface

    Rational arithmetic with every value kept in lowest terms, for the
    worked examples.  The square root is exact on squares of rationals and
    the eigensolver on diagonal arrays (it refuses the others), which is
    all the examples feed them; on those inputs float64 and LAPACK return
    the same values up to rounding.  Division by zero yields 0 here where
    float64 yields an infinity or a NaN: no example divides by zero. *)
Module Exact.

Definition qsqrt (q : Q) : Q :=
  Qred (Z.sqrt (Qnum q) # Z.to_pos (Z.sqrt (Zpos (Qden q)))).

#[global] Instance QFloat : Float Q := {|
  of_Z := inject_Z;
  fadd := fun a b => Qred (a + b)%Q;
  fsub := fun a b => Qred (a - b)%Q;
  fmul := fun a b => Qred (a * b)%Q;
  fdiv := fun a b => Qred (a / b)%Q;
  fsqrt := qsqrt;
  fabs := fun a => Qred (Qabs a)
|}.

Definition is_diagonal (M : matrix Q) : bool :=
  forallb (fun i =>
             forallb (fun j => (i =? j) || Qeq_bool (get M i j) 0%Q)
                     (seq 0 (ncols M)))
          (seq 0 (nrows M)).

(** The eigenpairs of a diagonal array: its diagonal and the unit
    vectors, in the order of the diagonal. *)
Definition eig_diagonal (M : matrix Q) : result (list Q * matrix Q) :=
  if (nrows M =? ncols M) && is_diagonal M
  then Ok (diagonal M, identity (nrows M))
  else Err LinAlgError.

Fixpoint insert_index (v : list Q) (i : nat) (l : list nat) : list nat :=
  match l with
  | [] => [i]
  | j :: l' => if Qle_bool (nth i v 0%Q) (nth j v 0%Q) then i :: l
               else j :: insert_index v i l'
  end.

(** A stable ascending argsort. *)
Definition argsort_stable (v : list Q) : list nat :=
  fold_right (insert_index v) [] (seq 0 (length v)).

(** The residual of the least-squares line through (0, y0), (1, y1), ... *)
Definition detrend_exact (y : list Q) : list Q :=
  let n := inject_Z (Z.of_nat (length y)) in
  let xs := map (fun k => inject_Z (Z.of_nat k)) (seq 0 (length y)) in
  let sum := fold_right Qplus 0%Q in
  let sx := sum xs in
  let sy := sum y in
  let sxx := sum (map (fun x => x * x)%Q xs) in
  let sxy := sum (map (fun xy => fst xy * snd xy)%Q (combine xs y)) in
  let slope := ((n * sxy - sx * sy) / (n * sxx - sx * sx))%Q in
  let icept := ((sy - slope * sx) / n)%Q in
  map (fun xy => Qred (snd xy - (slope * fst xy + icept))%Q) (combine xs y).

(** scipy's detrend along the last axis: every series has its line
    removed; an array without cells is refused. *)
Definition detrend_trials (T : tensor Q) : result (tensor Q) :=
  if dim0 T * dim1 T * dim2 T =? 0 then Err DetrendError
  else Ok (tabulate3 (dim0 T) (dim1 T) (dim2 T)
             (fun t c s => nth s (detrend_exact (series T t c)) 0%Q)).

Fixpoint insert_value (x : Q) (l : list Q) : list Q :=
  match l with
  | [] => [x]
  | y :: l' => if Qle_bool x y then x :: l else y :: insert_value x l'
  end.

(** numpy's default (linear interpolation) percentile of a sample. *)
Definition percentile_exact (a : list Q) (q : Q) : Q :=
  let sorted := fold_right insert_value [] a in
  let pos := (q / 100 * inject_Z (Z.of_nat (length a - 1)))%Q in
  let lo := Z.to_nat (Qfloor pos) in
  let hi := Nat.min (lo + 1) (length a - 1) in
  let frac := (pos - inject_Z (Z.of_nat lo))%Q in
  Qred (nth lo sorted 0 + frac * (nth hi sorted 0 - nth lo sorted 0))%Q.

#[global] Instance QLibrary : Library Q := {|
  linalg_eig := eig_diagonal;
  argsort := argsort_stable;
  detrend := detrend_trials;
  percentile_ok := fun q => Qle_bool 0%Q q && Qle_bool q 100%Q;
  percentile_of := percentile_exact
|}.

(** A trial container from its cells: trial [t] carries the event code
    [nth t codes]. *)
Definition trials (cells : list (list (list Q))) (codes : list Z)
    (ids : list (string * Z)) : Epochs Q :=
  let n_channels := length (hd [] cells) in
  let n_times := length (hd [] (hd [] cells)) in
  MkEpochs (Tensor (length cells) n_channels n_times cells)
           (MkInfo n_channels 1%Q)
           (map (fun tc => (Z.of_nat (fst tc), 0%Z, snd tc))
                (combine (seq 0 (length cells)) codes))
           ids 0%Q.

End Exact.

(** ** An implementation with a value that is not finite

    The rationals and one more value, [None], that stands for float64's
    infinities and NaN alike: a quotient by zero and the square root of
    a negative number are [None], and [None] is what every operation
    returns on it.  (float64 returns 0 for a finite number divided by an
    infinity; no example does that.)  The eigensolver is the one of
    [Exact] and refuses, as numpy's does, an array with a cell that is
    not finite. *)
Module Extended.

Definition lift2 (f : Q -> Q -> Q) (a b : option Q) : option Q :=
  match a, b with
  | Some x, Some y => Some (Qred (f x y))
  | _, _ => None
  end.

#[global] Instance XFloat : Float (option Q) := {|
  of_Z := fun z => Some (inject_Z z);
  fadd := lift2 Qplus;
  fsub := lift2 Qminus;
  fmul := lift2 Qmult;
  fdiv := fun a b =>
    match a, b with
    | Some x, Some y => if Qeq_bool y 0 then None else Some (Qred (x / y))
    | _, _ => None
    end;
  fsqrt := fun a =>
    match a with
    | Some x => if Qle_bool 0 x then Some (Exact.qsqrt x) else None
    | None => None
    end;
  fabs := option_map (fun x => Qred (Qabs x))
|}.

Definition finite (a : option Q) : bool :=
  match a with Some _ => true | None => false end.

#[global] Instance XFiniteness : Finiteness (option Q) := {|
  isfinite := finite;
  fle := fun a b =>
    match a, b with
    | Some x, Some y => Qle_bool x y
    | _, _ => false
    end
|}.

(** The value of a finite cell. *)
Definition strip (a : option Q) : Q :=
  match a with Some x => x | None => 0 end.

Definition all_finite (M : matrix (option Q)) : bool :=
  forallb (fun i => forallb (fun j => finite (get M i j)) (seq 0 (ncols M)))
          (seq 0 (nrows M)).

Definition is_diagonal (M : matrix (option Q)) : bool :=
  forallb (fun i =>
             forallb (fun j => (i =? j) || Qeq_bool (strip (get M i j)) 0)
                     (seq 0 (ncols M)))
          (seq 0 (nrows M)).

(** The eigenpairs of a finite diagonal array. *)
Definition eig_diagonal (M : matrix (option Q))
  : result (list (option Q) * matrix (option Q)) :=
  if all_finite M && (nrows M =? ncols M) && is_diagonal M
  then Ok (diagonal M, identity (nrows M))
  else Err LinAlgError.

(** numpy's order for sorting: a NaN comes last. *)
Definition sorts_before (a b : option Q) : bool :=
  match a, b with
  | Some x, Some y => Qle_bool x y
  | _, None => true
  | None, Some _ => false
  end.

Fixpoint insert_index (v : list (option Q)) (i : nat) (l : list nat)
  : list nat :=
  match l with
  | [] => [i]
  | j :: l' => if sorts_before (nth i v None) (nth j v None) then i :: l
               else j :: insert_index v i l'
  end.

Definition argsort_stable (v : list (option Q)) : list nat :=
  fold_right (insert_index v) [] (seq 0 (length v)).

(** scipy's detrend refuses an array without cells and one with a cell
    that is not finite. *)
Definition detrend_trials (T : tensor (option Q))
  : result (tensor (option Q)) :=
  let cell t c s := get3 T t c s in
  if (dim0 T * dim1 T * dim2 T =? 0) ||
     negb (forallb (fun t =>
             forallb (fun c => forallb (fun s => finite (cell t c s))
                                       (seq 0 (dim2 T)))
                     (seq 0 (dim1 T)))
           (seq 0 (dim0 T)))
  then Err DetrendError
  else Ok (tabulate3 (dim0 T) (dim1 T) (dim2 T)
             (fun t c s =>
                Some (nth s (Exact.detrend_exact (map strip (series T t c)))
                          0%Q))).

#[global] Instance XLibrary : Library (option Q) := {|
  linalg_eig := eig_diagonal;
  argsort := argsort_stable;
  detrend := detrend_trials;
  percentile_ok := fun q =>
    match q with
    | Some x => Qle_bool 0%Q x && Qle_bool x 100%Q
    | None => false
    end;
  percentile_of := fun a q =>
    if forallb finite (q :: a)
    then Some (Exact.percentile_exact (map strip a) (strip q))
    else None
|}.

(** An array of finite cells. *)
Definition finite_matrix (M : matrix Q) : matrix (option Q) :=
  Matrix (nrows M) (ncols M) (map (map Some) (rows M)).

End Extended.

(** ** Inputs of the worked examples

    Every covariance these inputs lead to is diagonal with rational
    squares on its diagonal, so the exact implementation computes on them
    what float64 and LAPACK compute up to rounding. *)
Module Inputs.
Import Exact.

(** Two trials of one channel and two samples, conditions "a" and "b". *)
Definition two_conditions : Epochs Q :=
  trials [[[3; 0]]; [[0; 4]]]%Q [1; 2]%Z [("a", 1%Z); ("b", 2%Z)].

(** Three trials of one channel and two samples, one per condition. *)
Definition three_conditions : Epochs Q :=
  trials [[[1; 0]]; [[0; 2]]; [[2; 0]]]%Q [1; 2; 3]%Z
         [("a", 1%Z); ("b", 2%Z); ("c", 3%Z)].

(** One trial of two channels and two samples. *)
Definition two_channels : Epochs Q :=
  trials [[[3; 0]; [0; 4]]]%Q [1]%Z [("a", 1%Z)].

(** Four trials of two channels and one sample; the second channel sums
    to zero over the trials.  All values that arise from it are dyadic,
    so float64 computes them exactly. *)
Definition balanced : Epochs Q :=
  trials [[[1]; [1]]; [[1]; [1]]; [[1]; [-1]]; [[1]; [-1]]]%Q [1; 1; 1; 1]%Z
         [("a", 1%Z)].

(** One trial of one channel whose three samples do not lie on a line. *)
Definition bump : Epochs Q :=
  trials [[[0; 3; 0]]]%Q [1]%Z [("a", 1%Z)].

(** The object [fit] leaves behind on [two_conditions] in "difference". *)
Definition fitted_on_two_conditions : JointDecorrelation Q :=
  MkJD "difference" (Some (Matrix 1 1 [[5]]%Q)) (Some (Matrix 1 1 [[1 # 5]])).

(** The object [fit] with [keep1 = 1] leaves behind on [two_channels] in
    "evoked". *)
Definition fitted_on_two_channels : JointDecorrelation Q :=
  MkJD "evoked" (Some (Matrix 1 2 [[0; 4]]%Q))
       (Some (Matrix 2 1 [[0]; [1 # 4]]%Q)).

Definition evoked_model : JointDecorrelation Q := MkJD "evoked" None None.
Definition difference_model : JointDecorrelation Q :=
  MkJD "difference" None None.

(** Three trials of one channel and two samples, two of condition "a"
    and one of condition "b". *)
Definition uneven : Epochs Q :=
  trials [[[1; 0]]; [[0; 2]]; [[2; 0]]]%Q [1; 1; 2]%Z
         [("a", 1%Z); ("b", 2%Z)].

(** A container of two channels and two samples that holds no trial. *)
Definition no_trials : Epochs Q :=
  MkEpochs (Tensor 0 2 2 []) (MkInfo 2 1%Q) [] [("a", 1%Z)] 0%Q.

(** Two rows of two channels of which the second is constantly zero:
    the covariance has the eigenvalues 1 and 0. *)
Definition rank_one : matrix (option Q) :=
  Extended.finite_matrix (Matrix 2 2 [[1; 0]; [0; 0]]%Q).

(** Three trials of one channel and two samples under hierarchical
    labels: the label "a" is no key, but two keys carry its tag. *)
Definition tagged : Epochs Q :=
  trials [[[1; 0]]; [[0; 2]]; [[2; 0]]]%Q [1; 2; 3]%Z
         [("a/x", 1%Z); ("a/y", 2%Z); ("b", 3%Z)].

(** [np.random.choice] drawing every trial once, in order. *)
Definition in_order (n : nat) (_ : nat) : list nat := seq 0 n.

End Inputs.

(** * Facts *)

(** ** Results *)

Lemma bind_ok {A B} (r : result A) (k : A -> result B) b :
  bind r k = Ok b -> exists a, r = Ok a /\ k a = Ok b.
Proof. destruct r as [a|e]; simpl; intros E; [eauto | discriminate]. Qed.

Lemma bind_err {A B} (r : result A) (k : A -> result B) e :
  bind r k = Err e -> r = Err e \/ exists a, r = Ok a /\ k a = Err e.
Proof.
  destruct r as [a|e']; simpl; intros E; [eauto | left; congruence].
Qed.

(** Splits a hypothesis [bind r k = Ok b] into its two steps. *)
Ltac bind_inv H :=
  let a := fresh "v" in
  let E := fresh "E" in
  apply bind_ok in H; destruct H as (a & E & H).

(** ** Arrays given cell by cell *)

Section ArrayFacts.
Context {F : Type} `{Float F}.

Lemma nth_tabulated {A} (f : nat -> A) n i d :
  i < n -> nth i (map f (seq 0 n)) d = f i.
Proof.
  intros Hi.
  rewrite (nth_indep _ d (f 0)) by (rewrite length_map, length_seq; exact Hi).
  rewrite map_nth, seq_nth by exact Hi. reflexivity.
Qed.

Lemma get_tabulate r c (f : nat -> nat -> F) i j :
  i < r -> j < c -> get (tabulate r c f) i j = f i j.
Proof.
  intros Hi Hj. unfold get, tabulate; simpl.
  rewrite (nth_tabulated (fun i => map (f i) (seq 0 c))) by exact Hi.
  apply nth_tabulated; exact Hj.
Qed.

Lemma tabulate_ext r c (f g : nat -> nat -> F) :
  (forall i j, i < r -> j < c -> f i j = g i j) ->
  tabulate r c f = tabulate r c g.
Proof.
  intros E. unfold tabulate. f_equal.
  apply map_ext_in; intros i Hi. apply map_ext_in; intros j Hj.
  apply in_seq in Hi, Hj. apply E; lia.
Qed.

Lemma get3_tabulate3 a b c (f : nat -> nat -> nat -> F) i j k :
  i < a -> j < b -> k < c -> get3 (tabulate3 a b c f) i j k = f i j k.
Proof.
  intros Hi Hj Hk. unfold get3, tabulate3; simpl.
  rewrite (nth_tabulated
             (fun i => map (fun j => map (f i j) (seq 0 c)) (seq 0 b)))
    by exact Hi.
  rewrite (nth_tabulated (fun j => map (f i j) (seq 0 c))) by exact Hj.
  apply nth_tabulated; exact Hk.
Qed.

Lemma tabulate3_ext a b c (f g : nat -> nat -> nat -> F) :
  (forall i j k, i < a -> j < b -> k < c -> f i j k = g i j k) ->
  tabulate3 a b c f = tabulate3 a b c g.
Proof.
  intros E. unfold tabulate3. f_equal.
  apply map_ext_in; intros i Hi. apply map_ext_in; intros j Hj.
  apply map_ext_in; intros k Hk.
  apply in_seq in Hi, Hj, Hk. apply E; lia.
Qed.

Lemma tabulate_wf r c (f : nat -> nat -> F) : wf (tabulate r c f).
Proof.
  split; simpl.
  - rewrite length_map, length_seq; reflexivity.
  - apply Forall_forall; intros row Hrow.
    apply in_map_iff in Hrow; destruct Hrow as (i & <- & _).
    rewrite length_map, length_seq; reflexivity.
Qed.

(** ** Shapes of products *)

Lemma matmul_shape (A B C : matrix F) :
  matmul A B = Ok C ->
  ncols A = nrows B /\ nrows C = nrows A /\ ncols C = ncols B.
Proof.
  unfold matmul. destruct (ncols A =? nrows B) eqn:E; [|discriminate].
  apply Nat.eqb_eq in E. intros [= <-]. simpl. auto.
Qed.

Lemma matmul_defined (A B : matrix F) :
  ncols A = nrows B ->
  exists C, matmul A B = Ok C /\ nrows C = nrows A /\ ncols C = ncols B.
Proof.
  intros E. unfold matmul. apply Nat.eqb_eq in E. rewrite E.
  eexists; split; [reflexivity | simpl; auto].
Qed.

Lemma matmul_raises (A B : matrix F) e :
  matmul A B = Err e -> e = ShapeError /\ ncols A <> nrows B.
Proof.
  unfold matmul. destruct (ncols A =? nrows B) eqn:E; [discriminate|].
  apply Nat.eqb_neq in E. intros [= <-]. auto.
Qed.

(** ** Slices and index arrays *)

Lemma slice_to_length {A} (k : Z) (l : list A) :
  length (slice_to k l) = retained k (length l).
Proof.
  unfold slice_to, retained.
  destruct (k <? 0)%Z; rewrite length_firstn; lia.
Qed.

Lemma retained_nonneg k n :
  (0 <= k)%Z -> retained k n = Nat.min (Z.to_nat k) n.
Proof.
  intros Hk. unfold retained.
  destruct (k <? 0)%Z eqn:E; [apply Z.ltb_lt in E; lia | reflexivity].
Qed.

Lemma in_firstn {A} n (l : list A) x : In x (firstn n l) -> In x l.
Proof.
  intros Hx. rewrite <- (firstn_skipn n l). apply in_or_app; left; exact Hx.
Qed.

Lemma slice_to_incl {A} (k : Z) (l : list A) x :
  In x (slice_to k l) -> In x l.
Proof.
  unfold slice_to. destruct (k <? 0)%Z; apply in_firstn.
Qed.

Lemma vec_select_ok (v : list F) idx d :
  vec_select v idx = Ok d -> length d = length idx.
Proof.
  unfold vec_select. destruct (forallb _ idx); [|discriminate].
  intros [= <-]. apply length_map.
Qed.

Lemma col_select_ok (M : matrix F) idx P :
  col_select M idx = Ok P -> nrows P = nrows M /\ ncols P = length idx.
Proof.
  unfold col_select. destruct (forallb _ idx); [|discriminate].
  intros [= <-]. simpl. auto.
Qed.

Lemma vec_select_defined (v : list F) idx :
  (forall i, In i idx -> i < length v) ->
  exists d, vec_select v idx = Ok d.
Proof.
  intros Hin. unfold vec_select.
  replace (forallb (fun i => i <? length v) idx) with true; [eauto|].
  symmetry. apply forallb_forall. intros i Hi.
  apply Nat.ltb_lt. auto.
Qed.

Lemma col_select_defined (M : matrix F) idx :
  (forall j, In j idx -> j < ncols M) ->
  exists P, col_select M idx = Ok P.
Proof.
  intros Hin. unfold col_select.
  replace (forallb (fun j => j <? ncols M) idx) with true; [eauto|].
  symmetry. apply forallb_forall. intros i Hi.
  apply Nat.ltb_lt. auto.
Qed.

End ArrayFacts.

(** ** Condition labels *)

(** A key carries its own tags: a label that is a key of [event_id]
    selects at least that key. *)
Lemma tags_match_refl l : tags_match l l = true.
Proof.
  unfold tags_match. apply forallb_forall. intros t Ht.
  apply existsb_exists. exists t.
  split; [exact Ht | apply String.eqb_refl].
Qed.

(** ** Row-major ranks *)

Lemma rank_div a b r : r < b -> (a * b + r) / b = a.
Proof. intros Hr. symmetry. apply (Nat.div_unique _ _ _ r); lia. Qed.

Lemma rank_mod a b r : r < b -> (a * b + r) mod b = r.
Proof. intros Hr. symmetry. apply (Nat.mod_unique _ _ a); lia. Qed.

Lemma div_below r n m : r < n * m -> r / m < n.
Proof.
  intros Hr. apply Nat.Div0.div_lt_upper_bound. lia.
Qed.

Lemma mod_below r n m : r < n * m -> r mod m < m.
Proof. intros Hr. apply Nat.mod_upper_bound. lia. Qed.

Lemma rank_split r m : r = r / m * m + r mod m.
Proof. pose proof (Nat.div_mod_eq r m). lia. Qed.

(** ** The flatten convention *)

Section FlattenFacts.
Context {F : Type} `{Library F}.

(** Lines 45-46 compute the specification's flatten convention, for every
    tensor. *)
Lemma flatten_convention_ok (T : tensor F) :
  flatten T = Ok (flatten_convention T).
Proof.
  unfold flatten, reshape2. cbn [transpose102 tabulate3 dim0 dim1 dim2].
  replace (dim1 T * (dim0 T * dim2 T) =? dim1 T * dim0 T * dim2 T)
    with true by (symmetry; apply Nat.eqb_eq; lia).
  cbn [bind]. f_equal. unfold transpose, flatten_convention.
  cbn [nrows ncols tabulate].
  apply tabulate_ext. intros r c Hr Hc.
  rewrite get_tabulate by assumption.
  assert (Hd : r / dim2 T < dim0 T) by (apply div_below; exact Hr).
  assert (Hm : r mod dim2 T < dim2 T) by (apply (mod_below r (dim0 T)); exact Hr).
  replace ((c * (dim0 T * dim2 T) + r) / (dim0 T * dim2 T)) with c
    by (symmetry; apply rank_div; exact Hr).
  replace ((c * (dim0 T * dim2 T) + r) / dim2 T) with (c * dim0 T + r / dim2 T).
  2:{ apply (Nat.div_unique _ _ _ (r mod dim2 T)); [exact Hm|].
      pose proof (rank_split r (dim2 T)). lia. }
  replace ((c * dim0 T + r / dim2 T) mod dim0 T) with (r / dim2 T)
    by (symmetry; apply rank_mod; exact Hd).
  replace ((c * (dim0 T * dim2 T) + r) mod dim2 T) with (r mod dim2 T).
  2:{ apply (Nat.mod_unique _ _ (c * dim0 T + r / dim2 T)); [exact Hm|].
      pose proof (rank_split r (dim2 T)). lia. }
  fold (transpose102 T). unfold transpose102.
  rewrite get3_tabulate3 by assumption. reflexivity.
Qed.

Lemma flatten_shape (T : tensor F) X :
  flatten T = Ok X ->
  nrows X = dim0 T * dim2 T /\ ncols X = dim1 T.
Proof.
  rewrite flatten_convention_ok. intros [= <-]. simpl. auto.
Qed.

(** Lines 65 and 75 invert it whenever the 2-D array has one row per
    (trial, sample) pair and there is at least one such pair. *)
Lemma unflatten_convention_ok (Y : matrix F) n_epochs n_times :
  nrows Y = n_epochs * n_times ->
  0 < n_epochs * n_times ->
  unflatten Y n_epochs n_times
  = Ok (unflatten_convention Y n_epochs n_times).
Proof.
  intros Hrows Hpos. unfold unflatten, reshape3_infer.
  cbn [transpose tabulate nrows ncols].
  rewrite Hrows.
  replace (n_epochs * n_times =? 0) with false
    by (symmetry; apply Nat.eqb_neq; lia).
  rewrite Nat.Div0.mod_mul. cbn [orb negb Nat.eqb bind].
  rewrite Nat.div_mul by lia.
  f_equal. unfold transpose102, unflatten_convention.
  cbn [tabulate3 dim0 dim1 dim2].
  apply tabulate3_ext. intros t c s Ht Hc Hs.
  rewrite get3_tabulate3 by assumption.
  assert (Hr : t * n_times + s < n_epochs * n_times) by nia.
  replace ((c * n_epochs + t) * n_times + s)
    with (c * (n_epochs * n_times) + (t * n_times + s)) by lia.
  rewrite rank_div, rank_mod by exact Hr.
  fold (transpose Y). unfold transpose.
  rewrite get_tabulate; [reflexivity | exact Hc | lia].
Qed.

End FlattenFacts.

(** ** The eigensolver stage *)

Section TransformFacts.
Context {F : Type} {fl : Float F} {lib : Library F}.

(** What a returning [_transform] tells about its arguments and results,
    whatever the libraries do. *)
Lemma transform_inv (X L : matrix F) k1 k2 P N Q :
  _transform X L k1 k2 = Ok (P, N, Q) ->
  ncols L = nrows X /\ nrows P = ncols X /\
  exists d, N = diag d /\ ncols P = length d.
Proof.
  unfold _transform. intros E.
  destruct (matmul (transpose X) X) as [C0|] eqn:E0; [|discriminate].
  cbn [bind] in E.
  destruct (linalg_eig C0) as [[D V]|] eqn:Eeig; [|discriminate].
  cbn [bind] in E.
  destruct (vec_select D _) as [D'|] eqn:ED; [|discriminate].
  cbn [bind] in E.
  destruct (col_select V _) as [P'|] eqn:EP; [|discriminate].
  cbn [bind] in E.
  destruct (matmul X P') as [XP|] eqn:E1; [|discriminate].
  cbn [bind] in E.
  destruct (matmul XP _) as [Zs|] eqn:E2; [|discriminate].
  cbn [bind] in E.
  destruct (matmul L Zs) as [Zbar|] eqn:E3; [|discriminate].
  cbn [bind] in E.
  destruct (matmul (transpose Zbar) Zbar) as [C1|]; [|discriminate].
  cbn [bind] in E.
  destruct (linalg_eig C1) as [[Dz V2]|]; [|discriminate].
  cbn [bind] in E.
  destruct (vec_select Dz _) as [Dz'|]; [|discriminate].
  cbn [bind] in E.
  destruct (col_select V2 _) as [Q'|]; [|discriminate].
  injection E as <- <- <-.
  apply matmul_shape in E1, E2, E3.
  destruct E1 as (A1 & A2 & A3), E2 as (B1 & B2 & B3), E3 as (C1' & _).
  repeat split; try lia.
  eexists; split; [reflexivity|].
  rewrite length_map.
  cbn [diag tabulate nrows] in B1. rewrite length_map in B1. lia.
Qed.

Context {laws : LibraryLaws F}.

Lemma kept_positions (D : list F) k :
  let idx := slice_to k (rev (argsort D)) in
  length idx = retained k (length D) /\
  forall i, In i idx -> i < length D.
Proof.
  cbn zeta. split.
  - rewrite slice_to_length, length_rev.
    rewrite (Permutation_length (argsort_perm D)), length_seq. reflexivity.
  - intros i Hi. apply slice_to_incl in Hi. apply in_rev in Hi.
    apply (Permutation_in _ (argsort_perm D)) in Hi.
    apply in_seq in Hi. lia.
Qed.

(** With the libraries behaving as documented, [_transform] returns for
    all keeps as soon as [L] can multiply [X] and the eigensolver returns;
    the slices keep what there is. *)
Lemma transform_total (X L : matrix F) k1 k2 :
  ncols L = nrows X ->
  _transform X L k1 k2 = Err LinAlgError \/
  exists P N Q,
    _transform X L k1 k2 = Ok (P, N, Q) /\
    nrows P = ncols X /\ ncols P = retained k1 (ncols X) /\
    nrows N = ncols P /\ ncols N = ncols P /\
    nrows Q = ncols P /\ ncols Q = retained k2 (ncols P).
Proof.
  intros HL. unfold _transform.
  destruct (matmul_defined (transpose X) X) as (C0 & E0 & R0 & K0);
    [reflexivity|].
  rewrite E0; cbn [bind].
  destruct (linalg_eig C0) as [[D V]|e] eqn:Eeig; cbn [bind].
  2:{ left. f_equal. eapply eig_raises; eassumption. }
  destruct (eig_shape _ _ _ Eeig) as (HD & HVr & HVc).
  cbn [transpose tabulate nrows] in R0.
  destruct (kept_positions D k1) as (Hlen & Hin).
  set (idx := slice_to k1 (rev (argsort D))) in *.
  destruct (vec_select_defined D idx Hin) as (D' & ED').
  rewrite ED'; cbn [bind].
  destruct (col_select_defined V idx) as (P & EP).
  { intros j Hj. rewrite HVc, <- HD. auto. }
  rewrite EP; cbn [bind].
  apply vec_select_ok in ED'. pose proof (col_select_ok _ _ _ EP) as (HPr & HPc).
  destruct (matmul_defined X P) as (XP & E1 & R1 & K1); [lia|].
  rewrite E1; cbn [bind].
  set (N := diag (map (fun d => fsqrt (fdiv fone d)) D')).
  assert (HN : nrows N = length idx /\ ncols N = length idx).
  { unfold N. cbn [diag tabulate nrows ncols]. rewrite length_map. lia. }
  destruct (matmul_defined XP N) as (Zs & E2 & R2 & K2); [lia|].
  rewrite E2; cbn [bind].
  destruct (matmul_defined L Zs) as (Zbar & E3 & R3 & K3); [lia|].
  rewrite E3; cbn [bind].
  destruct (matmul_defined (transpose Zbar) Zbar) as (C1 & E4 & R4 & K4);
    [reflexivity|].
  rewrite E4; cbn [bind].
  destruct (linalg_eig C1) as [[Dz V2]|e] eqn:Eeig2; cbn [bind].
  2:{ left. f_equal. eapply eig_raises; eassumption. }
  destruct (eig_shape _ _ _ Eeig2) as (HDz & HV2r & HV2c).
  cbn [transpose tabulate nrows] in R4.
  destruct (kept_positions Dz k2) as (Hlen2 & Hin2).
  set (idx2 := slice_to k2 (rev (argsort Dz))) in *.
  destruct (vec_select_defined Dz idx2 Hin2) as (Dz' & EDz').
  rewrite EDz'; cbn [bind].
  destruct (col_select_defined V2 idx2) as (Q & EQ).
  { intros j Hj. rewrite HV2c, <- HDz. auto. }
  rewrite EQ; cbn [bind].
  pose proof (col_select_ok _ _ _ EQ) as (HQr & HQc).
  right. exists P, N, Q. split; [reflexivity|].
  destruct HN as (HN1 & HN2).
  repeat split; try lia.
  - rewrite HPc, Hlen. f_equal. lia.
  - rewrite HQc, Hlen2. f_equal. lia.
Qed.

(** Shapes of what a returning [_transform] returns. *)
Lemma transform_shape (X L : matrix F) k1 k2 P N Q :
  _transform X L k1 k2 = Ok (P, N, Q) ->
  nrows P = ncols X /\ ncols P = retained k1 (ncols X) /\
  nrows N = ncols P /\ ncols N = ncols P /\
  nrows Q = ncols P /\ ncols Q = retained k2 (ncols P).
Proof.
  intros E. pose proof (transform_inv _ _ _ _ _ _ _ E) as (HL & _).
  destruct (transform_total X L k1 k2 HL) as [E'|(P' & N' & Q' & E' & Hs)].
  - congruence.
  - rewrite E in E'. injection E' as <- <- <-. exact Hs.
Qed.

(** A keep at least as large as the list is long keeps the whole list. *)
Lemma slice_to_all {A} (k : Z) (l : list A) :
  (Z.of_nat (length l) <= k)%Z -> slice_to k l = l.
Proof.
  intros Hk. unfold slice_to.
  destruct (k <? 0)%Z eqn:E; [apply Z.ltb_lt in E; lia|].
  apply firstn_all2. lia.
Qed.

Lemma transform_keep1_beyond (X L : matrix F) k1 k2 :
  (Z.of_nat (ncols X) <= k1)%Z ->
  _transform X L k1 k2 = _transform X L (Z.of_nat (ncols X)) k2.
Proof.
  intros Hk. unfold _transform.
  destruct (matmul (transpose X) X) as [C0|e] eqn:E0; [|reflexivity].
  cbn [bind].
  destruct (linalg_eig C0) as [[D V]|e] eqn:Eeig; [|reflexivity].
  cbn [bind].
  destruct (eig_shape _ _ _ Eeig) as (HD & _).
  apply matmul_shape in E0. destruct E0 as (_ & R0 & _).
  cbn [transpose tabulate nrows] in R0.
  assert (Hlen : length (rev (argsort D)) = ncols X).
  { rewrite length_rev, (Permutation_length (argsort_perm D)), length_seq.
    lia. }
  rewrite !slice_to_all by (rewrite Hlen; lia).
  reflexivity.
Qed.

(** [_transform] is lines 88-99 followed by the second decomposition
    and its slice. *)
Lemma transform_split (X L : matrix F) k1 k2 :
  _transform X L k1 k2 =
  ('(D, P, N, C1) <- bias_covariance X L k1 ;;
   '(Dz, Q) <- linalg_eig C1 ;;
   let idx := slice_to k2 (rev (argsort Dz)) in
   Dz <- vec_select Dz idx ;;
   Q <- col_select Q idx ;;
   Ok (P, N, Q))%result.
Proof.
  unfold _transform, bias_covariance.
  destruct (matmul (transpose X) X) as [C0|]; [|reflexivity]. cbn [bind].
  destruct (linalg_eig C0) as [[D V]|]; [|reflexivity]. cbn [bind].
  destruct (vec_select D _) as [D'|]; [|reflexivity]. cbn [bind].
  destruct (col_select V _) as [P|]; [|reflexivity]. cbn [bind].
  destruct (matmul X P) as [XP|]; [|reflexivity]. cbn [bind].
  destruct (matmul XP _) as [Zs|]; [|reflexivity]. cbn [bind].
  destruct (matmul L Zs) as [Zbar|]; [|reflexivity]. cbn [bind].
  destruct (matmul (transpose Zbar) Zbar) as [C1|]; reflexivity.
Qed.

(** Lines 88-99 raise only what the first decomposition raises, when [L]
    can multiply [X]; otherwise they hand a square array of the kept
    size to the second decomposition. *)
Lemma bias_covariance_cases (X L : matrix F) k1 :
  ncols L = nrows X ->
  exists C0,
    matmul (transpose X) X = Ok C0 /\
    ((exists e, linalg_eig C0 = Err e /\ bias_covariance X L k1 = Err e) \/
     (exists D0 V D P N C1,
        linalg_eig C0 = Ok (D0, V) /\
        bias_covariance X L k1 = Ok (D, P, N, C1) /\
        nrows C1 = ncols P /\ ncols C1 = ncols P)).
Proof.
  intros HL. unfold bias_covariance.
  destruct (matmul_defined (transpose X) X) as (C0 & E0 & R0 & K0);
    [reflexivity|].
  exists C0. split; [exact E0|]. rewrite E0; cbn [bind].
  destruct (linalg_eig C0) as [[D V]|e] eqn:Eeig; cbn [bind]; [|eauto].
  right.
  destruct (eig_shape _ _ _ Eeig) as (HD & HVr & HVc).
  cbn [transpose tabulate nrows] in R0.
  destruct (kept_positions D k1) as (Hlen & Hin).
  set (idx := slice_to k1 (rev (argsort D))) in *.
  destruct (vec_select_defined D idx Hin) as (D' & ED').
  rewrite ED'; cbn [bind].
  destruct (col_select_defined V idx) as (P & EP).
  { intros j Hj. rewrite HVc, <- HD. auto. }
  rewrite EP; cbn [bind].
  apply vec_select_ok in ED'. pose proof (col_select_ok _ _ _ EP) as (HPr & HPc).
  destruct (matmul_defined X P) as (XP & E1 & R1 & K1); [lia|].
  rewrite E1; cbn [bind].
  set (N := diag (map (fun d => fsqrt (fdiv fone d)) D')).
  assert (HN : nrows N = length idx /\ ncols N = length idx).
  { unfold N. cbn [diag tabulate nrows ncols]. rewrite length_map. lia. }
  destruct (matmul_defined XP N) as (Zs & E2 & R2 & K2); [lia|].
  rewrite E2; cbn [bind].
  destruct (matmul_defined L Zs) as (Zbar & E3 & R3 & K3); [lia|].
  rewrite E3; cbn [bind].
  destruct (matmul_defined (transpose Zbar) Zbar) as (C1 & E4 & R4 & K4);
    [reflexivity|].
  rewrite E4; cbn [bind].
  exists D, V, D', P, N, C1. split; [reflexivity|]. split; [reflexivity|].
  cbn [transpose tabulate nrows] in R4. lia.
Qed.

(** Once the second decomposition has returned, the call returns, for
    every [keep2] and whatever the eigenvalues are: they are used to
    order the eigenvectors and for nothing else. *)
Lemma transform_returns (X L : matrix F) k1 k2 D P N C1 Dz V :
  bias_covariance X L k1 = Ok (D, P, N, C1) ->
  linalg_eig C1 = Ok (Dz, V) ->
  exists Q,
    col_select V (slice_to k2 (rev (argsort Dz))) = Ok Q /\
    _transform X L k1 k2 = Ok (P, N, Q).
Proof.
  intros Eb Ee. rewrite transform_split, Eb. cbn [bind]. rewrite Ee.
  cbn [bind].
  destruct (eig_shape _ _ _ Ee) as (HDz & _ & HVc).
  destruct (kept_positions Dz k2) as (_ & Hin).
  set (idx := slice_to k2 (rev (argsort Dz))) in *.
  destruct (vec_select_defined Dz idx Hin) as (Dz' & EDz).
  rewrite EDz; cbn [bind].
  destruct (col_select_defined V idx) as (Q & EQ).
  { intros j Hj. rewrite HVc, <- HDz. auto. }
  exists Q. rewrite EQ. split; reflexivity.
Qed.

(** A raising [_transform] passes on what one of its two
    decompositions has raised. *)
Lemma transform_raises_inv (X L : matrix F) k1 k2 e :
  ncols L = nrows X ->
  _transform X L k1 k2 = Err e ->
  (exists C0, matmul (transpose X) X = Ok C0 /\ linalg_eig C0 = Err e) \/
  (exists D P N C1,
     bias_covariance X L k1 = Ok (D, P, N, C1) /\ linalg_eig C1 = Err e).
Proof.
  intros HL E.
  destruct (bias_covariance_cases X L k1 HL)
    as (C0 & E0 & [(e' & Ee & Eb)|(D0 & V & D & P & N & C1 & Ee & Eb & _)]).
  - rewrite transform_split, Eb in E. injection E as ->. eauto.
  - right. exists D, P, N, C1. split; [exact Eb|].
    destruct (linalg_eig C1) as [[Dz V2]|e'] eqn:Ee2.
    + destruct (transform_returns X L k1 k2 _ _ _ _ _ _ Eb Ee2)
        as (Q & _ & Et).
      congruence.
    + rewrite transform_split, Eb in E. cbn [bind] in E. rewrite Ee2 in E.
      cbn [bind] in E. congruence.
Qed.

End TransformFacts.

(** ** Values that are not finite *)

Section NonFiniteFacts.
Context {F : Type} {fl : Float F} {lib : Library F} {laws : LibraryLaws F}
  {fin : Finiteness F} {flaws : FiniteLaws F}.

Lemma fold_add_nonfinite (l : list F) acc :
  isfinite acc = false -> isfinite (fold_left fadd l acc) = false.
Proof.
  revert acc. induction l as [|x l IH]; intros acc Hacc; [exact Hacc|].
  cbn [fold_left]. apply IH.
  destruct (isfinite (fadd acc x)) eqn:E; [|reflexivity].
  apply add_finite in E. destruct E as (E & _). congruence.
Qed.

Lemma fsum_nonfinite (l : list F) x :
  In x l -> isfinite x = false -> isfinite (fsum l) = false.
Proof.
  unfold fsum. generalize (fzero : F).
  induction l as [|y l IH]; intros acc Hin Hx; [contradiction|].
  cbn [fold_left]. destruct Hin as [->|Hin].
  - apply fold_add_nonfinite.
    destruct (isfinite (fadd acc x)) eqn:E; [|reflexivity].
    apply add_finite in E. destruct E as (_ & E). congruence.
  - apply IH; assumption.
Qed.

(** A product of arrays has a cell that is not finite wherever a term of
    the cell's sum has a factor that is not finite. *)
Lemma matmul_nonfinite (A B C : matrix F) i j k :
  matmul A B = Ok C ->
  i < nrows A -> j < ncols B -> k < ncols A ->
  isfinite (get A i k) = false \/ isfinite (get B k j) = false ->
  isfinite (get C i j) = false.
Proof.
  unfold matmul. destruct (ncols A =? nrows B); [|discriminate].
  intros [= <-] Hi Hj Hk Hnf. rewrite get_tabulate by assumption.
  apply (fsum_nonfinite _ (fmul (get A i k) (get B k j))).
  - apply in_map_iff. exists k. split; [reflexivity|].
    apply in_seq. lia.
  - destruct (isfinite (fmul (get A i k) (get B k j))) eqn:E;
      [|reflexivity].
    apply mul_finite in E. destruct E as (Ea & Eb).
    destruct Hnf; congruence.
Qed.

(** A retained eigenvalue of the first decomposition that is finite and
    not positive makes the whitening, the whitened data and the second
    covariance not finite, which the second decomposition refuses, as
    soon as [X] and [L] have a row. *)
Lemma nonpositive_eigenvalue_raises (X L : matrix F) k1 k2 C0 D V i :
  ncols L = nrows X -> 0 < nrows X -> 0 < nrows L ->
  matmul (transpose X) X = Ok C0 ->
  linalg_eig C0 = Ok (D, V) ->
  In i (slice_to k1 (rev (argsort D))) ->
  isfinite (nth i D fzero) = true ->
  fle (nth i D fzero) fzero = true ->
  _transform X L k1 k2 = Err LinAlgError.
Proof.
  intros HL HX0 HL0 E0 Eeig Hi Hfin Hle. unfold _transform.
  rewrite E0; cbn [bind]. rewrite Eeig; cbn [bind].
  destruct (eig_shape _ _ _ Eeig) as (HD & HVr & HVc).
  pose proof (matmul_shape _ _ _ E0) as (_ & R0 & _).
  cbn [transpose tabulate nrows] in R0.
  destruct (kept_positions D k1) as (Hlen & Hin).
  set (idx := slice_to k1 (rev (argsort D))) in *.
  destruct (In_nth idx i 0 Hi) as (j & Hj & Hnth).
  unfold vec_select.
  replace (forallb (fun i => i <? length D) idx) with true.
  2:{ symmetry. apply forallb_forall. intros x Hx. apply Nat.ltb_lt. auto. }
  cbn [bind].
  destruct (col_select_defined V idx) as (P & EP).
  { intros x Hx. rewrite HVc, <- HD. auto. }
  rewrite EP; cbn [bind].
  pose proof (col_select_ok _ _ _ EP) as (HPr & HPc).
  destruct (matmul_defined X P) as (XP & E1 & R1 & K1); [lia|].
  rewrite E1; cbn [bind].
  set (N := diag (map (fun d => fsqrt (fdiv fone d))
                      (map (fun i => nth i D fzero) idx))).
  assert (HN : nrows N = length idx /\ ncols N = length idx).
  { unfold N. cbn [diag tabulate nrows ncols]. rewrite !length_map. lia. }
  assert (HNjj : isfinite (get N j j) = false).
  { unfold N, diag. rewrite !length_map.
    rewrite get_tabulate by assumption. rewrite Nat.eqb_refl.
    rewrite (nth_indep _ fzero (fsqrt (fdiv fone fzero)))
      by (rewrite !length_map; exact Hj).
    rewrite (map_nth (fun d => fsqrt (fdiv fone d))).
    rewrite (nth_indep _ fzero (nth 0 D fzero))
      by (rewrite length_map; exact Hj).
    rewrite (map_nth (fun i => nth i D fzero)), Hnth.
    apply whitening_nonpositive; assumption. }
  destruct (matmul_defined XP N) as (Zs & E2 & R2 & K2); [lia|].
  rewrite E2; cbn [bind].
  destruct (matmul_defined L Zs) as (Zbar & E3 & R3 & K3); [lia|].
  rewrite E3; cbn [bind].
  destruct (matmul_defined (transpose Zbar) Zbar) as (C1 & E4 & R4 & K4);
    [reflexivity|].
  rewrite E4; cbn [bind].
  cbn [transpose tabulate nrows ncols] in R4, K4.
  assert (HZs : forall r, r < nrows X -> isfinite (get Zs r j) = false).
  { intros r Hr. apply (matmul_nonfinite XP N Zs r j j E2); try lia.
    right; exact HNjj. }
  assert (HZbar : forall r, r < nrows L -> isfinite (get Zbar r j) = false).
  { intros r Hr. apply (matmul_nonfinite L Zs Zbar r j 0 E3); try lia.
    right. apply HZs. lia. }
  assert (HC1 : isfinite (get C1 j j) = false).
  { apply (matmul_nonfinite (transpose Zbar) Zbar C1 j j 0 E4);
      cbn [transpose tabulate nrows ncols]; try lia.
    right. apply HZbar. lia. }
  destruct (linalg_eig C1) as [[Dz V2]|e] eqn:Eeig2; cbn [bind].
  - pose proof (eig_finite _ _ _ Eeig2 j j) as Hf.
    rewrite Hf in HC1; [discriminate | lia | lia].
  - f_equal. eapply eig_raises; eassumption.
Qed.

End NonFiniteFacts.

(** ** fit *)

Section FitFacts.
Context {F : Type} {fl : Float F} {lib : Library F}.

Lemma compose_unmixing_shape (P N Q U : matrix F) :
  compose_unmixing P N Q = Ok U ->
  ncols P = nrows N /\ ncols N = nrows Q /\
  nrows U = nrows P /\ ncols U = ncols Q.
Proof.
  unfold compose_unmixing. intros E. bind_inv E.
  apply matmul_shape in E0, E. lia.
Qed.

(** The mixing of a triple is defined as soon as the whitening is a
    diagonal array that fits between [P] and [Q]. *)
Lemma compose_mixing_defined (P Q : matrix F) d :
  ncols P = length d -> nrows Q = length d ->
  exists M, compose_mixing P (diag d) Q = Ok M /\
            nrows M = ncols Q /\ ncols M = nrows P.
Proof.
  intros HP HQ. unfold compose_mixing.
  set (N' := diag (map (fdiv fone) (diagonal (diag d)))).
  assert (HN : nrows N' = length d /\ ncols N' = length d).
  { unfold N', diagonal. cbn [diag tabulate nrows ncols].
    rewrite !length_map, length_seq. lia. }
  destruct (matmul_defined (transpose Q) N') as (QN & E1 & R1 & K1).
  { cbn [transpose tabulate ncols]. lia. }
  rewrite E1; cbn [bind].
  destruct (matmul_defined QN (transpose P)) as (M & E2 & R2 & K2).
  { cbn [transpose tabulate nrows]. lia. }
  exists M. split; [exact E2|].
  cbn [transpose tabulate nrows ncols] in *. lia.
Qed.

Lemma compose_mixing_shape (P N Q M : matrix F) :
  compose_mixing P N Q = Ok M -> nrows M = ncols Q /\ ncols M = nrows P.
Proof.
  unfold compose_mixing. intros E. bind_inv E.
  apply matmul_shape in E0, E.
  cbn [transpose tabulate nrows ncols] in *. lia.
Qed.

(** The first stage either raises and leaves [self] as it was, or stores
    the unmixing and the mixing of one and the same triple. *)
Lemma first_stage_cases (X L : matrix F) k1 k2 self :
  (exists e, first_stage X L k1 k2 self = (Err e, self)) \/
  (exists P N Q U M,
     _transform X L k1 k2 = Ok (P, N, Q) /\
     compose_unmixing P N Q = Ok U /\
     compose_mixing P N Q = Ok M /\
     first_stage X L k1 k2 self
     = (Ok tt, MkJD (kind self) (Some M) (Some U))).
Proof.
  unfold first_stage, mbind, lift, set_unmixing, set_mixing.
  destruct (_transform X L k1 k2) as [[[P N] Q]|e] eqn:Et; [|eauto].
  destruct (compose_unmixing P N Q) as [U|e] eqn:Eu; [|eauto].
  pose proof (transform_inv _ _ _ _ _ _ _ Et) as (_ & _ & d & -> & Hd).
  pose proof (compose_unmixing_shape _ _ _ _ Eu) as (_ & HQ & _).
  destruct (compose_mixing_defined P Q d) as (M & Em & _); [exact Hd | |].
  { cbn [diag tabulate ncols] in HQ. lia. }
  right. exists P, (diag d), Q, U, M. rewrite Em. cbn. auto.
Qed.

(** The first stage as one computation and one assignment: a raise leaves
    nothing behind. *)
Lemma first_stage_eq (X L : matrix F) k1 k2 self :
  first_stage X L k1 k2 self =
  match ('(P, N, Q) <- _transform X L k1 k2 ;;
         U <- compose_unmixing P N Q ;;
         M <- compose_mixing P N Q ;;
         Ok (U, M))%result with
  | Ok (U, M) => (Ok tt, MkJD (kind self) (Some M) (Some U))
  | Err e => (Err e, self)
  end.
Proof.
  unfold first_stage, mbind, lift, set_unmixing, set_mixing.
  destruct (_transform X L k1 k2) as [[[P N] Q]|e] eqn:Et; [|reflexivity].
  cbn [bind].
  destruct (compose_unmixing P N Q) as [U|e] eqn:Eu; [|reflexivity].
  cbn [bind].
  pose proof (transform_inv _ _ _ _ _ _ _ Et) as (_ & _ & d & -> & Hd).
  pose proof (compose_unmixing_shape _ _ _ _ Eu) as (_ & HQ & _).
  destruct (compose_mixing_defined P Q d) as (M & Em & _); [exact Hd | |].
  { cbn [diag tabulate ncols] in HQ. lia. }
  rewrite Em. reflexivity.
Qed.

(** The second stage likewise, on an object whose stored pair has
    matching inner dimensions. *)
Lemma second_stage_cases (epochs : Epochs F) (X : matrix F) k2 k3 a b
    kd (U1 M1 : matrix F) :
  nrows M1 = ncols U1 ->
  (exists e, second_stage epochs X k2 k3 a b (MkJD kd (Some M1) (Some U1))
             = (Err e, MkJD kd (Some M1) (Some U1))) \/
  (exists L Y P N Q U QNP M,
     stage2_filter epochs a b = Ok L /\
     matmul X U1 = Ok Y /\
     _transform Y L k2 k3 = Ok (P, N, Q) /\
     (UP <- matmul U1 P ;; UPN <- matmul UP N ;; matmul UPN Q)%result
     = Ok U /\
     compose_mixing P N Q = Ok QNP /\
     matmul QNP M1 = Ok M /\
     second_stage epochs X k2 k3 a b (MkJD kd (Some M1) (Some U1))
     = (Ok tt, MkJD kd (Some M) (Some U))).
Proof.
  intros HM.
  unfold second_stage, mbind, lift, attr, set_unmixing, set_mixing.
  cbn [unmixing mixing kind operand bind].
  destruct (stage2_filter epochs a b) as [L|e] eqn:EL; [|eauto].
  destruct (matmul X U1) as [Y|e] eqn:EY; [|eauto].
  destruct (_transform Y L k2 k3) as [[[P N] Q]|e] eqn:Et; [|eauto].
  cbn [unmixing mixing kind operand bind].
  destruct (matmul U1 P) as [UP|e] eqn:E1; cbn [bind]; [|eauto].
  destruct (matmul UP N) as [UPN|e] eqn:E2; cbn [bind]; [|eauto].
  destruct (matmul UPN Q) as [U|e] eqn:E3; cbn [bind]; [|eauto].
  pose proof (transform_inv _ _ _ _ _ _ _ Et) as (_ & HP & d & -> & Hd).
  pose proof (matmul_shape _ _ _ E1) as S1.
  pose proof (matmul_shape _ _ _ E2) as S2.
  pose proof (matmul_shape _ _ _ E3) as S3.
  pose proof (matmul_shape _ _ _ EY) as SY.
  destruct (compose_mixing_defined P Q d) as (QNP & Em & R & K);
    [exact Hd | |].
  { cbn [diag tabulate nrows ncols] in *. lia. }
  rewrite Em; cbn [bind unmixing mixing kind].
  destruct (matmul_defined QNP M1) as (M & E4 & _); [lia|].
  rewrite E4.
  right. exists L, Y, P, (diag d), Q, U, QNP, M.
  rewrite E1; cbn [bind]. rewrite E2; cbn [bind].
  repeat split; assumption.
Qed.

(** Whatever the first lines of [fit] bind [X] to, the array handed to
    the first stage is the flattening of the whole input tensor. *)
Lemma stage1_input_inv k (epochs : Epochs F) a det X L :
  stage1_input k epochs a det = Ok (X, L) ->
  X = flatten_convention (_data epochs) /\
  L = tile (identity (dim2 (_data epochs))) (dim0 (_data epochs)).
Proof.
  unfold stage1_input. intros E. bind_inv E. bind_inv E.
  rewrite flatten_convention_ok in E. cbn [bind] in E.
  injection E as <- <-. auto.
Qed.

(** [fit] spelt out step by step. *)
Lemma fit_unfold (epochs : Epochs F) keep1 keep2 keep3 c1 c2 det self :
  fit epochs keep1 keep2 keep3 c1 c2 det self =
  match fit_defaults (kind self) epochs keep1 keep2 keep3 c1 c2 with
  | Err e => (Err e, self)
  | Ok (k1, k2, k3, a, b) =>
      match stage1_input (kind self) epochs a det with
      | Err e => (Err e, self)
      | Ok (X, L) =>
          match first_stage X L k1 k2 self with
          | (Err e, s) => (Err e, s)
          | (Ok _, s) =>
              if String.eqb (kind self) "difference"
              then second_stage epochs X k2
                     (match k3 with Some v => v | None => k2 end) a b s
              else (Ok tt, s)
          end
      end
  end.
Proof.
  unfold fit, mbind at 1 2 3 4, lift, attr, mret.
  destruct (fit_defaults (kind self) epochs keep1 keep2 keep3 c1 c2)
    as [[[[[k1 k2] k3] a] b]|e]; [|reflexivity].
  destruct (stage1_input (kind self) epochs a det) as [[X L]|e];
    [|reflexivity].
  destruct (first_stage X L k1 k2 self) as [[[]|e] s]; [|reflexivity].
  destruct (String.eqb (kind self) "difference"); reflexivity.
Qed.

(** The ways a call of [fit] can end. *)
Lemma fit_cases (epochs : Epochs F) keep1 keep2 keep3 c1 c2 det self :
  (exists e, fit epochs keep1 keep2 keep3 c1 c2 det self = (Err e, self)) \/
  exists k1 k2 k3 a b X L P N Q U M,
    fit_defaults (kind self) epochs keep1 keep2 keep3 c1 c2
    = Ok (k1, k2, k3, a, b) /\
    stage1_input (kind self) epochs a det = Ok (X, L) /\
    _transform X L k1 k2 = Ok (P, N, Q) /\
    compose_unmixing P N Q = Ok U /\
    compose_mixing P N Q = Ok M /\
    ((String.eqb (kind self) "difference" = false /\
      fit epochs keep1 keep2 keep3 c1 c2 det self
      = (Ok tt, MkJD (kind self) (Some M) (Some U))) \/
     (String.eqb (kind self) "difference" = true /\
      exists e, fit epochs keep1 keep2 keep3 c1 c2 det self
                = (Err e, MkJD (kind self) (Some M) (Some U))) \/
     (String.eqb (kind self) "difference" = true /\
      exists L2 Y P2 N2 Q2 U2 QNP M2,
        stage2_filter epochs a b = Ok L2 /\
        matmul X U = Ok Y /\
        _transform Y L2 k2 (match k3 with Some v => v | None => k2 end)
        = Ok (P2, N2, Q2) /\
        (UP <- matmul U P2 ;; UPN <- matmul UP N2 ;; matmul UPN Q2)%result
        = Ok U2 /\
        compose_mixing P2 N2 Q2 = Ok QNP /\
        matmul QNP M = Ok M2 /\
        fit epochs keep1 keep2 keep3 c1 c2 det self
        = (Ok tt, MkJD (kind self) (Some M2) (Some U2)))).
Proof.
  rewrite fit_unfold.
  destruct (fit_defaults (kind self) epochs keep1 keep2 keep3 c1 c2)
    as [[[[[k1 k2] k3] a] b]|e] eqn:Ed; [|eauto].
  destruct (stage1_input (kind self) epochs a det) as [[X L]|e] eqn:Es;
    [|eauto].
  destruct (first_stage_cases X L k1 k2 self)
    as [(e & E1)|(P & N & Q & U & M & Et & Eu & Em & E1)];
    rewrite E1; [eauto|].
  right. exists k1, k2, k3, a, b, X, L, P, N, Q, U, M.
  repeat (split; [reflexivity || assumption|]).
  destruct (String.eqb (kind self) "difference") eqn:Ek.
  - right.
    pose proof (compose_unmixing_shape _ _ _ _ Eu) as (_ & _ & _ & HU).
    pose proof (compose_mixing_shape _ _ _ _ Em) as (HM & _).
    destruct (second_stage_cases epochs X k2
                (match k3 with Some v => v | None => k2 end) a b
                (kind self) U M)
      as [(e & E2)|(L2 & Y & P2 & N2 & Q2 & U2 & QNP & M2 & E2)]; [lia| |].
    + left. split; [reflexivity|]. exists e. exact E2.
    + right. split; [reflexivity|].
      exists L2, Y, P2, N2, Q2, U2, QNP, M2. exact E2.
  - left. split; reflexivity.
Qed.

(** [fit] in terms of the pair its first stage is about to store: a
    raise before the pair is stored leaves the object as it was; with
    the pair stored, every kind but "difference" returns, and
    "difference" either returns a composed pair or raises and leaves the
    pair of the first stage behind. *)
Lemma fit_by_first_stage (epochs : Epochs F) keep1 keep2 keep3 c1 c2 det
    self :
  match first_stage_pair (kind self) epochs keep1 keep2 keep3 c1 c2 det with
  | Err e => fit epochs keep1 keep2 keep3 c1 c2 det self = (Err e, self)
  | Ok (U, M) =>
      (String.eqb (kind self) "difference" = false /\
       fit epochs keep1 keep2 keep3 c1 c2 det self
       = (Ok tt, MkJD (kind self) (Some M) (Some U))) \/
      (String.eqb (kind self) "difference" = true /\
       ((exists e, fit epochs keep1 keep2 keep3 c1 c2 det self
                   = (Err e, MkJD (kind self) (Some M) (Some U))) \/
        (exists U2 M2, fit epochs keep1 keep2 keep3 c1 c2 det self
                       = (Ok tt, MkJD (kind self) (Some M2) (Some U2)))))
  end.
Proof.
  rewrite fit_unfold. unfold first_stage_pair.
  destruct (fit_defaults (kind self) epochs keep1 keep2 keep3 c1 c2)
    as [[[[[k1 k2] k3] a] b]|e]; cbn [bind]; [|reflexivity].
  destruct (stage1_input (kind self) epochs a det) as [[X L]|e];
    cbn [bind]; [|reflexivity].
  rewrite first_stage_eq.
  destruct (_transform X L k1 k2) as [[[P N] Q]|e] eqn:Et; cbn [bind];
    [|reflexivity].
  destruct (compose_unmixing P N Q) as [U|e] eqn:Eu; cbn [bind];
    [|reflexivity].
  destruct (compose_mixing P N Q) as [M|e] eqn:Em; cbn [bind];
    [|reflexivity].
  destruct (String.eqb (kind self) "difference") eqn:Ek.
  - right. split; [reflexivity|].
    pose proof (compose_unmixing_shape _ _ _ _ Eu) as (_ & _ & _ & HU).
    pose proof (compose_mixing_shape _ _ _ _ Em) as (HM & _).
    destruct (second_stage_cases epochs X k2
                (match k3 with Some v => v | None => k2 end) a b
                (kind self) U M)
      as [(e & E2)|(L2 & Y & P2 & N2 & Q2 & U2 & QNP & M2 & E2)]; [lia| |].
    + left. exists e. exact E2.
    + right. exists U2, M2. apply E2.
  - left. split; reflexivity.
Qed.

(** An "evoked" [fit] is the optional detrending, whose result is
    dropped, and the first stage on the flattened input. *)
Lemma evoked_fit_eq (epochs : Epochs F) keep1 keep2 keep3 c1 c2 det ev :
  kind ev = "evoked" ->
  fit epochs keep1 keep2 keep3 c1 c2 det ev =
  match (if det then detrend (_data epochs) else Ok (_data epochs)) with
  | Err err => (Err err, ev)
  | Ok _ =>
      match first_stage (flatten_convention (_data epochs))
              (tile (identity (dim2 (_data epochs))) (dim0 (_data epochs)))
              match keep1 with
              | Some v => v
              | None => Z.of_nat (nchan (info epochs))
              end
              match keep2 with
              | Some v => v
              | None => match keep1 with
                        | Some v => v
                        | None => Z.of_nat (nchan (info epochs))
                        end
              end ev with
      | (Ok _, s) => (Ok tt, s)
      | (Err err, s) => (Err err, s)
      end
  end.
Proof.
  intros Hev. rewrite fit_unfold. unfold fit_defaults. rewrite Hev.
  cbn [String.eqb Ascii.eqb Bool.eqb].
  unfold stage1_input, selected_trials, detrended.
  cbn [String.eqb Ascii.eqb Bool.eqb bind].
  rewrite flatten_convention_ok.
  destruct c1, c2, det; cbn [bind];
    try (destruct (detrend (_data epochs)); cbn [bind]); reflexivity.
Qed.

End FitFacts.

(** ** The exact implementation obeys the documented laws *)

Lemma insert_index_perm v i l :
  Permutation (Exact.insert_index v i l) (i :: l).
Proof.
  induction l as [|j l IH]; simpl.
  - apply Permutation_refl.
  - destruct (Qle_bool _ _).
    + apply Permutation_refl.
    + eapply perm_trans; [apply perm_skip, IH | apply perm_swap].
Qed.

Lemma argsort_stable_perm v :
  Permutation (Exact.argsort_stable v) (seq 0 (length v)).
Proof.
  unfold Exact.argsort_stable.
  induction (seq 0 (length v)) as [|i l IH]; simpl.
  - apply perm_nil.
  - eapply perm_trans; [apply insert_index_perm | apply perm_skip, IH].
Qed.

#[global] Instance exact_laws : LibraryLaws Q.
Proof.
  split.
  - intros M D V. cbn [linalg_eig Exact.QLibrary]. unfold Exact.eig_diagonal.
    destruct (nrows M =? ncols M) eqn:E; cbn [andb]; [|discriminate].
    destruct (Exact.is_diagonal M); [|discriminate].
    apply Nat.eqb_eq in E. intros [= <- <-].
    unfold diagonal. rewrite length_map, length_seq.
    cbn [identity tabulate nrows ncols]. lia.
  - intros M e. cbn [linalg_eig Exact.QLibrary]. unfold Exact.eig_diagonal.
    destruct (_ && _); [discriminate|]. intros [= <-]. reflexivity.
  - exact argsort_stable_perm.
Qed.

(** ** So does the implementation with a value that is not finite *)

Lemma extended_insert_index_perm v i l :
  Permutation (Extended.insert_index v i l) (i :: l).
Proof.
  induction l as [|j l IH]; simpl.
  - apply Permutation_refl.
  - destruct (Extended.sorts_before _ _).
    + apply Permutation_refl.
    + eapply perm_trans; [apply perm_skip, IH | apply perm_swap].
Qed.

Lemma extended_argsort_perm v :
  Permutation (Extended.argsort_stable v) (seq 0 (length v)).
Proof.
  unfold Extended.argsort_stable.
  induction (seq 0 (length v)) as [|i l IH]; simpl.
  - apply perm_nil.
  - eapply perm_trans; [apply extended_insert_index_perm | apply perm_skip, IH].
Qed.

#[global] Instance extended_laws : LibraryLaws (option Q).
Proof.
  split.
  - intros M D V. cbn [linalg_eig Extended.XLibrary].
    unfold Extended.eig_diagonal.
    destruct (Extended.all_finite M); cbn [andb]; [|discriminate].
    destruct (nrows M =? ncols M) eqn:E; cbn [andb]; [|discriminate].
    destruct (Extended.is_diagonal M); [|discriminate].
    apply Nat.eqb_eq in E. intros [= <- <-].
    unfold diagonal. rewrite length_map, length_seq.
    cbn [identity tabulate nrows ncols]. lia.
  - intros M e. cbn [linalg_eig Extended.XLibrary].
    unfold Extended.eig_diagonal.
    destruct (_ && _); [discriminate|]. intros [= <-]. reflexivity.
  - exact extended_argsort_perm.
Qed.

#[global] Instance extended_finite_laws : FiniteLaws (option Q).
Proof.
  split.
  - intros [a|] [b|]; cbn; intros E; try discriminate; auto.
  - intros [a|] [b|]; cbn; intros E; try discriminate; auto.
  - intros [x|] Hf Hle; [|discriminate Hf].
    change (Qle_bool x 0 = true) in Hle.
    change (Extended.finite
              match (if Qeq_bool x 0 then None else Some (Qred (1 / x))) with
              | Some y => if Qle_bool 0 y then Some (Exact.qsqrt y) else None
              | None => None
              end = false).
    destruct (Qeq_bool x 0) eqn:E0; [reflexivity|].
    destruct (Qle_bool 0 (Qred (1 / x))) eqn:E1; [exfalso|reflexivity].
    apply Qle_bool_iff in Hle, E1. rewrite Qred_correct in E1.
    destruct x as [[|n|n] d].
    + discriminate E0.
    + unfold Qle in Hle. cbn in Hle. lia.
    + unfold Qle in E1. cbn in E1. lia.
  - intros M D V. cbn [linalg_eig Extended.XLibrary].
    unfold Extended.eig_diagonal.
    destruct (Extended.all_finite M) eqn:Ef; cbn [andb]; [|discriminate].
    intros _ i j Hi Hj. unfold Extended.all_finite in Ef.
    rewrite forallb_forall in Ef.
    specialize (Ef i). rewrite forallb_forall in Ef.
    apply Ef; apply in_seq; lia.
Qed.

(** * The claims *)

Section Claims.
Context {F : Type} {fl : Float F} {lib : Library F}.

(** C9.  After every successful [fit] call both [unmixing] and [mixing]
    are defined; [unmixing] has shape (n_channels, k) and [mixing] shape
    (k, n_channels) for one and the same k, and both are composed from
    the eigenbasis triples of that very call. *)
Theorem fit_stores_consistent_pair (epochs : Epochs F)
    keep1 keep2 keep3 c1 c2 det self self' :
  fit epochs keep1 keep2 keep3 c1 c2 det self = (Ok tt, self') ->
  exists U M,
    unmixing self' = Some U /\ mixing self' = Some M /\
    nrows U = dim1 (_data epochs) /\ ncols M = dim1 (_data epochs) /\
    ncols U = nrows M /\
    built_in_one_call epochs keep1 keep2 keep3 c1 c2 det (kind self) U M.
Proof.
  intros Hfit.
  destruct (fit_cases epochs keep1 keep2 keep3 c1 c2 det self)
    as [(e & E)|(k1 & k2 & k3 & a & b & X & L & P & N & Q & U & M &
                 Ed & Es & Et & Eu & Em & Hc)].
  { rewrite E in Hfit. discriminate. }
  pose proof (stage1_input_inv _ _ _ _ _ _ Es) as (HX & _).
  pose proof (transform_inv _ _ _ _ _ _ _ Et) as (_ & HP & _).
  pose proof (compose_unmixing_shape _ _ _ _ Eu) as (_ & _ & HU1 & HU2).
  pose proof (compose_mixing_shape _ _ _ _ Em) as (HM1 & HM2).
  assert (HXc : ncols X = dim1 (_data epochs)) by (rewrite HX; reflexivity).
  destruct Hc as [(Ek & E)|[(Ek & e & E)|(Ek & L2 & Y & P2 & N2 & Q2 & U2 &
                                          QNP & M2 & EL & EY & Et2 & EU2 &
                                          EQ & EM2 & E)]];
    rewrite E in Hfit; [|discriminate|]; injection Hfit as <-.
  - exists U, M. cbn [unmixing mixing].
    repeat (split; [reflexivity || lia|]).
    exists k1, k2, k3, a, b, X, L, P, N, Q, U, M.
    repeat (split; [assumption|]). left. auto.
  - exists U2, M2. cbn [unmixing mixing].
    pose proof (compose_mixing_shape _ _ _ _ EQ) as (HQ1 & HQ2).
    pose proof (matmul_shape _ _ _ EM2) as (_ & HM3 & HM4).
    bind_inv EU2. bind_inv EU2.
    pose proof (matmul_shape _ _ _ E0) as (_ & R0 & _).
    pose proof (matmul_shape _ _ _ E1) as (_ & R1 & _).
    pose proof (matmul_shape _ _ _ EU2) as (_ & R2 & K2).
    repeat (split; [reflexivity || lia|]).
    exists k1, k2, k3, a, b, X, L, P, N, Q, U, M.
    repeat (split; [assumption|]). right. split; [assumption|].
    exists L2, Y, P2, N2, Q2, QNP.
    repeat (split; [assumption|]). split; [|split; assumption].
    rewrite E0; cbn [bind]. rewrite E1; cbn [bind]. exact EU2.
Qed.

(** C4, amended.  A [fit] call that raises before its first stage is
    stored (in lines 25-50) leaves the object exactly as it was; a call
    that raises after that, which only "difference" can, in its second
    stage (lines 52-58), leaves the unmixing and mixing of the first
    stage of the raising call stored.  Which of the two it is depends on
    lines 25-50 alone. *)
Theorem failed_fit_state (epochs : Epochs F)
    keep1 keep2 keep3 c1 c2 det self e self' :
  fit epochs keep1 keep2 keep3 c1 c2 det self = (Err e, self') ->
  (first_stage_pair (kind self) epochs keep1 keep2 keep3 c1 c2 det = Err e /\
   self' = self) \/
  (exists U M,
     first_stage_pair (kind self) epochs keep1 keep2 keep3 c1 c2 det
     = Ok (U, M) /\
     kind self = "difference" /\
     self' = MkJD "difference" (Some M) (Some U)).
Proof.
  intros Hfit.
  pose proof (fit_by_first_stage epochs keep1 keep2 keep3 c1 c2 det self)
    as Hs.
  destruct (first_stage_pair (kind self) epochs keep1 keep2 keep3 c1 c2 det)
    as [[U M]|e'].
  - right. exists U, M. split; [reflexivity|].
    destruct Hs as [(_ & E)|(Ek & [(e' & E)|(U2 & M2 & E)])];
      rewrite E in Hfit; try discriminate.
    apply String.eqb_eq in Ek. injection Hfit as _ <-.
    rewrite Ek. split; reflexivity.
  - left. rewrite Hs in Hfit. injection Hfit as <- <-. split; reflexivity.
Qed.

(** C5.  For a fitted model and an input with at least one trial and one
    sample, [reproject_components] returns the input flattened by the
    convention of spec 4.2, multiplied by [unmixing], then by [mixing],
    and reshaped back by the inverse convention; nothing else happens to
    the data before it is handed to [mne.EpochsArray] (a channel
    mismatch raises on both sides alike). *)
Theorem reproject_is_unmix_then_mix (self : JointDecorrelation F)
    (epochs : Epochs F) U M :
  unmixing self = Some U ->
  mixing self = Some M ->
  0 < dim0 (_data epochs) * dim2 (_data epochs) ->
  reproject_components self epochs =
  (Y <- matmul (flatten_convention (_data epochs)) U ;;
   X <- matmul Y M ;;
   EpochsArray
     (unflatten_convention X (dim0 (_data epochs)) (dim2 (_data epochs)))
     (info epochs) (events epochs) (tmin epochs))%result.
Proof.
  intros HU HM Hpos. unfold reproject_components.
  rewrite flatten_convention_ok, HU, HM. cbn [bind operand].
  destruct (matmul (flatten_convention (_data epochs)) U) as [Y|e] eqn:EY;
    [|reflexivity].
  cbn [bind].
  destruct (matmul Y M) as [X|e] eqn:EX; [|reflexivity].
  cbn [bind].
  apply matmul_shape in EY, EX.
  rewrite unflatten_convention_ok; [reflexivity | | exact Hpos].
  cbn [flatten_convention tabulate nrows] in EY. lia.
Qed.

(** A freshly constructed model holds [None] in both attributes. *)
Lemma init_unfitted k (self : JointDecorrelation F) :
  __init__ k = Ok self -> unmixing self = None /\ mixing self = None.
Proof.
  unfold __init__. destruct (_ || _); [|discriminate]. intros [= <-].
  split; reflexivity.
Qed.

(** C8, amended.  On a model whose [unmixing] is still [None], as it is
    after construction and after [fit] calls that raised before storing
    their first stage, [get_components] and [reproject_components] raise
    for every input, and what they raise is numpy's refusal of [None] as
    an operand of [@], not an error of the module's own. *)
Theorem unfitted_projection_raises (self : JointDecorrelation F)
    (epochs : Epochs F) :
  unmixing self = None ->
  get_components self epochs = Err MatmulNone /\
  reproject_components self epochs = Err MatmulNone.
Proof.
  intros HU. unfold get_components, reproject_components.
  rewrite flatten_convention_ok, HU. split; reflexivity.
Qed.

Context {laws : LibraryLaws F}.

(** [fit] with an explicit [keep2] and a [keep1] of at least the channel
    count is [fit] with [keep1] equal to the channel count. *)
Lemma fit_keep1_beyond (epochs : Epochs F) k1 k2 keep3 c1 c2 det self :
  (Z.of_nat (dim1 (_data epochs)) <= k1)%Z ->
  fit epochs (Some k1) (Some k2) keep3 c1 c2 det self =
  fit epochs (Some (Z.of_nat (dim1 (_data epochs)))) (Some k2) keep3
      c1 c2 det self.
Proof.
  intros Hk. rewrite !fit_unfold. unfold fit_defaults.
  assert (Hfirst : forall a X L,
             stage1_input (kind self) epochs a det = Ok (X, L) ->
             first_stage X L k1 k2 self
             = first_stage X L (Z.of_nat (dim1 (_data epochs))) k2 self).
  { intros a X L Es. apply stage1_input_inv in Es. destruct Es as (HX & _).
    unfold first_stage.
    rewrite (transform_keep1_beyond X L k1 k2); rewrite HX; cbn [ncols];
      [reflexivity | exact Hk]. }
  destruct c1, c2, (String.eqb (kind self) "difference");
    try (destruct (map fst (event_id epochs)) as [|x [|y [|z l]]];
         try reflexivity);
    match goal with
    | |- context [stage1_input ?k ?e ?a ?d] =>
        destruct (stage1_input k e a d) as [[X L]|err] eqn:Es;
        [rewrite (Hfirst _ _ _ Es)|]; reflexivity
    end.
Qed.

(** C3, amended.  [_transform] checks neither rank nor sign.  When [L]
    can multiply [X]:
    - it passes on [LinAlgError] or returns, the slices keeping as many
      eigenpairs as there are ([P] has [retained keep1 n] columns for
      [n] channels, [Q] has [retained keep2] of those);
    - what it raises is what one of its two decompositions has raised;
    - once the second decomposition has returned it returns, for every
      [keep2] and whatever the eigenvalues of that decomposition are:
      they only order the columns of [Q];
    - a [keep1] beyond the channel count acts as the channel count, in
      [_transform] and in [fit];
    - a retained eigenvalue of the first decomposition that is finite
      and not positive does end the call with [LinAlgError] when [X]
      and [L] have a row: its whitening is an infinity or a NaN and
      numpy's second decomposition refuses the covariance. *)
Theorem transform_truncates_keeps (X L : matrix F) k1 k2 :
  ncols L = nrows X ->
  (_transform X L k1 k2 = Err LinAlgError \/
   exists P N Q,
     _transform X L k1 k2 = Ok (P, N, Q) /\
     nrows P = ncols X /\ ncols P = retained k1 (ncols X) /\
     nrows N = ncols P /\ ncols N = ncols P /\
     nrows Q = ncols P /\ ncols Q = retained k2 (ncols P)) /\
  (forall e,
     _transform X L k1 k2 = Err e ->
     (exists C0, matmul (transpose X) X = Ok C0 /\ linalg_eig C0 = Err e) \/
     (exists D P N C1,
        bias_covariance X L k1 = Ok (D, P, N, C1) /\
        linalg_eig C1 = Err e)) /\
  (forall D P N C1 Dz V,
     bias_covariance X L k1 = Ok (D, P, N, C1) ->
     linalg_eig C1 = Ok (Dz, V) ->
     exists Q,
       col_select V (slice_to k2 (rev (argsort Dz))) = Ok Q /\
       _transform X L k1 k2 = Ok (P, N, Q)) /\
  ((Z.of_nat (ncols X) <= k1)%Z ->
   _transform X L k1 k2 = _transform X L (Z.of_nat (ncols X)) k2) /\
  (forall (epochs : Epochs F) keep3 c1 c2 det self,
     (Z.of_nat (dim1 (_data epochs)) <= k1)%Z ->
     fit epochs (Some k1) (Some k2) keep3 c1 c2 det self =
     fit epochs (Some (Z.of_nat (dim1 (_data epochs)))) (Some k2) keep3
         c1 c2 det self) /\
  (forall (fin : Finiteness F), FiniteLaws F ->
     0 < nrows X -> 0 < nrows L ->
     forall C0 D V i,
       matmul (transpose X) X = Ok C0 ->
       linalg_eig C0 = Ok (D, V) ->
       In i (slice_to k1 (rev (argsort D))) ->
       isfinite (nth i D fzero) = true ->
       fle (nth i D fzero) fzero = true ->
       _transform X L k1 k2 = Err LinAlgError).
Proof.
  intros HL. repeat split.
  - apply transform_total; exact HL.
  - intros e. apply transform_raises_inv; exact HL.
  - intros D P N C1 Dz V. apply transform_returns.
  - apply transform_keep1_beyond.
  - intros. apply fit_keep1_beyond; assumption.
  - intros fin flaws HX0 HL0 C0 D V i.
    apply nonpositive_eigenvalue_raises; assumption.
Qed.

(** What a returning "evoked" [fit] has stored, with its shapes. *)
Lemma evoked_fit_shapes (train : Epochs F) keep1 k keep3 c1 c2 det
    self self' :
  kind self = "evoked" ->
  fit train keep1 (Some k) keep3 c1 c2 det self = (Ok tt, self') ->
  let k1 := match keep1 with
            | Some v => v
            | None => Z.of_nat (nchan (info train))
            end in
  exists U M,
    unmixing self' = Some U /\ mixing self' = Some M /\
    nrows U = dim1 (_data train) /\
    ncols U = retained k (retained k1 (dim1 (_data train))) /\
    nrows M = ncols U /\ ncols M = dim1 (_data train).
Proof.
  intros Hkind Hfit k1.
  destruct (fit_cases train keep1 (Some k) keep3 c1 c2 det self)
    as [(e & E)|(k1' & k2 & k3 & a & b & X & L & P & N & Q & U & M &
                 Ed & Es & Et & Eu & Em & Hc)].
  { rewrite E in Hfit. discriminate. }
  rewrite Hkind in *. cbn [String.eqb Ascii.eqb Bool.eqb] in Hc.
  destruct Hc as [(_ & E)|[(Ek & _)|(Ek & _)]]; try discriminate.
  rewrite E in Hfit. injection Hfit as <-.
  assert (Hk : k1' = k1 /\ k2 = k).
  { unfold fit_defaults in Ed. cbn [String.eqb Ascii.eqb Bool.eqb] in Ed.
    destruct c1, c2; injection Ed as <- <- _ _ _; auto. }
  destruct Hk as (-> & ->).
  pose proof (stage1_input_inv _ _ _ _ _ _ Es) as (HX & _).
  assert (HXc : ncols X = dim1 (_data train)) by (rewrite HX; reflexivity).
  pose proof (transform_shape _ _ _ _ _ _ _ Et)
    as (HP1 & HP2 & _ & _ & HQ1 & HQ2).
  pose proof (compose_unmixing_shape _ _ _ _ Eu) as (_ & _ & HU1 & HU2).
  pose proof (compose_mixing_shape _ _ _ _ Em) as (HM1 & HM2).
  exists U, M. cbn [unmixing mixing].
  repeat split; try reflexivity; try lia.
  rewrite HU2, HQ2, HP2, HXc. reflexivity.
Qed.

(** C6, amended.  For a model fitted in "evoked" with positive keeps
    [keep1] (by default the channel count) and [keep2 = k], and a
    container as mne builds it, of shape (n_trials, n_channels,
    n_samples) with the channel count of the training data, at least
    one trial, one channel and one sample, [get_components] returns
    shape (n_trials, min k (min keep1 n_channels), n_samples), which is
    (n_trials, k, n_samples) exactly when k <= min keep1 n_channels, and
    [reproject_components] returns the shape of the input. *)
Theorem evoked_projection_shapes (train : Epochs F) keep1 k keep3 c1 c2 det
    self self' (epochs : Epochs F) :
  kind self = "evoked" ->
  fit train keep1 (Some k) keep3 c1 c2 det self = (Ok tt, self') ->
  (1 <= k)%Z ->
  (1 <= match keep1 with
        | Some v => v
        | None => Z.of_nat (nchan (info train))
        end)%Z ->
  consistent epochs ->
  dim1 (_data epochs) = dim1 (_data train) ->
  0 < dim0 (_data epochs) ->
  0 < dim1 (_data epochs) ->
  0 < dim2 (_data epochs) ->
  exists Y R,
    get_components self' epochs = Ok Y /\
    shape (_data Y)
    = (dim0 (_data epochs),
       Nat.min (Z.to_nat k)
         (Nat.min (Z.to_nat match keep1 with
                            | Some v => v
                            | None => Z.of_nat (nchan (info train))
                            end)
                  (dim1 (_data epochs))),
       dim2 (_data epochs)) /\
    reproject_components self' epochs = Ok R /\
    shape (_data R) = shape (_data epochs).
Proof.
  intros Hkind Hfit Hk Hk1 (Hinfo & Hev & Hdist) Hch Hn Hc Ht.
  destruct (evoked_fit_shapes _ _ _ _ _ _ _ _ _ Hkind Hfit)
    as (U & M & HU & HM & HU1 & HU2 & HM1 & HM2).
  rewrite !retained_nonneg in HU2 by lia.
  assert (Hpos : 0 < dim0 (_data epochs) * dim2 (_data epochs)) by nia.
  unfold get_components, reproject_components.
  rewrite flatten_convention_ok, HU, HM. cbn [bind operand].
  destruct (matmul_defined (flatten_convention (_data epochs)) U)
    as (Y & EY & RY & KY).
  { cbn [flatten_convention tabulate ncols]. lia. }
  rewrite EY; cbn [bind].
  cbn [flatten_convention tabulate nrows] in RY.
  rewrite (unflatten_convention_ok Y) by (assumption || lia).
  cbn [bind].
  destruct (matmul_defined Y M) as (X & EX & RX & KX); [lia|].
  rewrite EX; cbn [bind].
  rewrite (unflatten_convention_ok X) by (assumption || lia).
  cbn [bind].
  unfold EpochsArray, create_info.
  cbn [unflatten_convention tabulate3 dim0 dim1 dim2 nchan].
  rewrite Hdist, Hev, Hinfo, KX, HM2, Hch, !Nat.eqb_refl.
  replace (0 <? dim1 (_data train)) with true
    by (symmetry; apply Nat.ltb_lt; lia).
  replace (0 <? ncols Y) with true
    by (symmetry; apply Nat.ltb_lt; lia).
  cbn [andb].
  eexists; eexists.
  split; [reflexivity|]. split; [|split; [reflexivity|]].
  - unfold shape, unflatten_convention.
    cbn [_data tabulate3 dim0 dim1 dim2].
    rewrite KY, HU2. reflexivity.
  - unfold shape, unflatten_convention.
    cbn [_data tabulate3 dim0 dim1 dim2].
    rewrite KX, HM2, Hch. reflexivity.
Qed.

End Claims.

(** ** bootstrap_components *)

Section BootstrapFacts.
Context {F : Type} {fl : Float F} {lib : Library F}.

(** A pass that completes has bound [ci] to a pair and the two bands. *)
Lemma pass_rebinds (epochs : Epochs F) draws i st st' :
  bootstrap_pass epochs draws i st = Ok st' ->
  exists data lo hi bands, st' = (data, Pair lo hi, Some bands).
Proof.
  destruct st as [[data ci] o]. unfold bootstrap_pass. intros E.
  do 6 bind_inv E.
  match goal with
  | Hci : rebind_ci _ = Ok ?p |- _ => destruct p as [lo hi]
  end.
  bind_inv E. injection E as <-. eauto.
Qed.

(** A pass entered with [ci] bound to a pair cannot complete. *)
Lemma pass_on_pair (epochs : Epochs F) draws i data lo hi o st' :
  bootstrap_pass epochs draws i (data, Pair lo hi, o) <> Ok st'.
Proof.
  unfold bootstrap_pass. intros E. do 6 bind_inv E.
  match goal with
  | Hci : rebind_ci (Pair _ _) = Ok _ |- _ => discriminate Hci
  end.
Qed.

(** The fit of a pass is the fit with the literals 40 and 15. *)
Lemma pass_fits_40_15 (epochs : Epochs F) draws i st :
  bootstrap_pass epochs draws i st
  = bootstrap_pass_given_keeps epochs 40 15 draws i st.
Proof. reflexivity. Qed.

(** [keep1] is not used. *)
Lemma bootstrap_ignores_keep1 (epochs : Epochs F) n k1 k1' k2 ci draws :
  bootstrap_components epochs n k1 k2 ci draws
  = bootstrap_components epochs n k1' k2 ci draws.
Proof. reflexivity. Qed.

(** The buffer keeps its shape when a slice is assigned. *)
Lemma assign_slice_shape (data : tensor F) i A data' :
  assign_slice data i A = Ok data' -> shape data' = shape data.
Proof.
  unfold assign_slice. destruct (negb _); [discriminate|].
  destruct (_ && _); [|discriminate]. intros [= <-]. reflexivity.
Qed.

(** The bands a completed pass has bound have the shape of a slice of the
    buffer. *)
Lemma pass_band_shapes (epochs : Epochs F) draws i data ci o data' ci' lo hi :
  bootstrap_pass epochs draws i (data, ci, o)
  = Ok (data', ci', Some (lo, hi)) ->
  (nrows lo, ncols lo) = (dim1 data, dim2 data) /\
  (nrows hi, ncols hi) = (dim1 data, dim2 data).
Proof.
  unfold bootstrap_pass. intros E.
  do 6 bind_inv E.
  match goal with
  | Hci : rebind_ci _ = Ok ?p |- _ => destruct p as [q1 q2]
  end.
  bind_inv E. injection E as Hdata _ Hbands. subst.
  match goal with
  | Ha : assign_slice _ _ _ = Ok _ |- _ =>
      apply assign_slice_shape in Ha; unfold shape in Ha;
      injection Ha as Ha0 Ha1 Ha2
  end.
  match goal with
  | Hp : percentile_axis0 _ _ _ = Ok _ |- _ =>
      unfold percentile_axis0 in Hp;
      destruct (_ && _); [|discriminate Hp]; injection Hp as <- <-
  end.
  cbn [tabulate nrows ncols]. split; congruence.
Qed.

(** With two passes or more the call raises, in the first pass or in the
    second. *)
Lemma bootstrap_two_or_more (epochs : Epochs F) m k1 k2 ci draws :
  exists err,
    bootstrap_components epochs (S (S m)) k1 k2 ci draws = Err err /\
    (np_zeros (S (S m)) k2 (dim2 (_data epochs)) = Err err \/
     exists data0,
       np_zeros (S (S m)) k2 (dim2 (_data epochs)) = Ok data0 /\
       (bootstrap_pass epochs draws 0 (data0, Number ci, None) = Err err \/
        exists st1,
          bootstrap_pass epochs draws 0 (data0, Number ci, None) = Ok st1 /\
          bootstrap_pass epochs draws 1 st1 = Err err /\
          rebind_ci (snd (fst st1)) = Err TypeError)).
Proof.
  unfold bootstrap_components.
  destruct (np_zeros (S (S m)) k2 (dim2 (_data epochs))) as [data0|e0];
    cbn [bind]; [|eauto].
  cbn [seq for_range].
  destruct (bootstrap_pass epochs draws 0 (data0, Number ci, None))
    as [st1|e1] eqn:E0; cbn [bind]; [|eauto 8].
  destruct (pass_rebinds _ _ _ _ _ E0) as (data1 & lo & hi & bands & ->).
  destruct (bootstrap_pass epochs draws 1 (data1, Pair lo hi, Some bands))
    as [st2|e2] eqn:E1; cbn [bind].
  - exfalso. exact (pass_on_pair _ _ _ _ _ _ _ _ E1).
  - exists e2. split; [reflexivity|]. right. exists data0.
    split; [reflexivity|]. right.
    exists (data1, Pair lo hi, Some bands).
    split; [exact E0 | split; [exact E1 | reflexivity]].
Qed.

Lemma bootstrap_returns_once (epochs : Epochs F) n k1 k2 ci draws bands :
  bootstrap_components epochs n k1 k2 ci draws = Ok bands -> n = 1.
Proof.
  intros E. destruct n as [|[|m]]; [|reflexivity|].
  - unfold bootstrap_components in E.
    destruct (np_zeros 0 k2 (dim2 (_data epochs))); discriminate.
  - destruct (bootstrap_two_or_more epochs m k1 k2 ci draws)
      as (err & E' & _).
    congruence.
Qed.

(** X15.  Whenever [bootstrap_components] returns, the two arrays have
    shape (keep2, n_samples). *)
Lemma bootstrap_band_shapes (epochs : Epochs F) n k1 k2 ci draws lo hi :
  bootstrap_components epochs n k1 k2 ci draws = Ok (lo, hi) ->
  (nrows lo, ncols lo) = (Z.to_nat k2, dim2 (_data epochs)) /\
  (nrows hi, ncols hi) = (Z.to_nat k2, dim2 (_data epochs)).
Proof.
  intros E. pose proof (bootstrap_returns_once _ _ _ _ _ _ _ E) as ->.
  unfold bootstrap_components, np_zeros in E.
  destruct (k2 <? 0)%Z; [discriminate|].
  cbn [bind seq for_range] in E.
  destruct (bootstrap_pass epochs draws 0
              (zeros 1 (Z.to_nat k2) (dim2 (_data epochs)), Number ci, None))
    as [st1|e1] eqn:E0; [|discriminate].
  destruct (pass_rebinds _ _ _ _ _ E0) as (data1 & q1 & q2 & bands & ->).
  cbn [bind snd] in E. injection E as ->.
  apply pass_band_shapes in E0. exact E0.
Qed.

(** C10, amended.  [bootstrap_components] returns normally only when
    [n_bootstrap] is 1.  For [n_bootstrap >= 2] it raises no later than
    in the second pass of the loop: what [np.zeros] or the first pass
    raises if one of them does, and otherwise an error of the second
    pass, which cannot get past line 121 because [ci] is by then bound to
    the percentile pair and the arithmetic on it raises [TypeError].  For
    [n_bootstrap = 0] (and a non-negative [keep2]) the returned names are
    never bound and the [return] raises [UnboundLocalError]. *)
Theorem bootstrap_returns_only_once (epochs : Epochs F) n k1 k2 ci draws :
  (forall bands,
     bootstrap_components epochs n k1 k2 ci draws = Ok bands -> n = 1) /\
  (2 <= n ->
   exists err,
     bootstrap_components epochs n k1 k2 ci draws = Err err /\
     (np_zeros n k2 (dim2 (_data epochs)) = Err err \/
      exists data0,
        np_zeros n k2 (dim2 (_data epochs)) = Ok data0 /\
        (bootstrap_pass epochs draws 0 (data0, Number ci, None) = Err err \/
         exists st1,
           bootstrap_pass epochs draws 0 (data0, Number ci, None) = Ok st1 /\
           bootstrap_pass epochs draws 1 st1 = Err err /\
           rebind_ci (snd (fst st1)) = Err TypeError))) /\
  (n = 0 -> (0 <= k2)%Z ->
   bootstrap_components epochs n k1 k2 ci draws
   = Err (UnboundLocalError "ci_low")).
Proof.
  split; [|split].
  - intros bands. apply bootstrap_returns_once.
  - intros Hn. destruct n as [|[|m]]; [lia | lia |].
    apply bootstrap_two_or_more.
  - intros -> Hk. unfold bootstrap_components, np_zeros.
    replace (k2 <? 0)%Z with false by (symmetry; apply Z.ltb_ge; exact Hk).
    reflexivity.
Qed.

End BootstrapFacts.

(** * The code on concrete inputs *)

Import Exact Inputs.

(** C1.  In "difference" with the conditions "a" and "b" given, on an
    input holding one trial of each of "a", "b" and "c", the array handed
    to the first stage is the flattening of all three trials (line 45
    binds [X] anew from [epochs._data]; the array line 41 had bound it to
    is dropped), whereas the concatenation of the "a" trials and the "b"
    trials flattens to the four rows of two trials. *)
Theorem difference_stage1_takes_every_trial :
  stage1_input "difference" three_conditions (Some "a") true
  = Ok (Matrix 6 1 [[1]; [0]; [0]; [2]; [2]; [0]]%Q,
        Matrix 2 6 [[1; 0; 1; 0; 1; 0]; [0; 1; 0; 1; 0; 1]]%Q) /\
  (T <- two_condition_trials three_conditions (Some "a") (Some "b") ;;
   flatten T)%result
  = Ok (Matrix 4 1 [[1]; [0]; [0]; [2]]%Q).
Proof. split; vm_compute; reflexivity. Qed.

(** C2.  With detrending enabled, on one trial of one channel with the
    samples 0, 3, 0, the array handed to the first stage holds the
    samples as they are, not their detrended values -1, 2, -1: the call
    with detrending hands over what the call without it does. *)
Theorem detrended_data_is_dropped :
  stage1_input "evoked" bump None true
  = Ok (Matrix 3 1 [[0]; [3]; [0]]%Q, identity 3) /\
  (T <- detrend (_data bump) ;; flatten T)%result
  = Ok (Matrix 3 1 [[-1]; [2]; [-1]]%Q) /\
  stage1_input "evoked" bump None true
  = stage1_input "evoked" bump None false.
Proof. repeat split; vm_compute; reflexivity. Qed.

(** C7.  Called with [keep1 = 1] and [keep2 = 1] on one trial of two
    channels, the pass fits with 40 and 15, obtains two components and
    raises when it stores them in the buffer sized for one, so that
    [bootstrap_components] raises; the pass that fits with the given
    keeps completes with bands of shape (1, 2). *)
Theorem bootstrap_fits_with_40_and_15 :
  let st0 := (zeros 1 1 2, Number (95 # 100), None) in
  bootstrap_pass two_channels (in_order 1) 0 st0 = Err ShapeError /\
  bootstrap_components two_channels 1 1 1 (95 # 100) (in_order 1)
  = Err ShapeError /\
  bootstrap_pass_given_keeps two_channels 1 1 (in_order 1) 0 st0
  = Ok (Tensor 1 1 2 [[[0; 1]]]%Q, Pair (5 # 2) (195 # 2),
        Some (Matrix 1 2 [[0; 1]]%Q, Matrix 1 2 [[0; 1]]%Q)).
Proof. repeat split; vm_compute; reflexivity. Qed.

(** C3 fails: with [keep1 = 5] and [keep2 = 7] on two channels neither
    [_transform] nor [fit] raises; and on [balanced] the second
    decomposition has the eigenvalues 0 and 4, [keep2 = 2] retains both,
    and again neither raises. *)
Lemma keeps_beyond_channels_return :
  _transform (Matrix 2 2 [[3; 0]; [0; 4]]%Q) (identity 2) 5 7
  = Ok (Matrix 2 2 [[0; 1]; [1; 0]]%Q,
        Matrix 2 2 [[1 # 4; 0]; [0; 1 # 3]]%Q,
        Matrix 2 2 [[0; 1]; [1; 0]]%Q) /\
  fit two_channels (Some 5%Z) (Some 7%Z) None None None true evoked_model
  = (Ok tt,
     MkJD "evoked" (Some (Matrix 2 2 [[3; 0]; [0; 4]]%Q))
          (Some (Matrix 2 2 [[1 # 3; 0]; [0; 1 # 4]]%Q))) /\
  (exists X L P N Q XP Zs Zbar,
     stage1_input "evoked" balanced None true = Ok (X, L) /\
     _transform X L 2 2 = Ok (P, N, Q) /\
     matmul X P = Ok XP /\ matmul XP N = Ok Zs /\ matmul L Zs = Ok Zbar /\
     matmul (transpose Zbar) Zbar = Ok (Matrix 2 2 [[0; 0]; [0; 4]]%Q) /\
     linalg_eig (Matrix 2 2 [[0; 0]; [0; 4]]%Q)
     = Ok ([0; 4]%Q, identity 2) /\
     ncols Q = 2) /\
  fst (fit balanced (Some 2%Z) (Some 2%Z) None None None true evoked_model)
  = Ok tt.
Proof.
  split; [vm_compute; reflexivity|].
  split; [vm_compute; reflexivity|].
  split; [|vm_compute; reflexivity].
  do 8 eexists.
  split; [vm_compute; reflexivity|].
  split; [vm_compute; reflexivity|].
  split; [vm_compute; reflexivity|].
  split; [vm_compute; reflexivity|].
  split; [vm_compute; reflexivity|].
  split; [vm_compute; reflexivity|].
  split; [vm_compute; reflexivity | reflexivity].
Qed.

(** C4 fails: a "difference" model fitted on two conditions and then
    fitted on an input with a trial of a third condition raises in the
    second stage and is left with the matrices of the raising call's
    first stage. *)
Lemma failed_fit_overwrites :
  fit two_conditions None None None None None true difference_model
  = (Ok tt, fitted_on_two_conditions) /\
  fit three_conditions None None None (Some "a") (Some "b") true
      fitted_on_two_conditions
  = (Err ShapeError,
     MkJD "difference" (Some (Matrix 1 1 [[3]]%Q))
          (Some (Matrix 1 1 [[1 # 3]]))) /\
  unmixing (snd (fit three_conditions None None None (Some "a") (Some "b")
                     true fitted_on_two_conditions))
  <> unmixing fitted_on_two_conditions.
Proof.
  split; [vm_compute; reflexivity|].
  split; [vm_compute; reflexivity|].
  vm_compute. discriminate.
Qed.

(** C6 fails: fitted in "evoked" with [keep1 = 1] and [keep2 = 2] on two
    channels, [get_components] returns one component, not two. *)
Lemma keep2_beyond_keep1_gives_fewer :
  fit two_channels (Some 1%Z) (Some 2%Z) None None None true evoked_model
  = (Ok tt, fitted_on_two_channels) /\
  exists Y,
    get_components fitted_on_two_channels two_channels = Ok Y /\
    shape (_data Y) = (1, 1, 2) /\
    shape (_data Y) <> (1, 2, 2).
Proof.
  split; [vm_compute; reflexivity|].
  eexists. split; [vm_compute; reflexivity|].
  split; [reflexivity | discriminate].
Qed.

(** C8 fails: on a freshly constructed model [get_components] raises
    numpy's error for a [None] operand, not an error of the module; and
    on a model whose only [fit] call raised in the second stage of
    "difference" it raises nothing at all. *)
Lemma unfitted_error_is_numpys :
  __init__ "evoked" = Ok evoked_model /\
  get_components evoked_model two_channels = Err MatmulNone /\
  (forall msg,
     get_components evoked_model two_channels <> Err (ValueError msg)) /\
  __init__ "difference" = Ok difference_model /\
  fst (fit three_conditions None None None (Some "a") (Some "b") true
           difference_model) = Err ShapeError /\
  is_ok (get_components
           (snd (fit three_conditions None None None (Some "a") (Some "b")
                     true difference_model))
           three_conditions) = true.
Proof.
  split; [reflexivity|]. split; [vm_compute; reflexivity|].
  split; [intros msg; vm_compute; discriminate|].
  split; [reflexivity|]. split; vm_compute; reflexivity.
Qed.

(** C10 fails: with the default keeps on two channels and
    [n_bootstrap = 2], the first pass already raises (two components do
    not fit the buffer sized for 15) and the second pass is never
    entered. *)
Lemma first_pass_can_raise :
  bootstrap_pass two_channels (in_order 1) 0
    (zeros 2 15 2, Number (95 # 100), None)
  = Err ShapeError /\
  bootstrap_components two_channels 2 40 15 (95 # 100) (in_order 1)
  = Err ShapeError /\
  bootstrap_components two_channels 2 40 15 (95 # 100) (in_order 1)
  <> Err TypeError.
Proof.
  split; [vm_compute; reflexivity|].
  split; [vm_compute; reflexivity|].
  vm_compute. discriminate.
Qed.

(** With [n_bootstrap = 1] and a buffer that fits, the call returns. *)
Example one_pass_returns :
  bootstrap_components two_channels 1 40 2 (95 # 100) (in_order 1)
  = Ok (Matrix 2 2 [[1; 0]; [0; 1]]%Q, Matrix 2 2 [[1; 0]; [0; 1]]%Q).
Proof. vm_compute; reflexivity. Qed.

(** * The theorems at concrete inputs *)

(** C9 at a model fitted in "evoked" on two channels. *)
Lemma fit_stores_consistent_pair_witness :
  fit two_channels (Some 1%Z) (Some 2%Z) None None None true evoked_model
  = (Ok tt, fitted_on_two_channels) /\
  exists U M,
    unmixing fitted_on_two_channels = Some U /\
    mixing fitted_on_two_channels = Some M /\
    nrows U = dim1 (_data two_channels) /\
    ncols M = dim1 (_data two_channels) /\
    ncols U = nrows M /\
    built_in_one_call two_channels (Some 1%Z) (Some 2%Z) None None None true
      (kind evoked_model) U M.
Proof.
  split.
  - vm_compute; reflexivity.
  - apply (fit_stores_consistent_pair two_channels (Some 1%Z) (Some 2%Z)
             None None None true evoked_model fitted_on_two_channels).
    vm_compute; reflexivity.
Defined.

(** C4 at a "difference" model whose first fit raises in the second
    stage. *)
Lemma failed_fit_state_witness :
  let s' := MkJD "difference" (Some (Matrix 1 1 [[3]]%Q))
                 (Some (Matrix 1 1 [[1 # 3]])) in
  fit three_conditions None None None (Some "a") (Some "b") true
      difference_model
  = (Err ShapeError, s') /\
  ((first_stage_pair (kind difference_model) three_conditions None None None
      (Some "a") (Some "b") true = Err ShapeError /\
    s' = difference_model) \/
   (exists U M,
      first_stage_pair (kind difference_model) three_conditions None None
        None (Some "a") (Some "b") true = Ok (U, M) /\
      kind difference_model = "difference" /\
      s' = MkJD "difference" (Some M) (Some U))).
Proof.
  cbn zeta. split.
  - vm_compute; reflexivity.
  - apply (failed_fit_state three_conditions None None None (Some "a")
             (Some "b") true difference_model ShapeError).
    vm_compute; reflexivity.
Defined.

(** C5 at the model fitted on two channels. *)
Lemma reproject_is_unmix_then_mix_witness :
  unmixing fitted_on_two_channels = Some (Matrix 2 1 [[0]; [1 # 4]]%Q) /\
  mixing fitted_on_two_channels = Some (Matrix 1 2 [[0; 4]]%Q) /\
  0 < dim0 (_data two_channels) * dim2 (_data two_channels) /\
  reproject_components fitted_on_two_channels two_channels =
  (Y <- matmul (flatten_convention (_data two_channels))
          (Matrix 2 1 [[0]; [1 # 4]]%Q) ;;
   X <- matmul Y (Matrix 1 2 [[0; 4]]%Q) ;;
   EpochsArray
     (unflatten_convention X (dim0 (_data two_channels))
        (dim2 (_data two_channels)))
     (info two_channels) (events two_channels) (tmin two_channels))%result.
Proof.
  split; [reflexivity|]. split; [reflexivity|].
  split; [vm_compute; lia|].
  apply (reproject_is_unmix_then_mix fitted_on_two_channels two_channels);
    [reflexivity | reflexivity | vm_compute; lia].
Defined.

(** C8 at a freshly constructed "evoked" model. *)
Lemma unfitted_projection_raises_witness :
  unmixing evoked_model = None /\
  get_components evoked_model two_conditions = Err MatmulNone /\
  reproject_components evoked_model two_conditions = Err MatmulNone.
Proof.
  split; [reflexivity|].
  apply (unfitted_projection_raises evoked_model two_conditions).
  reflexivity.
Defined.

(** The rank-one array with both eigenpairs kept: the eigenvalue 0 is
    retained, its whitening is not finite and the second decomposition
    refuses the covariance; with one eigenpair kept the call returns. *)
Example zero_eigenvalue_retained :
  matmul (transpose rank_one) rank_one = Ok rank_one /\
  linalg_eig rank_one = Ok ([Some 1; Some 0]%Q, identity 2) /\
  slice_to 2 (rev (argsort [Some 1; Some 0]%Q)) = [0; 1] /\
  isfinite (nth 1 [Some 1; Some 0]%Q fzero) = true /\
  fle (nth 1 [Some 1; Some 0]%Q fzero) fzero = true /\
  _transform rank_one (identity 2) 2 2 = Err LinAlgError /\
  is_ok (_transform rank_one (identity 2) 1 2) = true.
Proof. repeat split; vm_compute; reflexivity. Qed.

(** C3 at the rank-one array with keeps 2 and 2. *)
Lemma transform_truncates_keeps_witness :
  let X := rank_one in
  let L : matrix (option Q) := identity 2 in
  ncols L = nrows X /\
  (_transform X L 2 2 = Err LinAlgError \/
   exists P N Q,
     _transform X L 2 2 = Ok (P, N, Q) /\
     nrows P = ncols X /\ ncols P = retained 2 (ncols X) /\
     nrows N = ncols P /\ ncols N = ncols P /\
     nrows Q = ncols P /\ ncols Q = retained 2 (ncols P)) /\
  (forall e,
     _transform X L 2 2 = Err e ->
     (exists C0, matmul (transpose X) X = Ok C0 /\ linalg_eig C0 = Err e) \/
     (exists D P N C1,
        bias_covariance X L 2 = Ok (D, P, N, C1) /\
        linalg_eig C1 = Err e)) /\
  (forall D P N C1 Dz V,
     bias_covariance X L 2 = Ok (D, P, N, C1) ->
     linalg_eig C1 = Ok (Dz, V) ->
     exists Q,
       col_select V (slice_to 2 (rev (argsort Dz))) = Ok Q /\
       _transform X L 2 2 = Ok (P, N, Q)) /\
  ((Z.of_nat (ncols X) <= 2)%Z ->
   _transform X L 2 2 = _transform X L (Z.of_nat (ncols X)) 2) /\
  (forall (epochs : Epochs (option Q)) keep3 c1 c2 det self,
     (Z.of_nat (dim1 (_data epochs)) <= 2)%Z ->
     fit epochs (Some 2%Z) (Some 2%Z) keep3 c1 c2 det self =
     fit epochs (Some (Z.of_nat (dim1 (_data epochs)))) (Some 2%Z) keep3
         c1 c2 det self) /\
  (forall (fin : Finiteness (option Q)), FiniteLaws (option Q) ->
     0 < nrows X -> 0 < nrows L ->
     forall C0 D V i,
       matmul (transpose X) X = Ok C0 ->
       linalg_eig C0 = Ok (D, V) ->
       In i (slice_to 2 (rev (argsort D))) ->
       isfinite (nth i D fzero) = true ->
       fle (nth i D fzero) fzero = true ->
       _transform X L 2 2 = Err LinAlgError).
Proof.
  cbn zeta. split; [reflexivity|].
  apply (transform_truncates_keeps rank_one (identity 2) 2 2).
  reflexivity.
Defined.

(** C6 at the model fitted on two channels with keeps 1 and 2. *)
Lemma evoked_projection_shapes_witness :
  kind evoked_model = "evoked" /\
  fit two_channels (Some 1%Z) (Some 2%Z) None None None true evoked_model
  = (Ok tt, fitted_on_two_channels) /\
  (1 <= 2)%Z /\ (1 <= 1)%Z /\
  consistent two_channels /\
  dim1 (_data two_channels) = dim1 (_data two_channels) /\
  0 < dim0 (_data two_channels) /\
  0 < dim1 (_data two_channels) /\
  0 < dim2 (_data two_channels) /\
  exists Y R,
    get_components fitted_on_two_channels two_channels = Ok Y /\
    shape (_data Y)
    = (dim0 (_data two_channels),
       Nat.min (Z.to_nat 2)
         (Nat.min (Z.to_nat 1) (dim1 (_data two_channels))),
       dim2 (_data two_channels)) /\
    reproject_components fitted_on_two_channels two_channels = Ok R /\
    shape (_data R) = shape (_data two_channels).
Proof.
  split; [reflexivity|]. split; [vm_compute; reflexivity|].
  split; [lia|]. split; [lia|].
  split; [repeat split; reflexivity|]. split; [reflexivity|].
  split; [vm_compute; lia|]. split; [vm_compute; lia|].
  split; [vm_compute; lia|].
  apply (evoked_projection_shapes two_channels (Some 1%Z) 2 None None None
           true evoked_model fitted_on_two_channels two_channels);
    try reflexivity; try (vm_compute; reflexivity); try lia;
    try (repeat split; reflexivity);
    vm_compute; lia.
Defined.

(** * Further properties of the code *)

(** ** fit and the object it works on *)

Section FitProperties.
Context {F : Type} {fl : Float F} {lib : Library F}.

(** X1.  [fit] never reads the matrices stored before the call: on two
    objects of the same kind it ends the same way, and the two objects
    afterwards are equal unless the call raised before its first stage
    was stored, in which case each is as it was. *)
Theorem fit_ignores_stored_matrices (epochs : Epochs F)
    keep1 keep2 keep3 c1 c2 det self1 self2 :
  kind self1 = kind self2 ->
  fst (fit epochs keep1 keep2 keep3 c1 c2 det self1)
  = fst (fit epochs keep1 keep2 keep3 c1 c2 det self2) /\
  (snd (fit epochs keep1 keep2 keep3 c1 c2 det self1)
   = snd (fit epochs keep1 keep2 keep3 c1 c2 det self2) \/
   (snd (fit epochs keep1 keep2 keep3 c1 c2 det self1) = self1 /\
    snd (fit epochs keep1 keep2 keep3 c1 c2 det self2) = self2)).
Proof.
  intros Hk. rewrite !fit_unfold, <- Hk.
  destruct (fit_defaults (kind self1) epochs keep1 keep2 keep3 c1 c2)
    as [[[[[k1 k2] k3] a] b]|e]; [|cbn; auto].
  destruct (stage1_input (kind self1) epochs a det) as [[X L]|e];
    [|cbn; auto].
  rewrite !first_stage_eq, <- Hk.
  destruct (_ <- _transform X L k1 k2 ;; _)%result as [[U M]|e];
    [|cbn; auto].
  split; [reflexivity | left; reflexivity].
Qed.

(** X2.  In "difference" without conditions, [fit] raises the module's
    [ValueError] and leaves the object untouched unless [event_id] holds
    exactly two labels; with exactly two it is [fit] with these two
    labels as conditions, in the order of the dict. *)
Theorem fit_infers_two_conditions (epochs : Epochs F)
    keep1 keep2 keep3 det self :
  kind self = "difference" ->
  (length (event_id epochs) <> 2 ->
   fit epochs keep1 keep2 keep3 None None det self
   = (Err (ValueError
             ("If conditions are not specified, " ++
              "epochs must contain exactly two types of events!")),
      self)) /\
  (forall a ca b cb,
     event_id epochs = [(a, ca); (b, cb)] ->
     fit epochs keep1 keep2 keep3 None None det self
     = fit epochs keep1 keep2 keep3 (Some a) (Some b) det self).
Proof.
  intros Hk. split.
  - intros Hlen. rewrite fit_unfold. unfold fit_defaults. rewrite Hk.
    cbn [String.eqb Ascii.eqb Bool.eqb].
    destruct (event_id epochs) as [|x [|y [|z l]]]; cbn [map];
      try reflexivity.
    cbn [length] in Hlen. lia.
  - intros a ca b cb Hid. rewrite !fit_unfold. unfold fit_defaults.
    rewrite Hk, Hid. reflexivity.
Qed.

(** X3.  In "evoked", the conditions and [keep3] have no influence on
    what [fit] does. *)
Theorem evoked_fit_ignores_conditions (epochs : Epochs F)
    keep1 keep2 keep3 c1 c2 det self :
  kind self = "evoked" ->
  fit epochs keep1 keep2 keep3 c1 c2 det self
  = fit epochs keep1 keep2 None None None det self.
Proof.
  intros Hk. rewrite !fit_unfold. unfold fit_defaults, stage1_input.
  rewrite Hk. unfold selected_trials.
  cbn [String.eqb Ascii.eqb Bool.eqb bind].
  destruct c1, c2; cbn [bind];
    destruct (detrended (Some (_data epochs)) det); cbn [bind];
    try reflexivity;
    destruct (flatten (_data epochs)); cbn [bind]; try reflexivity;
    match goal with
    | |- context [first_stage ?X ?L ?a ?b self] =>
        destruct (first_stage X L a b self) as [[[]|] ?]; reflexivity
    end.
Qed.

(** X4.  The detrending flag changes nothing but whether the call
    raises on line 43.  For a model of kind "evoked" or "difference",
    [X] being the array lines 38-41 bind (the whole data in "evoked",
    the trials of [condition1] twice in "difference"): when [detrend]
    returns on [X], [fit] with detrending does exactly what [fit]
    without detrending does; when [detrend] raises on [X], [fit] with
    detrending raises the same and leaves the object as it was.  A call
    that raises before line 42 does so with either flag. *)
Theorem fit_detrending_has_no_effect (epochs : Epochs F)
    keep1 keep2 keep3 c1 c2 self :
  kind self = "evoked" \/ kind self = "difference" ->
  (fit epochs keep1 keep2 keep3 c1 c2 true self
   = fit epochs keep1 keep2 keep3 c1 c2 false self \/
   exists k1 k2 k3 a b X e,
     fit_defaults (kind self) epochs keep1 keep2 keep3 c1 c2
     = Ok (k1, k2, k3, a, b) /\
     selected_trials (kind self) epochs a = Ok (Some X) /\
     detrend X = Err e /\
     fit epochs keep1 keep2 keep3 c1 c2 true self = (Err e, self)) /\
  (forall k1 k2 k3 a b X,
     fit_defaults (kind self) epochs keep1 keep2 keep3 c1 c2
     = Ok (k1, k2, k3, a, b) ->
     selected_trials (kind self) epochs a = Ok (Some X) ->
     (forall X', detrend X = Ok X' ->
                 fit epochs keep1 keep2 keep3 c1 c2 true self
                 = fit epochs keep1 keep2 keep3 c1 c2 false self) /\
     (forall e, detrend X = Err e ->
                fit epochs keep1 keep2 keep3 c1 c2 true self
                = (Err e, self))).
Proof.
  intros Hk. rewrite !fit_unfold.
  destruct (fit_defaults (kind self) epochs keep1 keep2 keep3 c1 c2)
    as [[[[[k1 k2] k3] a] b]|e]; [|split; [left; reflexivity|discriminate]].
  unfold stage1_input.
  destruct (selected_trials (kind self) epochs a) as [[X|]|e] eqn:Es;
    cbn [bind].
  - unfold detrended.
    destruct (detrend X) as [X'|e] eqn:Ed; cbn [bind].
    + split; [left; reflexivity|].
      intros ? ? ? ? ? X0 [= <- <- <- <- <-] Hs.
      rewrite Es in Hs. injection Hs as <-.
      rewrite Ed. split; [reflexivity | discriminate].
    + split.
      * right. exists k1, k2, k3, a, b, X, e. repeat split; assumption.
      * intros ? ? ? ? ? X0 [= <- <- <- <- <-] Hs.
        rewrite Es in Hs. injection Hs as <-.
        rewrite Ed. split; [discriminate | intros ? [= <-]; reflexivity].
  - exfalso. unfold selected_trials in Es.
    destruct Hk as [Hk|Hk]; rewrite Hk in Es;
      cbn [String.eqb Ascii.eqb Bool.eqb] in Es; [discriminate|].
    destruct (getitem epochs a) as [A|]; cbn [bind] in Es; [|discriminate].
    destruct (concatenate (_data A) (_data A)); discriminate.
  - split; [left; reflexivity|].
    intros ? ? ? ? ? X0 [= <- <- <- <- <-] Hs.
    rewrite Es in Hs. discriminate.
Qed.

End FitProperties.

(** ** The second stage and its bias filter *)

Section DifferenceProperties.
Context {F : Type} {fl : Float F} {lib : Library F}.

(** The signed filter has one identity block per trial of either
    condition. *)
Lemma stage2_filter_inv (epochs : Epochs F) a b L :
  stage2_filter epochs a b = Ok L ->
  exists A B,
    getitem epochs a = Ok A /\ getitem epochs b = Ok B /\
    nrows L = dim2 (_data epochs) /\
    ncols L = dim2 (_data epochs) * (dim0 (_data A) + dim0 (_data B)).
Proof.
  unfold stage2_filter. intros E.
  destruct (getitem epochs a) as [A|]; [|discriminate]. cbn [bind] in E.
  destruct (getitem epochs b) as [B|]; [|discriminate]. cbn [bind] in E.
  unfold hconcat in E. destruct (_ =? _); [|discriminate].
  injection E as <-. exists A, B.
  cbn [tile identity scale tabulate nrows ncols]. repeat split; lia.
Qed.

Lemma stage2_filter_defined (epochs : Epochs F) a b A B :
  getitem epochs a = Ok A -> getitem epochs b = Ok B ->
  exists L, stage2_filter epochs a b = Ok L.
Proof.
  intros EA EB. unfold stage2_filter, hconcat. rewrite EA, EB.
  cbn [bind tile identity scale tabulate nrows ncols].
  rewrite Nat.eqb_refl. eauto.
Qed.

(** X5.  A "difference" [fit] returns only if the trials the first
    condition selects and the trials the second condition selects are,
    counted together, as many as the trials of the input (each count
    times the sample count), the conditions being the two given or the
    two keys of [event_id]. *)
Theorem difference_fit_needs_every_trial (epochs : Epochs F)
    keep1 keep2 keep3 c1 c2 det self self' :
  kind self = "difference" ->
  fit epochs keep1 keep2 keep3 c1 c2 det self = (Ok tt, self') ->
  exists a b A B,
    (c1 = None /\ c2 = None /\ map fst (event_id epochs) = [a; b] \/
     c1 = Some a /\ c2 = Some b) /\
    getitem epochs (Some a) = Ok A /\
    getitem epochs (Some b) = Ok B /\
    dim2 (_data epochs) * (dim0 (_data A) + dim0 (_data B))
    = dim0 (_data epochs) * dim2 (_data epochs).
Proof.
  intros Hk Hfit.
  destruct (fit_cases epochs keep1 keep2 keep3 c1 c2 det self)
    as [(e & E)|(k1 & k2 & k3 & a & b & X & L & P & N & Q & U & M &
                 Ed & Es & Et & Eu & Em & Hc)].
  { rewrite E in Hfit. discriminate. }
  rewrite Hk in *. cbn [String.eqb Ascii.eqb Bool.eqb] in Hc.
  destruct Hc as [(Ek & _)|[(_ & e & E)|(_ & L2 & Y & P2 & N2 & Q2 & U2 &
                                         QNP & M2 & EL & EY & Et2 & _)]];
    [discriminate | rewrite E in Hfit; discriminate |].
  pose proof (stage1_input_inv _ _ _ _ _ _ Es) as (HX & _).
  pose proof (transform_inv _ _ _ _ _ _ _ Et2) as (HL & _).
  pose proof (matmul_shape _ _ _ EY) as (_ & HY & _).
  destruct (stage2_filter_inv _ _ _ _ EL) as (A & B & EA & EB & _ & HLc).
  assert (Hrows : nrows X = dim0 (_data epochs) * dim2 (_data epochs))
    by (rewrite HX; reflexivity).
  destruct a as [a|]; [|discriminate EA].
  destruct b as [b|]; [|discriminate EB].
  exists a, b, A, B. split; [|repeat split; try assumption; lia].
  unfold fit_defaults in Ed. cbn [String.eqb Ascii.eqb Bool.eqb] in Ed.
  destruct c1 as [x|], c2 as [y|].
  - injection Ed as _ _ _ -> ->. right. auto.
  - injection Ed as _ _ _ _ Hb. discriminate Hb.
  - injection Ed as _ _ _ Ha _. discriminate Ha.
  - destruct (map fst (event_id epochs)) as [|x [|y [|z l]]];
      try discriminate Ed.
    injection Ed as _ _ _ -> ->. left. auto.
Qed.

End DifferenceProperties.

(** ** What fit can raise, with the libraries behaving as documented *)

Section FitOutcomes.
Context {F : Type} {fl : Float F} {lib : Library F} {laws : LibraryLaws F}.

(** A filter that does not fit stops [_transform] at [L @ Z]. *)
Lemma transform_misfit (X L : matrix F) k1 k2 :
  ncols L <> nrows X ->
  _transform X L k1 k2 = Err ShapeError \/
  _transform X L k1 k2 = Err LinAlgError.
Proof.
  intros HL. unfold _transform.
  destruct (matmul_defined (transpose X) X) as (C0 & E0 & R0 & K0);
    [reflexivity|].
  rewrite E0; cbn [bind].
  destruct (linalg_eig C0) as [[D V]|e] eqn:Eeig; cbn [bind].
  2:{ right. f_equal. eapply eig_raises; eassumption. }
  destruct (eig_shape _ _ _ Eeig) as (HD & HVr & HVc).
  cbn [transpose tabulate nrows] in R0.
  destruct (kept_positions D k1) as (Hlen & Hin).
  set (idx := slice_to k1 (rev (argsort D))) in *.
  destruct (vec_select_defined D idx Hin) as (D' & ED').
  rewrite ED'; cbn [bind].
  destruct (col_select_defined V idx) as (P & EP).
  { intros j Hj. rewrite HVc, <- HD. auto. }
  rewrite EP; cbn [bind].
  apply vec_select_ok in ED'.
  pose proof (col_select_ok _ _ _ EP) as (HPr & HPc).
  destruct (matmul_defined X P) as (XP & E1 & R1 & K1); [lia|].
  rewrite E1; cbn [bind].
  set (N := diag (map (fun d => fsqrt (fdiv fone d)) D')).
  assert (HN : nrows N = length idx).
  { unfold N. cbn [diag tabulate nrows]. rewrite length_map. lia. }
  destruct (matmul_defined XP N) as (Zs & E2 & R2 & K2); [lia|].
  rewrite E2; cbn [bind].
  left. unfold matmul.
  replace (ncols L =? nrows Zs) with false; [reflexivity|].
  symmetry. apply Nat.eqb_neq. lia.
Qed.

(** X6.  A bias filter whose column count differs from the row count of
    [X] never lets [_transform] return: the call raises numpy's shape
    error at [L @ Z], unless the first eigendecomposition has raised
    before. *)
Theorem transform_rejects_misfit_filter (X L : matrix F) k1 k2 :
  ncols L <> nrows X ->
  _transform X L k1 k2 = Err ShapeError \/
  _transform X L k1 k2 = Err LinAlgError.
Proof. apply transform_misfit. Qed.

(** With a filter that fits, the first stage either passes on the
    eigensolver's error, leaving the object as it was, or stores a pair
    of the shapes the keeps allow. *)
Lemma first_stage_total (X L : matrix F) k1 k2 self :
  ncols L = nrows X ->
  first_stage X L k1 k2 self = (Err LinAlgError, self) \/
  exists U M,
    first_stage X L k1 k2 self
    = (Ok tt, MkJD (kind self) (Some M) (Some U)) /\
    nrows U = ncols X /\
    ncols U = retained k2 (retained k1 (ncols X)) /\
    nrows M = ncols U /\ ncols M = ncols X.
Proof.
  intros HL. rewrite first_stage_eq.
  destruct (transform_total X L k1 k2 HL)
    as [E|(P & N & Q & E & HP1 & HP2 & HN1 & HN2 & HQ1 & HQ2)];
    rewrite E; cbn [bind]; [left; reflexivity|].
  right.
  pose proof (transform_inv _ _ _ _ _ _ _ E) as (_ & _ & d & -> & Hd).
  unfold compose_unmixing.
  destruct (matmul_defined P (diag d)) as (PN & E1 & R1 & K1); [lia|].
  rewrite E1; cbn [bind].
  destruct (matmul_defined PN Q) as (U & E2 & R2 & K2); [lia|].
  rewrite E2; cbn [bind].
  destruct (compose_mixing_defined P Q d) as (M & Em & RM & KM);
    [exact Hd | lia |].
  rewrite Em; cbn [bind].
  exists U, M. split; [reflexivity|].
  repeat split; try lia. rewrite K2, HQ2, HP2. reflexivity.
Qed.

(** The first stage of [fit] is always handed a filter that fits. *)
Lemma stage1_filter_fits k (epochs : Epochs F) a det X L :
  stage1_input k epochs a det = Ok (X, L) ->
  ncols L = nrows X /\ ncols X = dim1 (_data epochs) /\
  nrows X = dim0 (_data epochs) * dim2 (_data epochs).
Proof.
  intros Es. apply stage1_input_inv in Es. destruct Es as (-> & ->).
  cbn [tile identity flatten_convention tabulate nrows ncols]. lia.
Qed.

(** The first stage raises what [_transform] raises and nothing else. *)
Lemma first_stage_outcomes (X L : matrix F) k1 k2 self :
  ncols L = nrows X ->
  (exists e, _transform X L k1 k2 = Err e /\
             first_stage X L k1 k2 self = (Err e, self)) \/
  exists U M,
    first_stage X L k1 k2 self
    = (Ok tt, MkJD (kind self) (Some M) (Some U)) /\
    nrows U = ncols X /\
    ncols U = retained k2 (retained k1 (ncols X)) /\
    nrows M = ncols U /\ ncols M = ncols X.
Proof.
  intros HL.
  destruct (_transform X L k1 k2) as [[[P N] Q]|e] eqn:Et.
  - right.
    destruct (first_stage_total X L k1 k2 self HL) as [E|H]; [|exact H].
    rewrite first_stage_eq, Et in E. cbn [bind] in E.
    pose proof (transform_inv _ _ _ _ _ _ _ Et) as (_ & _ & d & -> & Hd).
    pose proof (transform_shape _ _ _ _ _ _ _ Et)
      as (HP1 & HP2 & HN1 & HN2 & HQ1 & HQ2).
    unfold compose_unmixing in E.
    destruct (matmul_defined P (diag d)) as (PN & E1 & R1 & K1); [lia|].
    rewrite E1 in E; cbn [bind] in E.
    destruct (matmul_defined PN Q) as (U & E2 & R2 & K2); [lia|].
    rewrite E2 in E; cbn [bind] in E.
    destruct (compose_mixing_defined P Q d) as (M & Em & _);
      [exact Hd | lia |].
    rewrite Em in E. discriminate E.
  - left. exists e. split; [reflexivity|].
    rewrite first_stage_eq, Et. reflexivity.
Qed.

(** X7.  In "evoked", [fit] raises only what a library call has raised:
    what [detrend] raises on the data when detrending is on, which it
    passes on, or the [LinAlgError] of one of the two decompositions; in
    either case it leaves the object as it was.  Otherwise it returns,
    for every input and all keeps, and has stored an unmixing of shape
    (n_channels, k) and a mixing of shape (k, n_channels), k being what
    the slices for [keep1] (default: the channel count of [info]) and
    [keep2] (default: [keep1]) retain of the n_channels eigenpairs. *)
Theorem evoked_fit_outcomes (epochs : Epochs F)
    keep1 keep2 keep3 c1 c2 det self :
  kind self = "evoked" ->
  let k1 := match keep1 with
            | Some v => v
            | None => Z.of_nat (nchan (info epochs))
            end in
  let k2 := match keep2 with Some v => v | None => k1 end in
  let X := flatten_convention (_data epochs) in
  let L := tile (identity (dim2 (_data epochs))) (dim0 (_data epochs)) in
  (forall e s,
     fit epochs keep1 keep2 keep3 c1 c2 det self = (Err e, s) ->
     s = self /\
     ((det = true /\ detrend (_data epochs) = Err e) \/
      (e = LinAlgError /\
       ((exists C0, matmul (transpose X) X = Ok C0 /\
                    linalg_eig C0 = Err e) \/
        (exists D P N C1,
           bias_covariance X L k1 = Ok (D, P, N, C1) /\
           linalg_eig C1 = Err e))))) /\
  (forall s,
     fit epochs keep1 keep2 keep3 c1 c2 det self = (Ok tt, s) ->
     exists U M,
       s = MkJD "evoked" (Some M) (Some U) /\
       nrows U = dim1 (_data epochs) /\
       ncols U = retained k2 (retained k1 (dim1 (_data epochs))) /\
       nrows M = ncols U /\ ncols M = dim1 (_data epochs)) /\
  (det = true ->
   forall e, detrend (_data epochs) = Err e ->
             fit epochs keep1 keep2 keep3 c1 c2 det self = (Err e, self)).
Proof.
  intros Hk k1 k2 X L.
  rewrite (evoked_fit_eq epochs keep1 keep2 keep3 c1 c2 det self Hk).
  fold k1 k2 X L.
  assert (HL : ncols L = nrows X).
  { unfold L, X. cbn [tile identity flatten_convention tabulate nrows ncols].
    lia. }
  assert (Hstage :
    (forall e s,
       match first_stage X L k1 k2 self with
       | (Ok _, s) => (Ok tt, s)
       | (Err err, s) => (Err err, s)
       end = (Err e, s) ->
       s = self /\ e = LinAlgError /\
       ((exists C0, matmul (transpose X) X = Ok C0 /\
                    linalg_eig C0 = Err e) \/
        (exists D P N C1,
           bias_covariance X L k1 = Ok (D, P, N, C1) /\
           linalg_eig C1 = Err e))) /\
    (forall s,
       match first_stage X L k1 k2 self with
       | (Ok _, s) => (Ok tt, s)
       | (Err err, s) => (Err err, s)
       end = (Ok tt, s) ->
       exists U M,
         s = MkJD "evoked" (Some M) (Some U) /\
         nrows U = dim1 (_data epochs) /\
         ncols U = retained k2 (retained k1 (dim1 (_data epochs))) /\
         nrows M = ncols U /\ ncols M = dim1 (_data epochs))).
  { destruct (first_stage_outcomes X L k1 k2 self HL)
      as [(e' & Et & E)|(U & M & E & HU1 & HU2 & HM1 & HM2)]; rewrite E.
    - split; [|discriminate].
      intros e s [= <- <-]. split; [reflexivity|].
      pose proof (transform_raises_inv X L k1 k2 e' HL Et) as Hp.
      split; [|exact Hp].
      destruct Hp as [(C0 & _ & Ee)|(D & P & N & C1 & _ & Ee)];
        eapply eig_raises; eassumption.
    - split; [discriminate|].
      intros s [= <-]. exists U, M. rewrite Hk.
      split; [reflexivity|]. exact (conj HU1 (conj HU2 (conj HM1 HM2))). }
  destruct Hstage as (Hraise & Hret).
  destruct det.
  - destruct (detrend (_data epochs)) as [T|e'] eqn:Ed.
    + split; [|split; [exact Hret | discriminate]].
      intros e s E. destruct (Hraise e s E) as (-> & H). auto.
    + split; [|split; [discriminate | intros _ e [= <-]; reflexivity]].
      intros e s [= <- <-]. auto.
  - split; [|split; [exact Hret | discriminate]].
    intros e s E. destruct (Hraise e s E) as (-> & H). auto.
Qed.

(** What [epochs[label]] raises: numpy's [IndexError] for [None], mne's
    [KeyError] for a label no key of [event_id] matches. *)
Lemma getitem_raises (epochs : Epochs F) l e :
  getitem epochs l = Err e ->
  (l = None /\ e = IndexError) \/
  (exists name, l = Some name /\ e = KeyError (Some name) /\
                matching_ids epochs name = []).
Proof.
  unfold getitem. destruct l as [name|]; [|intros [= <-]; left; auto].
  destruct (matching_ids epochs name) as [|kv ids] eqn:Em; [|discriminate].
  intros [= <-]. right. exists name. auto.
Qed.

(** The second stage on a consistent pair: its ways to end. *)
Lemma second_stage_outcomes (epochs : Epochs F) (X : matrix F) k2 k3 a b
    kd (U1 M1 : matrix F) :
  ncols X = nrows U1 -> nrows M1 = ncols U1 ->
  (exists l e,
     second_stage epochs X k2 k3 a b (MkJD kd (Some M1) (Some U1))
     = (Err e, MkJD kd (Some M1) (Some U1)) /\
     getitem epochs l = Err e /\ (l = a \/ l = b)) \/
  second_stage epochs X k2 k3 a b (MkJD kd (Some M1) (Some U1))
  = (Err LinAlgError, MkJD kd (Some M1) (Some U1)) \/
  (second_stage epochs X k2 k3 a b (MkJD kd (Some M1) (Some U1))
   = (Err ShapeError, MkJD kd (Some M1) (Some U1)) /\
   exists L2, stage2_filter epochs a b = Ok L2 /\ ncols L2 <> nrows X) \/
  (exists U2 M2,
     second_stage epochs X k2 k3 a b (MkJD kd (Some M1) (Some U1))
     = (Ok tt, MkJD kd (Some M2) (Some U2)) /\
     nrows U2 = nrows U1 /\
     ncols U2 = retained k3 (retained k2 (ncols U1)) /\
     nrows M2 = ncols U2 /\ ncols M2 = ncols M1).
Proof.
  intros HX HM.
  unfold second_stage, mbind, lift, attr, set_unmixing, set_mixing.
  cbn [unmixing mixing kind operand bind].
  destruct (stage2_filter epochs a b) as [L2|e] eqn:EL.
  2:{ left. unfold stage2_filter in EL.
      destruct (getitem epochs a) as [A|e1] eqn:EA; cbn [bind] in EL.
      - destruct (getitem epochs b) as [B|e2] eqn:EB; cbn [bind] in EL.
        + unfold hconcat in EL.
          cbn [tile identity scale tabulate nrows] in EL.
          rewrite Nat.eqb_refl in EL. discriminate.
        + injection EL as <-. exists b, e2. auto.
      - injection EL as <-. exists a, e1. auto. }
  destruct (matmul_defined X U1 HX) as (Y & EY & RY & KY).
  rewrite EY.
  destruct (Nat.eq_dec (ncols L2) (nrows Y)) as [HL|HL].
  2:{ right.
      destruct (transform_misfit Y L2 k2 k3 HL) as [E|E]; rewrite E.
      - right. left. split; [reflexivity|]. exists L2. split; [reflexivity|].
        lia.
      - left. reflexivity. }
  destruct (transform_total Y L2 k2 k3 HL)
    as [E|(P & N & Q & E & HP1 & HP2 & HN1 & HN2 & HQ1 & HQ2)]; rewrite E.
  { right. left. reflexivity. }
  right. right. right.
  cbn [unmixing mixing kind operand bind].
  pose proof (transform_inv _ _ _ _ _ _ _ E) as (_ & _ & d & -> & Hd).
  destruct (matmul_defined U1 P) as (UP & E1 & R1 & K1); [lia|].
  rewrite E1; cbn [bind].
  destruct (matmul_defined UP (diag d)) as (UPN & E2 & R2 & K2); [lia|].
  rewrite E2; cbn [bind].
  destruct (matmul_defined UPN Q) as (U2 & E3 & R3 & K3); [lia|].
  rewrite E3; cbn [bind unmixing mixing kind].
  destruct (compose_mixing_defined P Q d) as (QNP & Em & RM & KM);
    [exact Hd | lia |].
  rewrite Em; cbn [bind].
  destruct (matmul_defined QNP M1) as (M2 & E4 & R4 & K4); [lia|].
  rewrite E4.
  exists U2, M2. split; [reflexivity|].
  repeat split; try lia. rewrite K3, HQ2, HP2, KY. reflexivity.
Qed.

(** The ways a "difference" [fit] can end. *)
Lemma difference_fit_outcomes (epochs : Epochs F)
    keep1 keep2 keep3 c1 c2 det self :
  kind self = "difference" ->
  let k1 := match keep1 with
            | Some v => v
            | None => Z.of_nat (nchan (info epochs))
            end in
  let k2 := match keep2 with Some v => v | None => k1 end in
  let k3 := match keep3 with Some v => v | None => k2 end in
  (exists msg, fit epochs keep1 keep2 keep3 c1 c2 det self
               = (Err (ValueError msg), self)) \/
  (exists l e s,
     fit epochs keep1 keep2 keep3 c1 c2 det self = (Err e, s) /\
     getitem epochs l = Err e /\ (l = c1 \/ l = c2) /\
     (c1 <> None \/ c2 <> None)) \/
  (exists a A X e,
     fit epochs keep1 keep2 keep3 c1 c2 det self = (Err e, self) /\
     det = true /\
     getitem epochs a = Ok A /\
     concatenate (_data A) (_data A) = Ok X /\
     detrend X = Err e) \/
  (exists s, fit epochs keep1 keep2 keep3 c1 c2 det self
             = (Err LinAlgError, s)) \/
  (exists s a b A B,
     fit epochs keep1 keep2 keep3 c1 c2 det self = (Err ShapeError, s) /\
     getitem epochs a = Ok A /\ getitem epochs b = Ok B /\
     dim2 (_data epochs) * (dim0 (_data A) + dim0 (_data B))
     <> dim0 (_data epochs) * dim2 (_data epochs)) \/
  (exists U M,
     fit epochs keep1 keep2 keep3 c1 c2 det self
     = (Ok tt, MkJD "difference" (Some M) (Some U)) /\
     nrows U = dim1 (_data epochs) /\
     ncols U
     = retained k3 (retained k2 (retained k2
                                   (retained k1 (dim1 (_data epochs))))) /\
     nrows M = ncols U /\ ncols M = dim1 (_data epochs)).
Proof.
  intros Hk k1 k2 k3. rewrite fit_unfold.
  destruct (fit_defaults (kind self) epochs keep1 keep2 keep3 c1 c2)
    as [[[[[k1' k2'] k3'] a] b]|e] eqn:Ed.
  2:{ left. unfold fit_defaults in Ed. rewrite Hk in Ed.
      cbn [String.eqb Ascii.eqb Bool.eqb] in Ed.
      destruct c1, c2; try discriminate Ed.
      destruct (map fst (event_id epochs)) as [|x [|y [|z l]]];
        try discriminate Ed; injection Ed as <-; eauto. }
  assert (Hks : k1' = k1 /\ k2' = k2 /\
                match k3' with Some v => v | None => k2' end = k3).
  { unfold fit_defaults in Ed. rewrite Hk in Ed.
    cbn [String.eqb Ascii.eqb Bool.eqb] in Ed.
    destruct c1, c2;
      try (destruct (map fst (event_id epochs)) as [|x [|y [|z l]]];
           try discriminate Ed);
      injection Ed as <- <- <- _ _; subst k1 k2 k3;
      destruct keep3; auto. }
  (* a raise of [epochs[a]] or [epochs[b]] is a raise at a given condition:
     inferred conditions are keys, which match themselves *)
  assert (Hgiven : forall l e, getitem epochs l = Err e ->
                               l = a \/ l = b ->
                               (l = c1 \/ l = c2) /\
                               (c1 <> None \/ c2 <> None)).
  { intros l e El Hl. unfold fit_defaults in Ed. rewrite Hk in Ed.
    cbn [String.eqb Ascii.eqb Bool.eqb] in Ed.
    destruct c1 as [x1|], c2 as [x2|];
      try (injection Ed as _ _ _ <- <-; split; [exact Hl|];
           (left; discriminate) || (right; discriminate)).
    destruct (map fst (event_id epochs)) as [|x [|y [|z r]]] eqn:Ekeys;
      try discriminate Ed.
    injection Ed as _ _ _ <- <-. exfalso.
    assert (Hkey : forall name, In name (map fst (event_id epochs)) ->
                                getitem epochs (Some name) <> Err e).
    { intros name Hin E'. apply getitem_raises in E'.
      destruct E' as [(E' & _)|(n & [= <-] & _ & Hnone)]; [discriminate|].
      apply in_map_iff in Hin. destruct Hin as (kv & Hfst & Hin).
      assert (Hm : In kv (matching_ids epochs name)).
      { unfold matching_ids. apply filter_In. split; [exact Hin|].
        rewrite Hfst. apply tags_match_refl. }
      rewrite Hnone in Hm. exact Hm. }
    destruct Hl as [-> | ->]; eapply Hkey; try exact El;
      rewrite Ekeys; cbn [In]; auto. }
  destruct Hks as (-> & -> & Hk3). rewrite Hk3. clear Hk3 Ed k3'.
  destruct (stage1_input (kind self) epochs a det) as [[X L]|e] eqn:Es.
  2:{ right. rewrite Hk in Es.
      unfold stage1_input, selected_trials in Es.
      cbn [String.eqb Ascii.eqb Bool.eqb] in Es.
      destruct (getitem epochs a) as [A|e1] eqn:EA; cbn [bind] in Es.
      - destruct (concatenate (_data A) (_data A)) as [T|e2] eqn:Ec.
        2:{ unfold concatenate in Ec. rewrite !Nat.eqb_refl in Ec.
            discriminate Ec. }
        cbn [bind] in Es. unfold detrended in Es.
        rewrite flatten_convention_ok in Es.
        destruct det; [|discriminate Es].
        destruct (detrend T) as [T'|e3] eqn:Edt; cbn [bind] in Es;
          [discriminate Es|].
        injection Es as <-. right. left.
        exists a, A, T, e3. repeat split; assumption.
      - injection Es as <-. left. exists a, e1, self.
        split; [reflexivity|]. split; [exact EA|].
        apply (Hgiven a e1 EA). left; reflexivity. }
  destruct (stage1_filter_fits _ _ _ _ _ _ Es) as (HL & HXc & HXr).
  destruct (first_stage_total X L k1 k2 self HL)
    as [E|(U & M & E & HU1 & HU2 & HM1 & HM2)]; rewrite E.
  { right. right. right. left. eauto. }
  rewrite Hk. cbn [String.eqb Ascii.eqb Bool.eqb].
  destruct (second_stage_outcomes epochs X k2 k3 a b "difference" U M)
    as [(l & e & E2 & El & Hl)|[E2|[(E2 & L2 & EL & HL2)|
                                     (U2 & M2 & E2 & HS)]]];
    try lia; rewrite E2.
  - right. left. exists l, e, (MkJD "difference" (Some M) (Some U)).
    split; [reflexivity|]. split; [exact El|].
    apply (Hgiven l e El Hl).
  - right. right. right. left. eauto.
  - right. right. right. right. left.
    destruct (stage2_filter_inv _ _ _ _ EL) as (A & B & EA & EB & _ & HLc).
    exists (MkJD "difference" (Some M) (Some U)), a, b, A, B.
    repeat split; try assumption. lia.
  - right. right. right. right. right. exists U2, M2.
    destruct HS as (S1 & S2 & S3 & S4).
    split; [reflexivity|]. repeat split; try lia.
    rewrite S2, HU2, HXc. reflexivity.
Qed.


(** X9.  A "difference" [fit] that returns with non-negative keeps has
    stored an unmixing of shape (n_channels, k) and a mixing of shape
    (k, n_channels) with k = min keep3 (min keep2 (min keep1
    n_channels)), [keep1] being by default the channel count of [info],
    [keep2] by default [keep1] and [keep3] by default [keep2]. *)
Theorem difference_fit_shapes (epochs : Epochs F)
    keep1 keep2 keep3 c1 c2 det self self' :
  kind self = "difference" ->
  fit epochs keep1 keep2 keep3 c1 c2 det self = (Ok tt, self') ->
  let k1 := match keep1 with
            | Some v => v
            | None => Z.of_nat (nchan (info epochs))
            end in
  let k2 := match keep2 with Some v => v | None => k1 end in
  let k3 := match keep3 with Some v => v | None => k2 end in
  (0 <= k1)%Z -> (0 <= k2)%Z -> (0 <= k3)%Z ->
  exists U M,
    unmixing self' = Some U /\ mixing self' = Some M /\
    nrows U = dim1 (_data epochs) /\
    ncols U = Nat.min (Z.to_nat k3)
                (Nat.min (Z.to_nat k2)
                   (Nat.min (Z.to_nat k1) (dim1 (_data epochs)))) /\
    nrows M = ncols U /\ ncols M = dim1 (_data epochs).
Proof.
  intros Hk Hfit k1 k2 k3 H1 H2 H3.
  destruct (difference_fit_outcomes epochs keep1 keep2 keep3 c1 c2 det
              self Hk)
    as [(msg & E)|[(l & e' & s' & E & _)|
        [(a & A & X & e' & E & _)|
         [(s' & E)|[(s' & a & b & A & B & E & H)|
                    (U & M & E & HU1 & HU2 & HM)]]]]];
    rewrite E in Hfit; try discriminate; injection Hfit as <-.
  exists U, M. cbn [unmixing mixing].
  repeat split; try tauto.
  fold k1 k2 k3 in HU2. rewrite HU2.
  rewrite !retained_nonneg by assumption. lia.
Qed.

End FitOutcomes.

(** ** The projections *)

Section ProjectionProperties.
Context {F : Type} {fl : Float F} {lib : Library F}.

Lemma list_tabulate {A} (l : list A) n d :
  length l = n -> map (fun i => nth i l d) (seq 0 n) = l.
Proof.
  intros <-. apply (nth_ext _ _ d d).
  - rewrite length_map, length_seq. reflexivity.
  - intros i Hi. rewrite length_map, length_seq in Hi.
    rewrite (nth_tabulated (fun i => nth i l d)) by exact Hi. reflexivity.
Qed.

(** A well-formed array is the table of its cells. *)
Lemma tabulate_get (M : matrix F) :
  wf M -> tabulate (nrows M) (ncols M) (get M) = M.
Proof.
  destruct M as [r c rs]. intros (Hlen & Hrows). cbn [nrows ncols rows] in *.
  unfold tabulate, get. cbn [rows]. f_equal.
  etransitivity; [|exact (list_tabulate rs r [] Hlen)].
  apply map_ext_in. intros i Hi. apply in_seq in Hi.
  apply list_tabulate.
  rewrite Forall_forall in Hrows. apply Hrows. apply nth_In. lia.
Qed.

Lemma tabulate3_get3 (T : tensor F) :
  wf3 T -> tabulate3 (dim0 T) (dim1 T) (dim2 T) (get3 T) = T.
Proof.
  destruct T as [a b c cs]. intros (Hlen & Hcells).
  cbn [dim0 dim1 dim2 cells] in *.
  unfold tabulate3, get3. cbn [cells]. f_equal.
  etransitivity; [|exact (list_tabulate cs a [] Hlen)].
  apply map_ext_in. intros i Hi. apply in_seq in Hi.
  rewrite Forall_forall in Hcells.
  destruct (Hcells (nth i cs [])) as (Hb & Hrows); [apply nth_In; lia|].
  etransitivity; [|exact (list_tabulate (nth i cs []) b [] Hb)].
  apply map_ext_in. intros j Hj. apply in_seq in Hj.
  apply list_tabulate.
  rewrite Forall_forall in Hrows. apply Hrows. apply nth_In. lia.
Qed.

Lemma tabulate3_wf a b c (f : nat -> nat -> nat -> F) :
  wf3 (tabulate3 a b c f).
Proof.
  split; cbn [tabulate3 cells dim0 dim1 dim2].
  - rewrite length_map, length_seq; reflexivity.
  - apply Forall_forall; intros m Hm.
    apply in_map_iff in Hm; destruct Hm as (i & <- & _).
    split; [rewrite length_map, length_seq; reflexivity|].
    apply Forall_forall; intros r Hr.
    apply in_map_iff in Hr; destruct Hr as (j & <- & _).
    rewrite length_map, length_seq; reflexivity.
Qed.

Lemma matmul_wf (A B C : matrix F) : matmul A B = Ok C -> wf C.
Proof.
  unfold matmul. destruct (_ =? _); [|discriminate].
  intros [= <-]. apply tabulate_wf.
Qed.

(** Row [t * n_samples + s] of the flattened tensor is sample [s] of
    trial [t]. *)
Lemma flatten_cell (T : tensor F) t c s :
  t < dim0 T -> c < dim1 T -> s < dim2 T ->
  get (flatten_convention T) (t * dim2 T + s) c = get3 T t c s.
Proof.
  intros Ht Hc Hs. unfold flatten_convention.
  rewrite get_tabulate by (assumption || nia).
  rewrite rank_div, rank_mod by exact Hs. reflexivity.
Qed.

Lemma unflatten_after_flatten (T : tensor F) :
  wf3 T -> 0 < dim0 T * dim2 T ->
  (X <- flatten T ;; unflatten X (dim0 T) (dim2 T))%result = Ok T.
Proof.
  intros Hwf Hpos. rewrite flatten_convention_ok. cbn [bind].
  rewrite unflatten_convention_ok by (reflexivity || exact Hpos).
  f_equal. etransitivity; [|exact (tabulate3_get3 T Hwf)].
  unfold unflatten_convention. cbn [flatten_convention tabulate ncols].
  apply tabulate3_ext. intros t c s Ht Hc Hs.
  fold (flatten_convention T). apply flatten_cell; assumption.
Qed.

Lemma flatten_after_unflatten (Y : matrix F) n_epochs n_times :
  wf Y -> nrows Y = n_epochs * n_times -> 0 < n_epochs * n_times ->
  (T <- unflatten Y n_epochs n_times ;; flatten T)%result = Ok Y.
Proof.
  intros Hwf Hrows Hpos.
  rewrite unflatten_convention_ok by assumption. cbn [bind].
  rewrite flatten_convention_ok. f_equal.
  etransitivity; [|exact (tabulate_get Y Hwf)].
  unfold flatten_convention, unflatten_convention.
  cbn [tabulate3 dim0 dim1 dim2]. rewrite Hrows.
  apply tabulate_ext. intros r c Hr Hc.
  fold (unflatten_convention Y n_epochs n_times).
  unfold unflatten_convention.
  rewrite get3_tabulate3;
    [| apply div_below; exact Hr | exact Hc
     | apply (mod_below r n_epochs); exact Hr].
  f_equal. symmetry. apply rank_split.
Qed.

(** X10.  Reshaping there and back is the identity: a well-formed tensor
    with at least one trial and one sample comes back from lines 45-46
    followed by line 65, and a well-formed 2-D array with one row per
    (trial, sample) pair comes back from line 65 followed by lines
    45-46. *)
Theorem flatten_unflatten_round_trip :
  (forall T : tensor F,
     wf3 T -> 0 < dim0 T * dim2 T ->
     (X <- flatten T ;; unflatten X (dim0 T) (dim2 T))%result = Ok T) /\
  (forall (Y : matrix F) n_epochs n_times,
     wf Y -> nrows Y = n_epochs * n_times -> 0 < n_epochs * n_times ->
     (T <- unflatten Y n_epochs n_times ;; flatten T)%result = Ok Y).
Proof.
  split; [exact unflatten_after_flatten | exact flatten_after_unflatten].
Qed.

(** What [mne.EpochsArray] returns when it returns. *)
Lemma EpochsArray_ok (data : tensor F) i evs t0 C :
  EpochsArray data i evs t0 = Ok C ->
  _data C = data /\ info C = i /\ events C = evs /\ tmin C = t0 /\
  0 < dim1 data.
Proof.
  unfold EpochsArray.
  destruct (nchan i =? dim1 data); cbn [andb]; [|discriminate].
  destruct (0 <? dim1 data) eqn:E; cbn [andb]; [|discriminate].
  destruct (_ && _); [|discriminate].
  intros [= <-]. apply Nat.ltb_lt in E. auto.
Qed.

(** What a returning [get_components] has computed. *)
Lemma get_components_inv (self : JointDecorrelation F) (epochs : Epochs F) C :
  get_components self epochs = Ok C ->
  exists U Y,
    unmixing self = Some U /\
    matmul (flatten_convention (_data epochs)) U = Ok Y /\
    0 < dim0 (_data epochs) * dim2 (_data epochs) /\
    _data C = unflatten_convention Y (dim0 (_data epochs))
                (dim2 (_data epochs)) /\
    0 < ncols Y.
Proof.
  unfold get_components. rewrite flatten_convention_ok. cbn [bind].
  destruct (unmixing self) as [U|]; [|discriminate]. cbn [operand bind].
  destruct (matmul (flatten_convention (_data epochs)) U) as [Y|] eqn:EY;
    [|discriminate].
  cbn [bind]. intros E.
  assert (Hpos : 0 < dim0 (_data epochs) * dim2 (_data epochs)).
  { unfold unflatten, reshape3_infer in E.
    destruct (dim0 (_data epochs) * dim2 (_data epochs) =? 0) eqn:Ez;
      [discriminate E|].
    apply Nat.eqb_neq in Ez. lia. }
  pose proof (matmul_shape _ _ _ EY) as (_ & HY & _).
  rewrite unflatten_convention_ok in E;
    [| rewrite HY; reflexivity | exact Hpos].
  cbn [bind] in E. apply EpochsArray_ok in E.
  destruct E as (Hdata & _ & _ & _ & Hch).
  exists U, Y. repeat split; assumption.
Qed.

(** X11.  On a model with an unmixing of as many rows as the input has
    channels, and an input with at least one trial and one sample whose
    events are one per trial, at distinct samples: with an unmixing
    without columns the call raises, [mne.EpochsArray] refusing a
    container without channels; otherwise [get_components] returns a
    tensor of shape (n_trials, k, n_samples), k being the unmixing's
    column count; component [c] of trial [t] at
    sample [s] is the sum over the channels of the input at the same
    trial and sample times column [c] of the unmixing, so that no trial
    or sample reaches another; events and time origin are passed on and
    the info counts k channels. *)
Theorem get_components_cells (self : JointDecorrelation F)
    (epochs : Epochs F) U :
  unmixing self = Some U ->
  dim1 (_data epochs) = nrows U ->
  0 < dim0 (_data epochs) -> 0 < dim2 (_data epochs) ->
  length (events epochs) = dim0 (_data epochs) ->
  distinct (map event_sample (events epochs)) = true ->
  (ncols U = 0 -> get_components self epochs = Err ContainerError) /\
  (0 < ncols U ->
   exists C,
     get_components self epochs = Ok C /\
     shape (_data C)
     = (dim0 (_data epochs), ncols U, dim2 (_data epochs)) /\
     nchan (info C) = ncols U /\
     events C = events epochs /\ tmin C = tmin epochs /\
     forall t c s,
       t < dim0 (_data epochs) -> c < ncols U -> s < dim2 (_data epochs) ->
       get3 (_data C) t c s
       = fsum (map (fun ch => fmul (get3 (_data epochs) t ch s) (get U ch c))
                   (seq 0 (dim1 (_data epochs))))).
Proof.
  intros HU Hch Hn Ht Hev Hdist.
  assert (Hpos : 0 < dim0 (_data epochs) * dim2 (_data epochs)) by nia.
  unfold get_components. rewrite flatten_convention_ok, HU.
  cbn [bind operand]. unfold matmul at 1 2.
  cbn [flatten_convention tabulate nrows ncols].
  rewrite Hch, Nat.eqb_refl. cbn [bind].
  rewrite !unflatten_convention_ok by (reflexivity || exact Hpos).
  cbn [bind]. unfold EpochsArray, create_info, unflatten_convention.
  cbn [nchan tabulate3 tabulate dim0 dim1 dim2 ncols].
  rewrite Hev, Hdist, !Nat.eqb_refl. cbn [andb]. split.
  - intros ->. reflexivity.
  - intros Hk.
    replace (0 <? ncols U) with true by (symmetry; apply Nat.ltb_lt; exact Hk).
    cbn [andb]. eexists. split; [reflexivity|].
    unfold shape.
    cbn [_data info events tmin nchan tabulate3 tabulate dim0 dim1 dim2].
    repeat split.
    intros t c s Hlt Hlc Hls.
    rewrite get3_tabulate3 by assumption.
    rewrite get_tabulate by (assumption || nia).
    f_equal. apply map_ext_in. intros ch Hin. apply in_seq in Hin.
    f_equal. fold (flatten_convention (_data epochs)).
    apply flatten_cell; assumption || lia.
Qed.

(** X12.  On a model whose unmixing has another row count than the input
    has channels, [get_components] and [reproject_components] raise
    numpy's shape error. *)
Theorem projection_rejects_channel_mismatch (self : JointDecorrelation F)
    (epochs : Epochs F) U :
  unmixing self = Some U ->
  dim1 (_data epochs) <> nrows U ->
  get_components self epochs = Err ShapeError /\
  reproject_components self epochs = Err ShapeError.
Proof.
  intros HU Hch. unfold get_components, reproject_components.
  rewrite flatten_convention_ok, HU. cbn [bind operand].
  unfold matmul at 1 2. cbn [flatten_convention tabulate ncols].
  replace (dim1 (_data epochs) =? nrows U) with false
    by (symmetry; apply Nat.eqb_neq; exact Hch).
  split; reflexivity.
Qed.

(** X13.  On an input without trials or without samples whose channel
    count fits, [get_components] raises: numpy cannot infer the first
    axis of the reshape on line 65; so does [reproject_components] on
    line 75 when the mixing fits the unmixing. *)
Theorem projection_rejects_empty_input (self : JointDecorrelation F)
    (epochs : Epochs F) U :
  unmixing self = Some U ->
  dim1 (_data epochs) = nrows U ->
  dim0 (_data epochs) * dim2 (_data epochs) = 0 ->
  get_components self epochs = Err ShapeError /\
  (forall M, mixing self = Some M -> nrows M = ncols U ->
             reproject_components self epochs = Err ShapeError).
Proof.
  intros HU Hch Hz. unfold get_components, reproject_components.
  rewrite flatten_convention_ok, HU. cbn [bind operand].
  destruct (matmul_defined (flatten_convention (_data epochs)) U)
    as (Y & EY & RY & KY); [exact Hch|].
  rewrite EY. cbn [bind]. split.
  - unfold unflatten, reshape3_infer. rewrite Hz. reflexivity.
  - intros M HM HMU. rewrite HM. cbn [operand bind].
    destruct (matmul_defined Y M) as (X & EX & _); [lia|].
    rewrite EX. cbn [bind].
    unfold unflatten, reshape3_infer. rewrite Hz. reflexivity.
Qed.

(** X14.  Reprojection is the mixing applied to the components: when
    [get_components] returns, [reproject_components] is the flattening
    of the component tensor times the mixing, reshaped back and handed
    to [mne.EpochsArray] with info, events and time origin of the
    input. *)
Theorem reproject_is_mixing_of_components (self : JointDecorrelation F)
    (epochs : Epochs F) C M :
  get_components self epochs = Ok C ->
  mixing self = Some M ->
  reproject_components self epochs =
  (Y <- flatten (_data C) ;;
   X <- matmul Y M ;;
   T <- unflatten X (dim0 (_data epochs)) (dim2 (_data epochs)) ;;
   EpochsArray T (info epochs) (events epochs) (tmin epochs))%result.
Proof.
  intros HC HM.
  destruct (get_components_inv _ _ _ HC)
    as (U & Y & HU & EY & Hpos & -> & _).
  pose proof (matmul_shape _ _ _ EY) as (_ & HY & _).
  cbn [flatten_convention tabulate nrows] in HY.
  pose proof (flatten_after_unflatten Y _ _ (matmul_wf _ _ _ EY) HY Hpos)
    as Hback.
  rewrite unflatten_convention_ok in Hback by assumption.
  cbn [bind] in Hback.
  unfold reproject_components.
  rewrite flatten_convention_ok, HU, HM. cbn [bind operand].
  rewrite EY. cbn [bind]. rewrite Hback. reflexivity.
Qed.

End ProjectionProperties.

(** ** The resampling loop and the keeps *)

Section BootstrapProperties.
Context {F : Type} {fl : Float F} {lib : Library F} {laws : LibraryLaws F}.

Lemma call_ok (m : method F unit) self s :
  call m self = Ok s -> m self = (Ok tt, s).
Proof.
  unfold call. destruct (m self) as [[[]|e] s']; [|discriminate].
  intros [= <-]. reflexivity.
Qed.

(** X16.  [bootstrap_components] returns only for [n_bootstrap = 1], a
    non-negative [keep2], and a [keep2] equal to the number of
    components the fit with the literals 40 and 15 yields, which is
    min 15 (min 40 n_channels), unless that number is 1 (one component
    is broadcast over the buffer). *)
Theorem bootstrap_returns_only_for_fitting_keep2 (epochs : Epochs F)
    n k1 k2 ci draws bands :
  bootstrap_components epochs n k1 k2 ci draws = Ok bands ->
  n = 1 /\ (0 <= k2)%Z /\
  (Z.to_nat k2 = Nat.min 15 (Nat.min 40 (dim1 (_data epochs))) \/
   Nat.min 15 (Nat.min 40 (dim1 (_data epochs))) = 1).
Proof.
  intros E. pose proof (bootstrap_returns_once _ _ _ _ _ _ _ E) as ->.
  split; [reflexivity|].
  unfold bootstrap_components, np_zeros in E.
  destruct (k2 <? 0)%Z eqn:Hk2; [discriminate|].
  apply Z.ltb_ge in Hk2. split; [exact Hk2|].
  cbn [bind seq for_range] in E.
  destruct (bootstrap_pass epochs draws 0
              (zeros 1 (Z.to_nat k2) (dim2 (_data epochs)), Number ci, None))
    as [st1|e1] eqn:E0; [|discriminate].
  clear E. unfold bootstrap_pass in E0.
  destruct (take_trials (_data epochs) (draws 0)) as [picked|] eqn:Ep;
    [|discriminate].
  cbn [bind] in E0.
  assert (Hpicked : dim1 picked = dim1 (_data epochs)).
  { unfold take_trials in Ep. destruct (forallb _ _); [|discriminate].
    injection Ep as <-. reflexivity. }
  set (perm := MkEpochs picked (info epochs) (events epochs)
                        (event_id epochs) (tmin epochs)) in *.
  unfold __init__ in E0.
  cbn [String.eqb Ascii.eqb Bool.eqb orb bind] in E0.
  destruct (call (fit perm (Some 40%Z) (Some 15%Z) None None None true)
              (MkJD "evoked" None None)) as [jd|] eqn:Ec; [|discriminate].
  cbn [bind] in E0. apply call_ok in Ec.
  destruct (evoked_fit_shapes perm (Some 40%Z) 15%Z None None None true
              (MkJD "evoked" None None) jd eq_refl Ec)
    as (U & M & HU & _ & _ & HUc & _).
  destruct (get_components jd perm) as [C|] eqn:EC; [|discriminate].
  cbn [bind] in E0.
  destruct (get_components_inv _ _ _ EC) as (U' & Y & HU' & EY & _ & HC & _).
  rewrite HU in HU'. injection HU' as <-.
  pose proof (matmul_shape _ _ _ EY) as (_ & _ & HYc).
  destruct (assign_slice _ 0 _) as [data1|] eqn:Ea; [|discriminate].
  clear E0. unfold assign_slice in Ea.
  destruct (negb _); [discriminate|].
  destruct (_ && _) eqn:Hb; [|discriminate].
  apply andb_prop in Hb. destruct Hb as (Hb & _).
  unfold average in Hb. rewrite HC in Hb.
  cbn [unflatten_convention tabulate3 tabulate
       zeros nrows dim0 dim1 dim2] in Hb.
  rewrite HYc, HUc in Hb. cbn [perm _data] in Hb. rewrite Hpicked in Hb.
  rewrite !retained_nonneg in Hb by lia.
  change (Z.to_nat 15) with 15 in Hb. change (Z.to_nat 40) with 40 in Hb.
  apply orb_prop in Hb. destruct Hb as [Hb|Hb]; apply Nat.eqb_eq in Hb.
  - left. symmetry. exact Hb.
  - right. exact Hb.
Qed.

End BootstrapProperties.

(** ** sort_epochs *)

Section SortProperties.
Context {F : Type} {fl : Float F} {lib : Library F}.

Lemma filter_positions_length {A} (p : A -> bool) (l : list A) d s :
  length (filter (fun i => p (nth (i - s) l d)) (seq s (length l)))
  = length (filter p l).
Proof.
  revert s. induction l as [|x l IH]; intros s; [reflexivity|].
  assert (Hrest :
    filter (fun i => p (nth (i - s) (x :: l) d)) (seq (S s) (length l))
    = filter (fun i => p (nth (i - S s) l d)) (seq (S s) (length l))).
  { apply filter_ext_in. intros i Hi. apply in_seq in Hi.
    replace (i - s) with (S (i - S s)) by lia. reflexivity. }
  cbn [length seq filter]. rewrite Hrest, Nat.sub_diag.
  change (nth 0 (x :: l) d) with x.
  destruct (p x); cbn [length]; rewrite IH; reflexivity.
Qed.

(** The trials [epochs[label]] selects: those whose event code is the
    code of a key that carries the tags of the label, in the order of
    the input. *)
Lemma getitem_data (epochs : Epochs F) l A :
  getitem epochs (Some l) = Ok A ->
  let sel := trials_with_codes epochs (map snd (matching_ids epochs l)) in
  _data A
  = tabulate3 (length sel) (dim1 (_data epochs)) (dim2 (_data epochs))
      (fun t c s => get3 (_data epochs) (nth t sel 0) c s).
Proof.
  unfold getitem.
  destruct (matching_ids epochs l) as [|kv ids] eqn:Em; [discriminate|].
  intros [= <-]. reflexivity.
Qed.

Lemma lookup_raises (epochs : Epochs F) l e :
  lookup_code epochs l = Err e -> e = KeyError l.
Proof.
  unfold lookup_code. destruct l as [l|]; [|intros [= <-]; reflexivity].
  destruct (find _ _) as [[x code]|]; [discriminate|].
  intros [= <-]. reflexivity.
Qed.

(** A label that is a key of [event_id] is among the keys it selects. *)
Lemma key_matches (epochs : Epochs F) l code :
  lookup_code epochs (Some l) = Ok code ->
  In (l, code) (matching_ids epochs l).
Proof.
  unfold lookup_code.
  destruct (find (fun kv => String.eqb (fst kv) l) (event_id epochs))
    as [[x c]|] eqn:Ef; [|discriminate].
  intros [= <-]. apply find_some in Ef. destruct Ef as (Hin & Heq).
  cbn [fst] in Heq. apply String.eqb_eq in Heq. subst x.
  unfold matching_ids. apply filter_In. split; [exact Hin|].
  apply tags_match_refl.
Qed.

Lemma getitem_key (epochs : Epochs F) l code :
  lookup_code epochs (Some l) = Ok code ->
  exists A, getitem epochs (Some l) = Ok A.
Proof.
  intros Hl. apply key_matches in Hl. unfold getitem.
  destruct (matching_ids epochs l); [contradiction | eauto].
Qed.

Lemma concatenate_twice (T : tensor F) :
  concatenate T T
  = Ok (tabulate3 (dim0 T + dim0 T) (dim1 T) (dim2 T)
          (fun t c s => if t <? dim0 T then get3 T t c s
                        else get3 T (t - dim0 T) c s)).
Proof. unfold concatenate. rewrite !Nat.eqb_refl. reflexivity. Qed.

(** X17.  [sort_epochs] raises exactly when a condition is no key of
    [event_id]: numpy's [IndexError] when the first condition is
    [None], the [KeyError] of the first condition when it is a label
    but no key (be it that no key carries its tags, line 80, or that
    some do, line 81), and the [KeyError] of the second condition when
    the first is a key and the second is not; with two keys it
    returns. *)
Theorem sort_epochs_raises_for_unknown_label (epochs : Epochs F) c1 c2 :
  (c1 = None /\ sort_epochs epochs c1 c2 = Err IndexError) \/
  (c1 <> None /\
   lookup_code epochs c1 = Err (KeyError c1) /\
   sort_epochs epochs c1 c2 = Err (KeyError c1)) \/
  (is_ok (lookup_code epochs c1) = true /\
   lookup_code epochs c2 = Err (KeyError c2) /\
   sort_epochs epochs c1 c2 = Err (KeyError c2)) \/
  (is_ok (lookup_code epochs c1) = true /\
   is_ok (lookup_code epochs c2) = true /\
   is_ok (sort_epochs epochs c1 c2) = true).
Proof.
  destruct c1 as [l1|]; [right | left; split; reflexivity].
  unfold sort_epochs.
  destruct (lookup_code epochs (Some l1)) as [code1|e] eqn:E1.
  - right.
    destruct (getitem_key _ _ _ E1) as (A & EA). rewrite EA. cbn [bind].
    rewrite concatenate_twice. cbn [bind].
    destruct (lookup_code epochs c2) as [code2|e] eqn:E2; cbn [bind].
    + right. repeat split.
    + left. apply lookup_raises in E2. subst e. repeat split.
  - left. apply lookup_raises in E1. subst e.
    split; [discriminate|]. split; [reflexivity|].
    destruct (getitem epochs (Some l1)) as [A|e] eqn:EA; cbn [bind].
    + rewrite concatenate_twice. reflexivity.
    + apply getitem_raises in EA.
      destruct EA as [(EA & _)|(name & [= <-] & -> & _)];
        [discriminate | reflexivity].
Qed.

(** X18.  When [sort_epochs] returns, both conditions are keys of
    [event_id].  The tensor holds the trials the first condition
    selects, in the order of the input, and then the same trials once
    more: no other trial, and so none of the second condition unless
    the first condition selects it as well.  The events are those with
    the code of the first key followed by those with the code of the
    second.  In a container with one event per trial where the first
    condition selects the trials of its own code only, the tensor has
    twice as many trials as the first condition has events, so that
    tensor and events have equally many entries only if the two
    conditions have equally many events. *)
Theorem sort_epochs_counts (epochs : Epochs F) c1 c2 X evs :
  sort_epochs epochs c1 c2 = Ok (X, evs) ->
  exists l1 code1 code2,
    c1 = Some l1 /\
    lookup_code epochs c1 = Ok code1 /\
    lookup_code epochs c2 = Ok code2 /\
    let sel := trials_with_codes epochs
                 (map snd (matching_ids epochs l1)) in
    shape X
    = (2 * length sel, dim1 (_data epochs), dim2 (_data epochs)) /\
    (forall t c s,
       t < 2 * length sel -> c < dim1 (_data epochs) ->
       s < dim2 (_data epochs) ->
       get3 X t c s
       = get3 (_data epochs) (nth (t mod length sel) sel 0) c s) /\
    (forall i,
       In i sel <->
       i < dim0 (_data epochs) /\
       exists kv,
         In kv (event_id epochs) /\ tags_match l1 (fst kv) = true /\
         event_code (nth i (events epochs) (0, 0, 0)%Z) = snd kv) /\
    evs = (events_with_code (events epochs) code1
           ++ events_with_code (events epochs) code2)%list /\
    (length (events epochs) = dim0 (_data epochs) ->
     (forall kv, In kv (event_id epochs) ->
                 tags_match l1 (fst kv) = true -> snd kv = code1) ->
     length sel = length (events_with_code (events epochs) code1) /\
     (dim0 X = length evs <->
      length (events_with_code (events epochs) code1)
      = length (events_with_code (events epochs) code2))).
Proof.
  intros E. unfold sort_epochs in E.
  destruct c1 as [l1|]; [|discriminate E].
  destruct (getitem epochs (Some l1)) as [A|] eqn:EA; [|discriminate].
  cbn [bind] in E. rewrite concatenate_twice in E. cbn [bind] in E.
  destruct (lookup_code epochs (Some l1)) as [code1|] eqn:Hc1;
    [|discriminate].
  cbn [bind] in E.
  destruct (lookup_code epochs c2) as [code2|] eqn:Hc2; [|discriminate].
  cbn [bind] in E. injection E as <- <-.
  exists l1, code1, code2.
  split; [reflexivity|]. split; [reflexivity|]. split; [reflexivity|].
  pose proof (getitem_data _ _ _ EA) as HA. cbn zeta in HA |- *.
  set (sel := trials_with_codes epochs (map snd (matching_ids epochs l1)))
    in *.
  rewrite HA. cbn [tabulate3 dim0 dim1 dim2].
  split; [unfold shape; cbn [tabulate3 dim0 dim1 dim2]; f_equal; f_equal; lia|].
  split; [|split; [|split; [reflexivity|]]].
  - intros t c s Ht Hc Hs.
    rewrite get3_tabulate3 by (assumption || lia).
    destruct (t <? length sel) eqn:Hlt.
    + apply Nat.ltb_lt in Hlt.
      rewrite get3_tabulate3 by assumption.
      rewrite Nat.mod_small by exact Hlt. reflexivity.
    + apply Nat.ltb_ge in Hlt.
      rewrite get3_tabulate3 by (assumption || lia).
      replace (t mod length sel) with (t - length sel); [reflexivity|].
      apply (Nat.mod_unique _ _ 1); lia.
  - intros i. unfold sel, trials_with_codes.
    rewrite filter_In, in_seq, existsb_exists. split.
    + intros (Hi & code & Hin & Heq). split; [lia|].
      apply in_map_iff in Hin. destruct Hin as (kv & <- & Hin).
      unfold matching_ids in Hin. apply filter_In in Hin.
      destruct Hin as (Hin & Hm). apply Z.eqb_eq in Heq.
      exists kv. auto.
    + intros (Hi & kv & Hin & Hm & Heq). split; [lia|].
      exists (snd kv). split; [|apply Z.eqb_eq; exact Heq].
      apply in_map. unfold matching_ids. apply filter_In. auto.
  - intros Hlen Hown.
    assert (Hsel : length sel
                   = length (events_with_code (events epochs) code1)).
    { unfold sel, trials_with_codes, events_with_code.
      rewrite <- Hlen.
      rewrite <- (filter_positions_length
                    (fun ev => Z.eqb (event_code ev) code1) (events epochs)
                    (0, 0, 0)%Z 0).
      f_equal. apply filter_ext. intros i. rewrite Nat.sub_0_r.
      set (ci := event_code (nth i (events epochs) (0, 0, 0)%Z)).
      destruct (Z.eqb ci code1) eqn:Heq.
      - apply existsb_exists. exists code1. split; [|exact Heq].
        apply (in_map snd _ (l1, code1)). apply key_matches. exact Hc1.
      - destruct (existsb _ _) eqn:Hex; [|reflexivity].
        apply existsb_exists in Hex. destruct Hex as (code & Hin & Hc).
        apply in_map_iff in Hin. destruct Hin as (kv & <- & Hin).
        unfold matching_ids in Hin. apply filter_In in Hin.
        destruct Hin as (Hin & Hm).
        rewrite (Hown kv Hin Hm) in Hc. congruence. }
    split; [exact Hsel|].
    rewrite length_app. lia.
Qed.

End SortProperties.

(** ** The further properties at concrete inputs *)

(** X1 at a fresh and a fitted "evoked" model. *)
Lemma fit_ignores_stored_matrices_witness :
  kind evoked_model = kind fitted_on_two_channels /\
  fst (fit two_channels None None None None None true evoked_model)
  = fst (fit two_channels None None None None None true
             fitted_on_two_channels) /\
  (snd (fit two_channels None None None None None true evoked_model)
   = snd (fit two_channels None None None None None true
              fitted_on_two_channels) \/
   (snd (fit two_channels None None None None None true evoked_model)
    = evoked_model /\
    snd (fit two_channels None None None None None true
             fitted_on_two_channels)
    = fitted_on_two_channels)).
Proof.
  split; [reflexivity|].
  apply (fit_ignores_stored_matrices two_channels None None None None None
           true evoked_model fitted_on_two_channels).
  reflexivity.
Defined.

(** X2 at an input with three labels. *)
Lemma fit_infers_two_conditions_witness :
  kind difference_model = "difference" /\
  (length (event_id three_conditions) <> 2 ->
   fit three_conditions None None None None None true difference_model
   = (Err (ValueError
             ("If conditions are not specified, " ++
              "epochs must contain exactly two types of events!")),
      difference_model)) /\
  (forall a ca b cb,
     event_id three_conditions = [(a, ca); (b, cb)] ->
     fit three_conditions None None None None None true difference_model
     = fit three_conditions None None None (Some a) (Some b) true
           difference_model).
Proof.
  split; [reflexivity|].
  apply (fit_infers_two_conditions three_conditions None None None true
           difference_model).
  reflexivity.
Defined.

(** X3 with conditions and a [keep3] given to an "evoked" model. *)
Lemma evoked_fit_ignores_conditions_witness :
  kind evoked_model = "evoked" /\
  fit two_channels None None (Some 3%Z) (Some "a") (Some "b") true
      evoked_model
  = fit two_channels None None None None None true evoked_model.
Proof.
  split; [reflexivity|].
  apply (evoked_fit_ignores_conditions two_channels None None (Some 3%Z)
           (Some "a") (Some "b") true evoked_model).
  reflexivity.
Defined.

(** On an input without trials [detrend] raises, and so does [fit]
    with detrending, where [fit] without detrending returns. *)
Example detrending_can_raise :
  detrend (_data no_trials) = Err DetrendError /\
  fit no_trials None None None None None true evoked_model
  = (Err DetrendError, evoked_model) /\
  fst (fit no_trials None None None None None false evoked_model) = Ok tt.
Proof. repeat split; vm_compute; reflexivity. Qed.

(** X4 on the input without trials. *)
Lemma fit_detrending_has_no_effect_witness :
  (kind evoked_model = "evoked" \/ kind evoked_model = "difference") /\
  (fit no_trials None None None None None true evoked_model
   = fit no_trials None None None None None false evoked_model \/
   exists k1 k2 k3 a b X e,
     fit_defaults (kind evoked_model) no_trials None None None None None
     = Ok (k1, k2, k3, a, b) /\
     selected_trials (kind evoked_model) no_trials a = Ok (Some X) /\
     detrend X = Err e /\
     fit no_trials None None None None None true evoked_model
     = (Err e, evoked_model)) /\
  (forall k1 k2 k3 a b X,
     fit_defaults (kind evoked_model) no_trials None None None None None
     = Ok (k1, k2, k3, a, b) ->
     selected_trials (kind evoked_model) no_trials a = Ok (Some X) ->
     (forall X', detrend X = Ok X' ->
                 fit no_trials None None None None None true evoked_model
                 = fit no_trials None None None None None false
                       evoked_model) /\
     (forall e, detrend X = Err e ->
                fit no_trials None None None None None true evoked_model
                = (Err e, evoked_model))).
Proof.
  split; [left; reflexivity|].
  apply (fit_detrending_has_no_effect no_trials None None None None None
           evoked_model).
  left; reflexivity.
Defined.

(** X5 at the input with one trial of each of two conditions. *)
Lemma difference_fit_needs_every_trial_witness :
  kind difference_model = "difference" /\
  fit two_conditions None None None None None true difference_model
  = (Ok tt, fitted_on_two_conditions) /\
  exists a b A B,
    ((None : option string) = None /\ (None : option string) = None /\
     map fst (event_id two_conditions) = [a; b] \/
     None = Some a /\ None = Some b) /\
    getitem two_conditions (Some a) = Ok A /\
    getitem two_conditions (Some b) = Ok B /\
    dim2 (_data two_conditions) * (dim0 (_data A) + dim0 (_data B))
    = dim0 (_data two_conditions) * dim2 (_data two_conditions).
Proof.
  split; [reflexivity|]. split; [vm_compute; reflexivity|].
  apply (difference_fit_needs_every_trial two_conditions None None None
           None None true difference_model fitted_on_two_conditions).
  - reflexivity.
  - vm_compute; reflexivity.
Defined.

(** X6 with a filter of three columns for two rows. *)
Lemma transform_rejects_misfit_filter_witness :
  ncols (identity 3 : matrix Q) <> nrows (Matrix 2 2 [[3; 0]; [0; 4]]%Q) /\
  (_transform (Matrix 2 2 [[3; 0]; [0; 4]]%Q) (identity 3) 2 2
   = Err ShapeError \/
   _transform (Matrix 2 2 [[3; 0]; [0; 4]]%Q) (identity 3) 2 2
   = Err LinAlgError).
Proof.
  split; [vm_compute; lia|].
  apply (transform_rejects_misfit_filter (Matrix 2 2 [[3; 0]; [0; 4]]%Q)
           (identity 3) 2 2).
  vm_compute; lia.
Defined.

(** X7 on two channels with keeps 1 and 2. *)
Lemma evoked_fit_outcomes_witness :
  let epochs := two_channels in
  let k1 := 1%Z in
  let k2 := 2%Z in
  let X := flatten_convention (_data epochs) in
  let L := tile (identity (dim2 (_data epochs))) (dim0 (_data epochs)) in
  kind evoked_model = "evoked" /\
  (forall e s,
     fit epochs (Some k1) (Some k2) None None None true evoked_model
     = (Err e, s) ->
     s = evoked_model /\
     ((true = true /\ detrend (_data epochs) = Err e) \/
      (e = LinAlgError /\
       ((exists C0, matmul (transpose X) X = Ok C0 /\
                    linalg_eig C0 = Err e) \/
        (exists D P N C1,
           bias_covariance X L k1 = Ok (D, P, N, C1) /\
           linalg_eig C1 = Err e))))) /\
  (forall s,
     fit epochs (Some k1) (Some k2) None None None true evoked_model
     = (Ok tt, s) ->
     exists U M,
       s = MkJD "evoked" (Some M) (Some U) /\
       nrows U = dim1 (_data epochs) /\
       ncols U = retained k2 (retained k1 (dim1 (_data epochs))) /\
       nrows M = ncols U /\ ncols M = dim1 (_data epochs)) /\
  (true = true ->
   forall e, detrend (_data epochs) = Err e ->
             fit epochs (Some k1) (Some k2) None None None true evoked_model
             = (Err e, evoked_model)).
Proof.
  cbn zeta. split; [reflexivity|].
  apply (evoked_fit_outcomes two_channels (Some 1%Z) (Some 2%Z) None None
           None true evoked_model).
  reflexivity.
Defined.


(** A condition left [None] beside a given one ends the call with
    numpy's [IndexError]: at line 41 for the first, and at line 53,
    with the first stage stored, for the second.  A label no key matches
    ends it with mne's [KeyError]; a label that is no key but whose tag
    two keys carry selects the trials of both. *)
Example conditions_that_are_no_keys :
  fit two_conditions None None None None (Some "b") true difference_model
  = (Err IndexError, difference_model) /\
  fit two_conditions None None None (Some "a") None true difference_model
  = (Err IndexError,
     MkJD "difference" (Some (Matrix 1 1 [[5]]%Q))
          (Some (Matrix 1 1 [[1 # 5]]%Q))) /\
  fst (fit two_conditions None None None (Some "a") (Some "c") true
           difference_model)
  = Err (KeyError (Some "c")) /\
  (exists A, getitem tagged (Some "a") = Ok A /\ dim0 (_data A) = 2) /\
  fst (fit tagged None None None (Some "a") (Some "b") true difference_model)
  = Ok tt.
Proof.
  split; [vm_compute; reflexivity|]. split; [vm_compute; reflexivity|].
  split; [vm_compute; reflexivity|].
  split; [eexists; split; vm_compute; reflexivity|].
  vm_compute; reflexivity.
Qed.

(** X9 at the input with one trial of each of two conditions. *)
Lemma difference_fit_shapes_witness :
  kind difference_model = "difference" /\
  fit two_conditions (Some 1%Z) (Some 1%Z) (Some 1%Z) None None true
      difference_model
  = (Ok tt, fitted_on_two_conditions) /\
  (0 <= 1)%Z /\
  exists U M,
    unmixing fitted_on_two_conditions = Some U /\
    mixing fitted_on_two_conditions = Some M /\
    nrows U = dim1 (_data two_conditions) /\
    ncols U = Nat.min (Z.to_nat 1)
                (Nat.min (Z.to_nat 1)
                   (Nat.min (Z.to_nat 1) (dim1 (_data two_conditions)))) /\
    nrows M = ncols U /\ ncols M = dim1 (_data two_conditions).
Proof.
  split; [reflexivity|]. split; [vm_compute; reflexivity|].
  split; [lia|].
  apply (difference_fit_shapes two_conditions (Some 1%Z) (Some 1%Z)
           (Some 1%Z) None None true difference_model
           fitted_on_two_conditions); try lia.
  - reflexivity.
  - vm_compute; reflexivity.
Defined.

(** X11 at the model fitted on two channels. *)
Lemma get_components_cells_witness :
  let U := Matrix 2 1 [[0]; [1 # 4]]%Q in
  let epochs := two_channels in
  unmixing fitted_on_two_channels = Some U /\
  dim1 (_data epochs) = nrows U /\
  0 < dim0 (_data epochs) /\ 0 < dim2 (_data epochs) /\
  length (events epochs) = dim0 (_data epochs) /\
  distinct (map event_sample (events epochs)) = true /\
  (ncols U = 0 ->
   get_components fitted_on_two_channels epochs = Err ContainerError) /\
  (0 < ncols U ->
   exists C,
     get_components fitted_on_two_channels epochs = Ok C /\
     shape (_data C)
     = (dim0 (_data epochs), ncols U, dim2 (_data epochs)) /\
     nchan (info C) = ncols U /\
     events C = events epochs /\ tmin C = tmin epochs /\
     forall t c s,
       t < dim0 (_data epochs) -> c < ncols U -> s < dim2 (_data epochs) ->
       get3 (_data C) t c s
       = fsum (map (fun ch => fmul (get3 (_data epochs) t ch s) (get U ch c))
                   (seq 0 (dim1 (_data epochs))))).
Proof.
  cbn zeta. split; [reflexivity|]. split; [reflexivity|].
  split; [vm_compute; lia|]. split; [vm_compute; lia|].
  split; [reflexivity|]. split; [reflexivity|].
  apply (get_components_cells fitted_on_two_channels two_channels
           (Matrix 2 1 [[0]; [1 # 4]]%Q));
    [reflexivity | reflexivity | vm_compute; lia | vm_compute; lia
     | reflexivity | reflexivity].
Defined.

(** A model fitted with [keep1 = 0] holds an unmixing without columns,
    and [get_components] raises on it. *)
Example no_component_kept :
  fit two_channels (Some 0%Z) None None None None true evoked_model
  = (Ok tt, MkJD "evoked" (Some (Matrix 0 2 [])) (Some (Matrix 2 0 [[]; []])))
  /\
  get_components (MkJD "evoked" (Some (Matrix 0 2 []))
                       (Some (Matrix 2 0 [[]; []]))) two_channels
  = Err ContainerError.
Proof. split; vm_compute; reflexivity. Qed.

(** X12 at a two-channel model and a one-channel input. *)
Lemma projection_rejects_channel_mismatch_witness :
  unmixing fitted_on_two_channels = Some (Matrix 2 1 [[0]; [1 # 4]]%Q) /\
  dim1 (_data two_conditions) <> nrows (Matrix 2 1 [[0]; [1 # 4]]%Q) /\
  get_components fitted_on_two_channels two_conditions = Err ShapeError /\
  reproject_components fitted_on_two_channels two_conditions
  = Err ShapeError.
Proof.
  split; [reflexivity|]. split; [vm_compute; lia|].
  apply (projection_rejects_channel_mismatch fitted_on_two_channels
           two_conditions (Matrix 2 1 [[0]; [1 # 4]]%Q));
    [reflexivity | vm_compute; lia].
Defined.

(** X13 at a two-channel model and an input without trials. *)
Lemma projection_rejects_empty_input_witness :
  unmixing fitted_on_two_channels = Some (Matrix 2 1 [[0]; [1 # 4]]%Q) /\
  dim1 (_data no_trials) = nrows (Matrix 2 1 [[0]; [1 # 4]]%Q) /\
  dim0 (_data no_trials) * dim2 (_data no_trials) = 0 /\
  get_components fitted_on_two_channels no_trials = Err ShapeError /\
  (forall M, mixing fitted_on_two_channels = Some M ->
             nrows M = ncols (Matrix 2 1 [[0]; [1 # 4]]%Q) ->
             reproject_components fitted_on_two_channels no_trials
             = Err ShapeError).
Proof.
  split; [reflexivity|]. split; [reflexivity|]. split; [reflexivity|].
  apply (projection_rejects_empty_input fitted_on_two_channels no_trials
           (Matrix 2 1 [[0]; [1 # 4]]%Q)); reflexivity.
Defined.

(** X14 at the model fitted on two channels. *)
Lemma reproject_is_mixing_of_components_witness :
  let C := MkEpochs (Tensor 1 1 2 [[[0; 1]]]%Q) (MkInfo 1 1%Q)
             (events two_channels) [("1", 1%Z)] (tmin two_channels) in
  get_components fitted_on_two_channels two_channels = Ok C /\
  mixing fitted_on_two_channels = Some (Matrix 1 2 [[0; 4]]%Q) /\
  reproject_components fitted_on_two_channels two_channels =
  (Y <- flatten (_data C) ;;
   X <- matmul Y (Matrix 1 2 [[0; 4]]%Q) ;;
   T <- unflatten X (dim0 (_data two_channels)) (dim2 (_data two_channels)) ;;
   EpochsArray T (info two_channels) (events two_channels)
     (tmin two_channels))%result.
Proof.
  cbn zeta. split; [vm_compute; reflexivity|]. split; [reflexivity|].
  apply (reproject_is_mixing_of_components fitted_on_two_channels
           two_channels
           (MkEpochs (Tensor 1 1 2 [[[0; 1]]]%Q) (MkInfo 1 1%Q)
              (events two_channels) [("1", 1%Z)] (tmin two_channels))
           (Matrix 1 2 [[0; 4]]%Q));
    [vm_compute; reflexivity | reflexivity].
Defined.

(** X15 at one pass over two channels with [keep2 = 2]. *)
Lemma bootstrap_band_shapes_witness :
  let lo := Matrix 2 2 [[1; 0]; [0; 1]]%Q in
  let hi := Matrix 2 2 [[1; 0]; [0; 1]]%Q in
  bootstrap_components two_channels 1 40 2 (95 # 100) (in_order 1)
  = Ok (lo, hi) /\
  (nrows lo, ncols lo) = (Z.to_nat 2, dim2 (_data two_channels)) /\
  (nrows hi, ncols hi) = (Z.to_nat 2, dim2 (_data two_channels)).
Proof.
  cbn zeta. split; [vm_compute; reflexivity|].
  apply (bootstrap_band_shapes two_channels 1 40 2 (95 # 100) (in_order 1)
           (Matrix 2 2 [[1; 0]; [0; 1]]%Q) (Matrix 2 2 [[1; 0]; [0; 1]]%Q)).
  vm_compute; reflexivity.
Defined.

(** X16 at the same call. *)
Lemma bootstrap_returns_only_for_fitting_keep2_witness :
  bootstrap_components two_channels 1 40 2 (95 # 100) (in_order 1)
  = Ok (Matrix 2 2 [[1; 0]; [0; 1]]%Q, Matrix 2 2 [[1; 0]; [0; 1]]%Q) /\
  1 = 1 /\ (0 <= 2)%Z /\
  (Z.to_nat 2 = Nat.min 15 (Nat.min 40 (dim1 (_data two_channels))) \/
   Nat.min 15 (Nat.min 40 (dim1 (_data two_channels))) = 1).
Proof.
  split; [vm_compute; reflexivity|].
  apply (bootstrap_returns_only_for_fitting_keep2 two_channels 1 40 2
           (95 # 100) (in_order 1)
           (Matrix 2 2 [[1; 0]; [0; 1]]%Q, Matrix 2 2 [[1; 0]; [0; 1]]%Q)).
  vm_compute; reflexivity.
Defined.

(** X18 at two trials of "a" and one of "b". *)
Lemma sort_epochs_counts_witness :
  let X := Tensor 4 1 2 [[[1; 0]]; [[0; 2]]; [[1; 0]]; [[0; 2]]]%Q in
  let evs := [(0, 0, 1); (1, 0, 1); (2, 0, 2)]%Z in
  let epochs := uneven in
  sort_epochs epochs (Some "a") (Some "b") = Ok (X, evs) /\
  exists l1 code1 code2,
    Some "a" = Some l1 /\
    lookup_code epochs (Some "a") = Ok code1 /\
    lookup_code epochs (Some "b") = Ok code2 /\
    let sel := trials_with_codes epochs
                 (map snd (matching_ids epochs l1)) in
    shape X
    = (2 * length sel, dim1 (_data epochs), dim2 (_data epochs)) /\
    (forall t c s,
       t < 2 * length sel -> c < dim1 (_data epochs) ->
       s < dim2 (_data epochs) ->
       get3 X t c s
       = get3 (_data epochs) (nth (t mod length sel) sel 0) c s) /\
    (forall i,
       In i sel <->
       i < dim0 (_data epochs) /\
       exists kv,
         In kv (event_id epochs) /\ tags_match l1 (fst kv) = true /\
         event_code (nth i (events epochs) (0, 0, 0)%Z) = snd kv) /\
    evs = (events_with_code (events epochs) code1
           ++ events_with_code (events epochs) code2)%list /\
    (length (events epochs) = dim0 (_data epochs) ->
     (forall kv, In kv (event_id epochs) ->
                 tags_match l1 (fst kv) = true -> snd kv = code1) ->
     length sel = length (events_with_code (events epochs) code1) /\
     (dim0 X = length evs <->
      length (events_with_code (events epochs) code1)
      = length (events_with_code (events epochs) code2))).
Proof.
  cbn zeta. split; [vm_compute; reflexivity|].
  apply (sort_epochs_counts uneven (Some "a") (Some "b")
           (Tensor 4 1 2 [[[1; 0]]; [[0; 2]]; [[1; 0]]; [[0; 2]]]%Q)
           [(0, 0, 1); (1, 0, 1); (2, 0, 2)]%Z).
  vm_compute; reflexivity.
Defined.

(** With hierarchical labels the label "a" selects the trials of "a/x"
    and of "a/y" on line 80 and is no key on line 81: [sort_epochs]
    raises its [KeyError]; on a [None] it raises numpy's
    [IndexError]. *)
Example sort_epochs_on_tags :
  sort_epochs tagged (Some "a") (Some "b") = Err (KeyError (Some "a")) /\
  sort_epochs tagged None (Some "b") = Err IndexError /\
  sort_epochs tagged (Some "b") None = Err (KeyError None) /\
  is_ok (sort_epochs tagged (Some "a/x") (Some "b")) = true.
Proof. repeat split; vm_compute; reflexivity. Qed.

(** ** The first stage across the modes, and the signed filter *)

Section StageProperties.
Context {F : Type} {fl : Float F} {lib : Library F}.

(** X19.  The first stage does not depend on the mode: when a
    "difference" [fit] raises after having stored its first stage, the
    matrices it leaves behind are the ones an "evoked" [fit] of the same
    input with the same [keep1] and [keep2] stores, whatever conditions
    and [keep3] that call is given, without detrending and, when
    [detrend] returns on the data, with detrending as well. *)
Theorem difference_first_stage_is_evoked_fit (epochs : Epochs F)
    keep1 keep2 keep3 c1 c2 det self e s' :
  kind self = "difference" ->
  fit epochs keep1 keep2 keep3 c1 c2 det self = (Err e, s') ->
  s' <> self ->
  forall keep3' c1' c2' det' ev,
    kind ev = "evoked" ->
    det' = false \/ is_ok (detrend (_data epochs)) = true ->
    fit epochs keep1 keep2 keep3' c1' c2' det' ev
    = (Ok tt, MkJD "evoked" (mixing s') (unmixing s')).
Proof.
  intros Hk Hfit Hne keep3' c1' c2' det' ev Hev Hdet.
  destruct (fit_cases epochs keep1 keep2 keep3 c1 c2 det self)
    as [(e' & E)|(k1 & k2 & k3 & a & b & X & L & P & N & Q & U & M &
                  Ed & Es & Et & Eu & Em & Hc)].
  { rewrite E in Hfit. injection Hfit as _ <-. contradiction. }
  destruct Hc as [(_ & E)|[(_ & e' & E)|(_ & L2 & Y & P2 & N2 & Q2 & U2 &
                                          QNP & M2 & _ & _ & _ & _ & _ & _ &
                                          E)]];
    rewrite E in Hfit; try discriminate.
  injection Hfit as _ <-. cbn [mixing unmixing].
  apply stage1_input_inv in Es. destruct Es as (HX & HL).
  assert (Hks : k1 = match keep1 with
                     | Some v => v
                     | None => Z.of_nat (nchan (info epochs))
                     end /\
                k2 = match keep2 with
                     | Some v => v
                     | None => match keep1 with
                               | Some v => v
                               | None => Z.of_nat (nchan (info epochs))
                               end
                     end).
  { unfold fit_defaults in Ed. rewrite Hk in Ed.
    cbn [String.eqb Ascii.eqb Bool.eqb] in Ed.
    destruct c1, c2;
      try (destruct (map fst (event_id epochs)) as [|x [|y [|z l]]];
           try discriminate Ed);
      injection Ed as <- <- _ _ _; auto. }
  destruct Hks as (Hk1 & Hk2).
  rewrite (evoked_fit_eq epochs keep1 keep2 keep3' c1' c2' det' ev Hev).
  rewrite <- Hk2, <- Hk1, <- HX, <- HL.
  rewrite first_stage_eq, Et. cbn [bind]. rewrite Eu. cbn [bind].
  rewrite Em. cbn [bind]. rewrite Hev.
  destruct det'; [|reflexivity].
  destruct (detrend (_data epochs)); [reflexivity|].
  destruct Hdet as [Hdet|Hdet]; discriminate Hdet.
Qed.

(** X20.  In the signed filter of lines 52-54 the sign of a block
    depends on the position of the trial alone: with nA trials of the
    first condition and nB of the second, the columns of the trial
    positions below nA hold the cells of the identity and those of the
    next nB positions hold them times -1, whichever condition the trial
    at that position of the input belongs to. *)
Theorem stage2_filter_cells (epochs : Epochs F) a b L A B :
  stage2_filter epochs a b = Ok L ->
  getitem epochs a = Ok A ->
  getitem epochs b = Ok B ->
  forall i t s,
    i < dim2 (_data epochs) -> s < dim2 (_data epochs) ->
    (t < dim0 (_data A) ->
     get L i (t * dim2 (_data epochs) + s)
     = if i =? s then fone else fzero) /\
    (dim0 (_data A) <= t < dim0 (_data A) + dim0 (_data B) ->
     get L i (t * dim2 (_data epochs) + s)
     = fmul (if i =? s then fone else fzero) (of_Z (-1))).
Proof.
  intros EL EA EB i t s Hi Hs. unfold stage2_filter in EL.
  rewrite EA, EB in EL. cbn [bind] in EL. unfold hconcat in EL.
  cbn [tile identity scale tabulate nrows ncols] in EL.
  rewrite Nat.eqb_refl in EL. injection EL as <-.
  set (n := dim2 (_data epochs)) in *.
  split.
  - intros Ht. rewrite get_tabulate by (assumption || nia).
    replace (t * n + s <? n * dim0 (_data A)) with true
      by (symmetry; apply Nat.ltb_lt; nia).
    fold (identity n). fold (tile (identity n) (dim0 (_data A))).
    unfold tile. cbn [identity tabulate nrows ncols].
    rewrite get_tabulate by (assumption || nia).
    rewrite rank_mod by exact Hs.
    fold (identity n). unfold identity.
    rewrite get_tabulate by assumption. reflexivity.
  - intros Ht. rewrite get_tabulate by (assumption || nia).
    replace (t * n + s <? n * dim0 (_data A)) with false
      by (symmetry; apply Nat.ltb_ge; nia).
    replace (t * n + s - n * dim0 (_data A))
      with ((t - dim0 (_data A)) * n + s) by nia.
    fold (identity n). fold (tile (identity n) (dim0 (_data B))).
    fold (scale (tile (identity n) (dim0 (_data B))) (of_Z (-1))).
    unfold scale. cbn [tile identity tabulate nrows ncols].
    rewrite get_tabulate by (assumption || nia).
    fold (identity n). fold (tile (identity n) (dim0 (_data B))).
    unfold tile. cbn [identity tabulate nrows ncols].
    rewrite get_tabulate by (assumption || nia).
    rewrite rank_mod by exact Hs.
    fold (identity n). unfold identity.
    rewrite get_tabulate by assumption. reflexivity.
Qed.

End StageProperties.

(** X19 at the "difference" fit that raises in its second stage. *)
Lemma difference_first_stage_is_evoked_fit_witness :
  let s' := MkJD "difference" (Some (Matrix 1 1 [[3]]%Q))
                 (Some (Matrix 1 1 [[1 # 3]])) in
  kind difference_model = "difference" /\
  fit three_conditions None None None (Some "a") (Some "b") true
      difference_model
  = (Err ShapeError, s') /\
  s' <> difference_model /\
  forall keep3' c1' c2' det' ev,
    kind ev = "evoked" ->
    det' = false \/ is_ok (detrend (_data three_conditions)) = true ->
    fit three_conditions None None keep3' c1' c2' det' ev
    = (Ok tt, MkJD "evoked" (mixing s') (unmixing s')).
Proof.
  cbn zeta. split; [reflexivity|]. split; [vm_compute; reflexivity|].
  split; [discriminate|].
  apply (difference_first_stage_is_evoked_fit three_conditions None None
           None (Some "a") (Some "b") true difference_model ShapeError
           (MkJD "difference" (Some (Matrix 1 1 [[3]]%Q))
                 (Some (Matrix 1 1 [[1 # 3]]))));
    [reflexivity | vm_compute; reflexivity | discriminate].
Defined.

(** Without trials and without detrending, a "difference" [fit] whose
    second condition is no label stores its first stage and raises; an
    "evoked" [fit] with detrending then raises on the same input, so
    that the premise on [detrend] cannot be dropped. *)
Example first_stage_stored_where_detrend_raises :
  fst (fit no_trials None None None (Some "a") (Some "c") false
           difference_model)
  = Err (KeyError (Some "c")) /\
  snd (fit no_trials None None None (Some "a") (Some "c") false
           difference_model)
  <> difference_model /\
  fit no_trials None None None None None true evoked_model
  = (Err DetrendError, evoked_model).
Proof.
  split; [vm_compute; reflexivity|].
  split; [vm_compute; discriminate | vm_compute; reflexivity].
Qed.

(** X20 at the input with one trial of each of two conditions. *)
Lemma stage2_filter_cells_witness :
  let L := Matrix 2 4 [[1; 0; -1; 0]; [0; 1; 0; -1]]%Q in
  let A := MkEpochs (Tensor 1 1 2 [[[3; 0]]]%Q) (MkInfo 1 1%Q)
             [(0, 0, 1)%Z] [("a", 1%Z)] 0%Q in
  let B := MkEpochs (Tensor 1 1 2 [[[0; 4]]]%Q) (MkInfo 1 1%Q)
             [(1, 0, 2)%Z] [("b", 2%Z)] 0%Q in
  stage2_filter two_conditions (Some "a") (Some "b") = Ok L /\
  getitem two_conditions (Some "a") = Ok A /\
  getitem two_conditions (Some "b") = Ok B /\
  forall i t s,
    i < dim2 (_data two_conditions) -> s < dim2 (_data two_conditions) ->
    (t < dim0 (_data A) ->
     get L i (t * dim2 (_data two_conditions) + s)
     = if i =? s then fone else fzero) /\
    (dim0 (_data A) <= t < dim0 (_data A) + dim0 (_data B) ->
     get L i (t * dim2 (_data two_conditions) + s)
     = fmul (if i =? s then fone else fzero) (of_Z (-1))).
Proof.
  cbn zeta. split; [vm_compute; reflexivity|].
  split; [vm_compute; reflexivity|]. split; [vm_compute; reflexivity|].
  apply (stage2_filter_cells two_conditions (Some "a") (Some "b")
           (Matrix 2 4 [[1; 0; -1; 0]; [0; 1; 0; -1]]%Q)
           (MkEpochs (Tensor 1 1 2 [[[3; 0]]]%Q) (MkInfo 1 1%Q)
              [(0, 0, 1)%Z] [("a", 1%Z)] 0%Q)
           (MkEpochs (Tensor 1 1 2 [[[0; 4]]]%Q) (MkInfo 1 1%Q)
              [(1, 0, 2)%Z] [("b", 2%Z)] 0%Q));
    vm_compute; reflexivity.
Defined.
